(** * Weather dashboards: a shallow embedding of the browser front ends

    The repository ships three front-end classes:
    - [WeatherOracle] and [EnvironmentalDashboard] (script.js), the two
      dashboard variants that talk to [/api/predict];
    - [WeatherApp] (the map based application), which talks to [/predict].

    A number is a binary64 double: [NaN], one of the two infinities, or a
    finite double given by its value, a rational; the two zeros are not
    told apart, which no code modelled here can observe.  Arithmetic rounds
    to the nearest double, the even one on a tie, and overflows to an
    infinity ([JS.fl]).  A number in the JSON text of an answer is kept as
    the rational its decimal text denotes and is rounded when it is read;
    the confidence of a confidence entry, which the sort compares, is the
    double read.
    The coordinates written in the sources (New York's 40.7128 and
    -74.0060, the table of sample cities) are written as their decimal
    texts: they are only compared with whole bounds, which rounding does
    not change, and passed on.  Strings are byte strings; names and
    keywords are ASCII. *)

From Stdlib Require Import ZArith QArith Qabs Qround Qpower Lia Lqa.
From Stdlib Require Import Ascii DecimalString.
From stdpp Require Import base option list sorting strings gmap.

Local Open Scope Z_scope.

(** ** The fragment of JavaScript the sources rely on *)
Module JS.

(** IEEE numbers as the code sees them; [Num q] is the double whose value
    is [q]. *)
Inductive number := NaN | PInf | NInf | Num (q : Q).

(** A numeric property of a JSON object: it can be missing ([undefined]),
    [null], or a number, kept as the rational that its decimal text
    denotes. *)
Inductive field := Absent | Null | Number (q : Q).

(** A thrown exception with its [message].  The texts of the exceptions
    the engine itself throws are V8's. *)
Inductive exn :=
| Error (message : string)
| TypeError (message : string)
| RangeError (message : string).

Definition message (e : exn) : string :=
  match e with Error m | TypeError m | RangeError m => m end.

Definition sign_inf (pos : bool) : number := if pos then PInf else NInf.

(** *** Binary64 *)

(** The nearest integer, the even one on a tie. *)
Definition round_even (m : Q) : Z :=
  let f := Qfloor m in
  match (m - inject_Z f ?= 1 # 2)%Q with
  | Lt => f
  | Gt => f + 1
  | Eq => if Z.even f then f else f + 1
  end.

(** The exponent [e] with [2^e <= a < 2^(e+1)], for a positive [a]. *)
Definition ilog2 (a : Q) : Z :=
  let e := Z.log2 (Qnum a) - Z.log2 (Z.pos (Qden a)) in
  if Qlt_le_dec a (2 ^ e)%Q then e - 1 else e.

(** The double nearest to [x], the one with the even significand on a tie:
    the magnitude is rounded to a multiple of [2^q], where [q] leaves 53
    bits to the significand and is not below that of a subnormal, -1074;
    from 2^1024 on the result is an infinity.  The value is kept in lowest
    terms. *)
Definition fl (x : Q) : number :=
  if Qeq_bool x 0%Q then Num 0%Q
  else
    let a := Qabs x in
    let q := Z.max (ilog2 a - 52) (-1074) in
    let y := (inject_Z (round_even (a / 2 ^ q)) * 2 ^ q)%Q in
    if Qle_bool (2 ^ 1024)%Q y then sign_inf (Qle_bool 0%Q x)
    else Num (Qred (if Qle_bool 0%Q x then y else - y)%Q).

(** What the engine reads from a JSON number, or from the literal in the
    source, is the nearest double. *)
Definition ToNumber (f : field) : number :=
  match f with
  | Absent => NaN
  | Null => Num 0%Q
  | Number q => fl q
  end.

Definition truthy_num (n : number) : bool :=
  match n with
  | NaN => false
  | PInf | NInf => true
  | Num q => negb (Qeq_bool q 0%Q)
  end.

(** [ToBoolean]: [undefined], [null], [0] and [NaN] are falsy. *)
Definition truthy (f : field) : bool :=
  match f with
  | Absent | Null => false
  | Number q => truthy_num (fl q)
  end.

Definition truthy_str (s : string) : bool :=
  match s with EmptyString => false | _ => true end.

(** [a || b] at the three operand types that occur. *)
Definition or_field (a : field) (b : number) : number :=
  if truthy a then ToNumber a else b.

Definition or_num (a b : number) : number :=
  if truthy_num a then a else b.

Definition or_str (a : option string) (b : string) : string :=
  match a with
  | Some s => if truthy_str s then s else b
  | None => b
  end.

(** Comparisons: every comparison with [NaN] is false. *)
Definition lt (a b : number) : bool :=
  match a, b with
  | NaN, _ | _, NaN => false
  | PInf, _ => false
  | _, NInf => false
  | NInf, _ => true
  | _, PInf => true
  | Num x, Num y => if Qlt_le_dec x y then true else false
  end.

Definition le (a b : number) : bool :=
  match a, b with
  | NaN, _ | _, NaN => false
  | NInf, _ => true
  | _, PInf => true
  | PInf, _ => false
  | _, NInf => false
  | Num x, Num y => Qle_bool x y
  end.

Definition gt (a b : number) : bool := lt b a.
Definition ge (a b : number) : bool := le b a.

Definition neg (a : number) : number :=
  match a with
  | NaN => NaN
  | PInf => NInf
  | NInf => PInf
  | Num x => Num (- x)%Q
  end.

(** The sum, difference, product and quotient as real numbers, without
    rounding.  They stand for the operations of the engine only where
    rounding changes nothing that is looked at; see [daysFromNow], their
    one use. *)
Definition add (a b : number) : number :=
  match a, b with
  | NaN, _ | _, NaN => NaN
  | PInf, NInf | NInf, PInf => NaN
  | PInf, _ | _, PInf => PInf
  | NInf, _ | _, NInf => NInf
  | Num x, Num y => Num (x + y)%Q
  end.

Definition sub (a b : number) : number := add a (neg b).

Definition mul (a b : number) : number :=
  match a, b with
  | NaN, _ | _, NaN => NaN
  | Num x, Num y => Num (x * y)%Q
  | Num x, PInf | PInf, Num x =>
      if Qeq_bool x 0%Q then NaN else sign_inf (Qle_bool 0%Q x)
  | Num x, NInf | NInf, Num x =>
      if Qeq_bool x 0%Q then NaN else sign_inf (negb (Qle_bool 0%Q x))
  | PInf, PInf | NInf, NInf => PInf
  | PInf, NInf | NInf, PInf => NInf
  end.

(** [a + b], [a - b] and [a * b] on doubles: the exact result, rounded. *)
Definition fadd (a b : number) : number :=
  match a, b with
  | NaN, _ | _, NaN => NaN
  | PInf, NInf | NInf, PInf => NaN
  | PInf, _ | _, PInf => PInf
  | NInf, _ | _, NInf => NInf
  | Num x, Num y => fl (x + y)
  end.

Definition fsub (a b : number) : number := fadd a (neg b).

Definition fmul (a b : number) : number :=
  match a, b with
  | NaN, _ | _, NaN => NaN
  | Num x, Num y => fl (x * y)
  | Num x, PInf | PInf, Num x =>
      if Qeq_bool x 0%Q then NaN else sign_inf (Qle_bool 0%Q x)
  | Num x, NInf | NInf, Num x =>
      if Qeq_bool x 0%Q then NaN else sign_inf (negb (Qle_bool 0%Q x))
  | PInf, PInf | NInf, NInf => PInf
  | PInf, NInf | NInf, PInf => NInf
  end.

(** [Math.round]: the nearest integer, ties towards [+Infinity]; the
    result is a double whenever the argument is one. *)
Definition round_Q (x : Q) : Z := Qfloor (x + (1 # 2))%Q.

Definition Math_round (a : number) : number :=
  match a with
  | Num x => Num (inject_Z (round_Q x))
  | other => other
  end.

(** [Math.max] of two numbers. *)
Definition Math_max (a b : number) : number :=
  match a, b with
  | NaN, _ | _, NaN => NaN
  | PInf, _ | _, PInf => PInf
  | NInf, y => y
  | x, NInf => x
  | Num x, Num y => if Qle_bool x y then Num y else Num x
  end.


(** [1 / b], with [1 / 0 = Infinity]. *)
Definition inv (b : number) : number :=
  match b with
  | NaN => NaN
  | PInf | NInf => Num 0%Q
  | Num y => if Qeq_bool y 0%Q then PInf else Num (/ y)%Q
  end.

Definition div (a b : number) : number := mul a (inv b).

(** [Math.ceil]. *)
Definition Math_ceil (a : number) : number :=
  match a with
  | Num x => Num (inject_Z (Qceiling x))
  | other => other
  end.

Definition isNaN (a : number) : bool :=
  match a with NaN => true | _ => false end.

(** A finite number of magnitude at most [2^k]. *)
Definition bounded (k : Z) (a : number) : Prop :=
  exists y, a = Num y /\ (Qabs y <= 2 ^ k)%Q.

(** *** Strings *)

Definition lower_ascii (c : ascii) : ascii :=
  let n := nat_of_ascii c in
  if ((65 <=? n) && (n <=? 90))%nat then ascii_of_nat (n + 32) else c.

(** [String.prototype.toLowerCase] on ASCII text. *)
Fixpoint toLowerCase (s : string) : string :=
  match s with
  | EmptyString => EmptyString
  | String c r => String (lower_ascii c) (toLowerCase r)
  end.

(** Whether a text is made of ASCII characters only. *)
Fixpoint is_ascii (s : string) : bool :=
  match s with
  | EmptyString => true
  | String c r => (nat_of_ascii c <? 128)%nat && is_ascii r
  end.

(** [hay.includes(needle)]. *)
Fixpoint includes (hay needle : string) : bool :=
  String.prefix needle hay ||
  match hay with
  | EmptyString => false
  | String _ r => includes r needle
  end.

(** *** [Number.prototype.toFixed] *)

Definition digit (d : Z) : ascii := ascii_of_nat (48 + Z.to_nat d).

(** The last [f] decimal digits of [r], most significant first. *)
Fixpoint frac_digits (f : nat) (r : Z) : string :=
  match f with
  | O => EmptyString
  | S f' => frac_digits f' (r / 10) +:+ String (digit (r mod 10)) EmptyString
  end.

Definition decimal (n : Z) : string :=
  NilZero.string_of_uint (N.to_uint (Z.to_N n)).

Section ToFixed.
(** [Number::toString], which [toFixed] falls back to from 10^21 on; its
    output depends on the shortest round-trip digits of the double. *)
Variable NumberToString : Q -> string.

(** [x.toFixed(f)] for a finite [x], by the steps of the standard: the sign
    is split off; from 10^21 on the magnitude is printed by
    [Number::toString]; below, [n] is the integer with [n / 10^f] nearest
    to the magnitude (the larger one on a tie) and its digits are printed
    with a point before the last [f]. *)
Definition toFixed_finite (x : Q) (f : nat) : string :=
  let s := if Qlt_le_dec x 0%Q then "-" else "" in
  let x := Qabs x in
  let m :=
    if Qle_bool (inject_Z (10 ^ 21)) x then NumberToString x
    else
      let p := 10 ^ Z.of_nat f in
      let n := Qfloor (x * inject_Z p + (1 # 2))%Q in
      match f with
      | O => decimal n
      | _ => decimal (n / p) +:+ "." +:+ frac_digits f (n mod p)
      end in
  s +:+ m.

Definition toFixed (a : number) (f : nat) : string :=
  match a with
  | NaN => "NaN"
  | PInf => "Infinity"
  | NInf => "-Infinity"
  | Num x => toFixed_finite x f
  end.
End ToFixed.

(** *** [Date] *)

(** A [Date] object: its time value in milliseconds since the epoch, or
    [None] for an Invalid Date. *)
Definition Date := option Z.

Definition msPerDay : Z := 86400000.

(** The time value as a number, as in [selectedDate - today]. *)
Definition time_value (d : Date) : number :=
  match d with
  | Some t => Num (inject_Z t)
  | None => NaN
  end.

(** Year, month and day of the proleptic Gregorian calendar for a day
    number counted from 1970-01-01. *)
Definition civil_from_days (z : Z) : Z * Z * Z :=
  let z := z + 719468 in
  let era := z / 146097 in
  let doe := z - era * 146097 in
  let yoe := (doe - doe / 1460 + doe / 36524 - doe / 146096) / 365 in
  let doy := doe - (365 * yoe + yoe / 4 - yoe / 100) in
  let mp := (5 * doy + 2) / 153 in
  let d := doy - (153 * mp + 2) / 5 + 1 in
  let m := if mp <? 10 then mp + 3 else mp - 9 in
  let y := yoe + era * 400 in
  (if m <=? 2 then y + 1 else y, m, d).

Definition year_of (t : Z) : Z := fst (fst (civil_from_days (t / msPerDay))).

(** Years 0000 to 9999 take four digits, the others a sign and six. *)
Definition year_string (y : Z) : string :=
  if (0 <=? y) && (y <=? 9999) then frac_digits 4 y
  else (if y <? 0 then "-" else "+") +:+ frac_digits 6 (Z.abs y).

Definition iso_string (t : Z) : string :=
  let '(y, m, d) := civil_from_days (t / msPerDay) in
  let ms := t mod msPerDay in
  year_string y +:+ "-" +:+ frac_digits 2 m +:+ "-" +:+ frac_digits 2 d
  +:+ "T" +:+ frac_digits 2 (ms / 3600000)
  +:+ ":" +:+ frac_digits 2 (ms / 60000 mod 60)
  +:+ ":" +:+ frac_digits 2 (ms / 1000 mod 60)
  +:+ "." +:+ frac_digits 3 (ms mod 1000) +:+ "Z".

(** [Date.prototype.toISOString], which throws on an Invalid Date. *)
Definition toISOString (d : Date) : exn + string :=
  match d with
  | Some t => inr (iso_string t)
  | None => inl (RangeError "Invalid time value")
  end.

(** [s.slice(0, n)] on a string. *)
Definition str_slice0 (n : nat) (s : string) : string := String.substring 0 n s.

(** *** Arrays *)

Section ArraySort.
Context {A : Type}.
(** The comparator returns a number: negative when its first argument
  must come first. *)
Variable cmp : A -> A -> Q.

Fixpoint sort_insert (x : A) (l : list A) : list A :=
  match l with
  | [] => [x]
  | y :: r => if Qle_bool (cmp x y) 0%Q then x :: y :: r
              else y :: sort_insert x r
  end.

(** [Array.prototype.sort(cmp)].  The standard requires the sort to be
    stable, so for a consistent comparator the result does not depend on
    the engine's algorithm; it is computed here by stable insertion. *)
Fixpoint Array_sort (l : list A) : list A :=
  match l with
  | [] => []
  | x :: r => sort_insert x (Array_sort r)
  end.
End ArraySort.

(** [arr.slice(0, n)]. *)
Definition slice0 {A : Type} (n : nat) (l : list A) : list A := take n l.

(** *** Objects *)

(** What a lookup in a table written as an object literal finds under a
    key, when the table holds texts: a text, or, under a name that every
    object inherits, a member of [Object.prototype] (a function, or the
    prototype itself under [__proto__]), which is truthy and is no text. *)
Inductive found := Text (s : string) | Inherited (name : string).

(** The property names every object literal inherits. *)
Definition Object_prototype_names : list string :=
  [ "constructor"; "hasOwnProperty"; "isPrototypeOf"; "propertyIsEnumerable";
    "toLocaleString"; "toString"; "valueOf"; "__proto__";
    "__defineGetter__"; "__defineSetter__"; "__lookupGetter__";
    "__lookupSetter__" ].

(** *** JSON documents, as sent by [JSON.stringify] *)
#[warnings="-register-all"] Inductive json :=
| JNull
| JNumber (q : Q)
| JString (s : string)
| JObject (members : list (string * json)).

(** [JSON.stringify] writes a non-finite number as [null]. *)
Definition json_of_number (n : number) : json :=
  match n with
  | Num q => JNumber q
  | _ => JNull
  end.

Fixpoint assoc (k : string) (ms : list (string * json)) : option json :=
  match ms with
  | [] => None
  | (k', v) :: r => if bool_decide (k' = k) then Some v else assoc k r
  end.

(** The member [k] of an object, if it has one. *)
Definition member (k : string) (j : json) : option json :=
  match j with
  | JObject ms => assoc k ms
  | _ => None
  end.

End JS.

(** ** What the [/api/predict] back end answers (script.js consumers) *)
Module Api.

(** One entry of [data.variables]; [value] and a numeric [confidence] are
    kept as the rationals the JSON text denotes. *)
Module VariableEntry.
Record t := {
  name : string;
  value : Q;
  unit : option string;
  confidence : JS.field
}.
End VariableEntry.

(** One entry of [data.confidence]; [confidence] is the number as read:
    the value of the double, which the sort compares. *)
Module ConfidenceEntry.
Record t := {
  variable : string;
  confidence : Q
}.
End ConfidenceEntry.

(** The body of a successful answer.  [summary] is a plain object read by
    property name; a missing [confidence] array is [None]. *)
Record prediction := {
  summary : gmap string JS.field;
  variables : list VariableEntry.t;
  confidence : option (list ConfidenceEntry.t)
}.

(** The outcome of [fetch] followed by [response.json()].  [Status] has
    the body when it parses to a prediction, which [displayResults] renders
    ([None] when it does not parse); [StatusOther] is an ok reply whose
    body parses to a value on which [displayResults] throws: [null] itself
    when [null] holds, else a value without a summary, with variables that
    are no array, with a variable without a numeric value, and the like.
    Bodies that are no prediction and are rendered all the same (a summary
    whose values are texts, say) are not covered. *)
Inductive response :=
| NetworkFailure
| Status (ok : bool) (status : Z) (body : option prediction)
| StatusOther (status : Z) (null : bool).

(** What [this.currentData] holds once a body has been stored: a
    prediction, or a value that could not be rendered. *)
Inductive stored := Rendered (p : prediction) | Unrendered.

(** A selected place, as kept in [selectedLocation]. *)
Module Location.
Record t := {
  name : string;
  latitude : JS.number;
  longitude : JS.number
}.
End Location.

End Api.

(** ** The page as the dashboards write it *)
Module Dom.

(** A [div.weather-item]: heading, value and unit. *)
Record weather_item := {
  key : string;
  item_value : JS.field;
  item_unit : string
}.

(** A [div.variable-row]: its [data-category] attribute (the header row has
    none) and its four cells.  The inline animation delay is not kept. *)
Record variable_row := {
  data_category : option string;
  cell_name : string;
  cell_value : string;
  cell_unit : string;
  cell_confidence : string
}.

(** A [div.confidence-item]: heading, width of the bar in percent, caption. *)
Record confidence_item := {
  heading : string;
  fill_width : JS.number;
  caption : string
}.

(** The confidence section holds either a notice or the items. *)
Inductive confidence_section :=
| Notice (html : string)
| Items (items : list confidence_item).

Definition items_of (c : confidence_section) : list confidence_item :=
  match c with
  | Notice _ => []
  | Items l => l
  end.

Record results := {
  weatherSummary : list weather_item;
  variablesTable : list variable_row;
  confidenceSection : confidence_section
}.

(** What one run of the predict action does to the page and the network,
    in order.  [displayResults r] is a call of [displayResults] that
    returns, having written [r]; [displayInterrupted] is a call that throws
    on the way: what it wrote before stays in the results section, which is
    hidden at that point and is written anew by the next call. *)
Inductive effect :=
| showError (msg : string)
| hideError
| showLoading
| hideLoading
| showResults
| hideResults
| predictBtn (text : string) (disabled : bool)
| fetch (url : string) (body : JS.json)
| displayResults (r : results)
| displayInterrupted
| smoothScrollToResults.

Definition is_fetch (e : effect) : bool :=
  match e with fetch _ _ => true | _ => false end.

Definition is_showError (e : effect) : bool :=
  match e with showError _ => true | _ => false end.

Definition is_displayResults (e : effect) : bool :=
  match e with displayResults _ => true | _ => false end.

Definition is_showLoading (e : effect) : bool :=
  match e with showLoading => true | _ => false end.

Definition is_hideLoading (e : effect) : bool :=
  match e with hideLoading => true | _ => false end.

(** A text that survives being written through [innerHTML]: it holds no
    markup, no character reference, no carriage return and no NUL. *)
Fixpoint verbatim (s : string) : bool :=
  match s with
  | EmptyString => true
  | String c r =>
      negb (existsb (Nat.eqb (nat_of_ascii c)) [60; 38; 13; 0]%nat)
      && verbatim r
  end.

(** The name and the unit of a variable are written into the row as HTML. *)
Definition verbatim_entry (v : Api.VariableEntry.t) : bool :=
  verbatim (Api.VariableEntry.name v)
  && verbatim (JS.or_str (Api.VariableEntry.unit v) "").

(** A row of the variables table as the filters see it: the row and the
    inline [style.display] put on it (empty until a filter has run). *)
Record table_row := {
  row : variable_row;
  display : string
}.

(** The rows of a freshly built table, for rows whose cells were written
    verbatim: the text of a cell is then what was written into it. *)
Definition rendered (rows : list variable_row) : list table_row :=
  map (fun r => {| row := r; display := "" |}) rows.

End Dom.

(** ** script.js, first class: the dashboard with a location picker *)
Module WeatherOracle.
Import Api Dom.

Record state := {
  isLoading : bool;
  selectedLocation : option Location.t;
  currentData : option stored
}.

Definition apiBaseUrl : string := "http://localhost:5000/api".

(** [summary.k]: a property read on the summary object. *)
Definition prop (summary : gmap string JS.field) (k : string) : JS.field :=
  default JS.Absent (summary !! k).

Definition displayWeatherSummary (summary : gmap string JS.field)
  : list weather_item :=
  [ {| key := "🌡️ Average Temperature (°C)";
       item_value := prop summary "temperature"; item_unit := "°C" |};
    {| key := "🥵 Feels Like Temperature (°C)";
       item_value := prop summary "feels_like"; item_unit := "°C" |};
    {| key := "☔ Probability of Rain (%)";
       item_value := prop summary "rain_probability"; item_unit := "%" |};
    {| key := "❄️ Probability of Snow (%)";
       item_value := prop summary "snow_probability"; item_unit := "%" |};
    {| key := "⚡ Probability of Storm (%)";
       item_value := prop summary "storm_probability"; item_unit := "%" |};
    {| key := "🌤️ Sunshine Index (%)";
       item_value := prop summary "sunshine_index"; item_unit := "%" |};
    {| key := "💧 Humidity Index (%)";
       item_value := prop summary "humidity_index"; item_unit := "%" |};
    {| key := "💨 Wind Speed (m/s)";
       item_value := prop summary "wind_speed"; item_unit := "m/s" |} ].

Definition getVariableCategory (name : string) : string :=
  let lowerName := JS.toLowerCase name in
  if JS.includes lowerName "temperature" then "temperature"
  else if JS.includes lowerName "moisture" || JS.includes lowerName "humidity"
  then "moisture"
  else if JS.includes lowerName "radiation" || JS.includes lowerName "flux"
  then "radiation"
  else if JS.includes lowerName "precipitation" || JS.includes lowerName "rain"
          || JS.includes lowerName "snow"
  then "precipitation"
  else "other".

Section Render.
Variable NumberToString : Q -> string.

Definition headerRow : variable_row :=
  {| data_category := None;
     cell_name := "Variable";
     cell_value := "Predicted Value";
     cell_unit := "Unit";
     cell_confidence := "Confidence" |}.

(** The body of the [forEach] of [displayVariablesTable]. *)
Definition variableRow (variable : VariableEntry.t) : variable_row :=
  let confidence :=
    if JS.truthy (VariableEntry.confidence variable)
    then JS.toFixed NumberToString
           (JS.fmul (JS.ToNumber (VariableEntry.confidence variable))
              (JS.Num 100)) 1
         +:+ "%"
    else "N/A" in
  {| data_category := Some (getVariableCategory (VariableEntry.name variable));
     cell_name := VariableEntry.name variable;
     cell_value :=
       JS.toFixed NumberToString (JS.fl (VariableEntry.value variable)) 3;
     cell_unit := JS.or_str (VariableEntry.unit variable) "";
     cell_confidence := confidence |}.

Definition displayVariablesTable (variables : list VariableEntry.t)
  : list variable_row :=
  headerRow :: map variableRow variables.

(** The body of the [forEach] of [displayConfidenceIntervals].  The
    product is taken on the double: [JS.fl] leaves a double as it is and
    reads any other rational as the engine would. *)
Definition confidenceItem (item : ConfidenceEntry.t) : confidence_item :=
  {| heading := ConfidenceEntry.variable item;
     fill_width :=
       JS.fmul (JS.fl (ConfidenceEntry.confidence item)) (JS.Num 100);
     caption := "Confidence: "
       +:+ JS.toFixed NumberToString
             (JS.fmul (JS.fl (ConfidenceEntry.confidence item)) (JS.Num 100)) 1
       +:+ "%" |}.

(** The comparator handed to [sort], of which the sort looks at the sign:
    the difference of two doubles has the sign of their exact
    difference. *)
Definition by_confidence_desc (a b : ConfidenceEntry.t) : Q :=
  (ConfidenceEntry.confidence b - ConfidenceEntry.confidence a)%Q.

Definition displayConfidenceIntervals
  (confidence : option (list ConfidenceEntry.t)) : confidence_section :=
  match confidence with
  | None =>
      Notice "<p>Confidence intervals not available for this prediction.</p>"
  | Some l =>
      if (length l =? 0)%nat
      then Notice "<p>Confidence intervals not available for this prediction.</p>"
      else
        let topConfidence :=
          JS.slice0 5 (JS.Array_sort by_confidence_desc l) in
        Items (map confidenceItem topConfidence)
  end.

Definition renderResults (data : prediction) : results :=
  {| weatherSummary := displayWeatherSummary (summary data);
     variablesTable := displayVariablesTable (variables data);
     confidenceSection := displayConfidenceIntervals (confidence data) |}.

(** The object handed to [JSON.stringify]. *)
Definition requestData (date : string) (selectedLocation : Location.t)
  : JS.json :=
  JS.JObject
    [ ("date", JS.JString date);
      ("location",
        JS.JObject
          [ ("name", JS.JString (Location.name selectedLocation));
            ("latitude",
              JS.json_of_number (Location.latitude selectedLocation));
            ("longitude",
              JS.json_of_number (Location.longitude selectedLocation)) ]) ].

(** One run of [predictEnvironment]: [date] is the value of the date input,
    [r] what the network answers if a request is made.  The result is the
    trace of effects and the state left behind.  The body of an ok reply
    is stored in [currentData] before [displayResults] is called on it. *)
Definition predictEnvironment (st : state) (date : string) (r : response)
  : list effect * state :=
  if isLoading st then ([], st)
  else if negb (JS.truthy_str date)
  then ([showError "Please select a date"], st)
  else
    match selectedLocation st with
    | None =>
        ([showError "Please select a location using one of the methods above"],
         st)
    | Some loc =>
        let start :=
          [ showLoading; hideError; hideResults;
            predictBtn "Processing..." true;
            fetch (apiBaseUrl +:+ "/predict") (requestData date loc) ] in
        let failed :=
          [ hideLoading;
            showError
              "Failed to get predictions. Please make sure the API server is running." ] in
        let finally := [ predictBtn "Generate Prediction" false ] in
        match r with
        | Status true _ (Some data) =>
            (start ++
             [ displayResults (renderResults data); hideLoading; showResults;
               smoothScrollToResults ] ++ finally,
             {| isLoading := false;
                selectedLocation := selectedLocation st;
                currentData := Some (Rendered data) |})
        | StatusOther _ null =>
            (start ++ [displayInterrupted] ++ failed ++ finally,
             {| isLoading := false;
                selectedLocation := selectedLocation st;
                currentData := if null then None else Some Unrendered |})
        | _ =>
            (start ++ failed ++ finally,
             {| isLoading := false;
                selectedLocation := selectedLocation st;
                currentData := currentData st |})
        end
    end.

End Render.

(** Every row built by [displayVariablesTable], the header included, has a
    [.variable-name] cell, whose text is [cell_name]. *)
Definition filterVariables (searchTerm : string) (rows : list table_row)
  : list table_row :=
  let term := JS.toLowerCase searchTerm in
  map (fun r =>
         let name := JS.toLowerCase (cell_name (row r)) in
         let matches := JS.includes name term in
         {| row := row r; display := if matches then "grid" else "none" |})
      rows.

(** [getAttribute('data-category')] is [null] on the header row, and
    [null === category] is false. *)
Definition filterByCategory (category : string) (rows : list table_row)
  : list table_row :=
  map (fun r =>
         let matches :=
           String.eqb category "all"
           || match data_category (row r) with
              | Some rowCategory => String.eqb rowCategory category
              | None => false
              end in
         {| row := row r; display := if matches then "grid" else "none" |})
      rows.

(** *** Theme *)

(** What [applyTheme] touches: the [light-theme] class of the body, the
    class of the toggle's icon, and the entry [weather-oracle-theme] of the
    local storage. *)
Record theme_state := {
  light_theme : bool;
  icon : string;
  stored : option string
}.

Definition applyTheme (theme : string) (t : theme_state) : theme_state :=
  if String.eqb theme "light"
  then {| light_theme := true; icon := "fas fa-sun"; stored := stored t |}
  else {| light_theme := false; icon := "fas fa-moon"; stored := stored t |}.

(** The part of [setupThemeToggle] run at page load, when the page has a
    toggle. *)
Definition setupThemeToggle (t : theme_state) : theme_state :=
  let savedTheme := JS.or_str (stored t) "dark" in
  applyTheme savedTheme t.

(** The click handler installed by [setupThemeToggle]. *)
Definition themeToggle_click (t : theme_state) : theme_state :=
  let currentTheme := if light_theme t then "light" else "dark" in
  let newTheme := if String.eqb currentTheme "dark" then "light" else "dark" in
  let t' := applyTheme newTheme t in
  {| light_theme := light_theme t'; icon := icon t'; stored := Some newTheme |}.

(** *** Choosing a location *)

(** What the location handlers do to the map and the coordinate inputs. *)
Inductive location_effect :=
| map_setView (la ln : JS.number)
| marker_setLatLng (la ln : JS.number)
| coordinateInputs (latitudeInput longitudeInput : string)
| mapCoordinates (text : string).

Definition sampleCoordinates : list (string * (Q * Q)) :=
  [ ("New York City", (40.7128, -74.0060)%Q);
    ("Los Angeles", (34.0522, -118.2437)%Q);
    ("Chicago", (41.8781, -87.6298)%Q);
    ("Houston", (29.7604, -95.3698)%Q);
    ("Phoenix", (33.4484, -112.0740)%Q);
    ("Philadelphia", (39.9526, -75.1652)%Q);
    ("San Antonio", (29.4241, -98.4936)%Q);
    ("San Diego", (32.7157, -117.1611)%Q);
    ("Dallas", (32.7767, -96.7970)%Q);
    ("San Jose", (37.3382, -121.8863)%Q) ].

Fixpoint sample_lookup (k : string) (t : list (string * (Q * Q)))
  : option (Q * Q) :=
  match t with
  | [] => None
  | (k', v) :: r => if String.eqb k' k then Some v else sample_lookup k r
  end.

Section Location.
Variable NumberToString : Q -> string.
Variable parseFloat : string -> JS.number.
(** Whether [this.map] and [this.marker] exist (Leaflet was loaded).  The
    map throws on [NaN]; the handlers below are modelled for the finite
    numbers the page gives them. *)
Variable mapReady : bool.

Definition updateMapLocation (la ln : JS.number) : list location_effect :=
  if mapReady then [map_setView la ln; marker_setLatLng la ln] else [].

Definition updateCoordinatesInput (la ln : JS.number) : list location_effect :=
  [coordinateInputs (JS.toFixed NumberToString la 4)
     (JS.toFixed NumberToString ln 4)].

Definition updateMapCoordinatesDisplay (la ln : JS.number)
  : list location_effect :=
  [mapCoordinates
     ("Selected: " +:+ JS.toFixed NumberToString la 4 +:+ ", "
      +:+ JS.toFixed NumberToString ln 4)].

Definition select (st : state) (l : Location.t) : state :=
  {| isLoading := isLoading st;
     selectedLocation := Some l;
     currentData := currentData st |}.

(** [sampleCoordinates[cityName] || [40.7128, -74.0060]].  The table is an
    object literal, so the lookup also finds what [Object.prototype] hands
    down; what is found under such a name is truthy and has no entry 0 or 1,
    the coordinates are [undefined], and [undefined.toFixed] throws a
    [TypeError]: the handler has no result then. *)
Definition onCityChange (st : state) (cityName : string)
  : option (list location_effect * state) :=
  if negb (JS.truthy_str cityName) then Some ([], st)
  else if existsb (String.eqb cityName) JS.Object_prototype_names then None
  else
    let coords :=
      default (40.7128, -74.0060)%Q (sample_lookup cityName sampleCoordinates) in
    Some
      (updateMapLocation (JS.Num (fst coords)) (JS.Num (snd coords))
       ++ updateCoordinatesInput (JS.Num (fst coords)) (JS.Num (snd coords)),
       select st {| Location.name := cityName;
                    Location.latitude := JS.Num (fst coords);
                    Location.longitude := JS.Num (snd coords) |}).

(** [latText] and [lngText] are the values of the two coordinate inputs. *)
Definition updateLocationFromCoordinates (st : state) (latText lngText : string)
  : list location_effect * state :=
  let lat := parseFloat latText in
  let lng := parseFloat lngText in
  if negb (JS.isNaN lat) && negb (JS.isNaN lng)
  then
    (updateMapLocation lat lng,
     select st {| Location.name :=
                    JS.toFixed NumberToString lat 4 +:+ ", "
                    +:+ JS.toFixed NumberToString lng 4;
                  Location.latitude := lat;
                  Location.longitude := lng |})
  else ([], st).

Definition onMapClick (st : state) (lat lng : JS.number)
  : list location_effect * state :=
  (updateMapLocation lat lng ++ updateCoordinatesInput lat lng
   ++ updateMapCoordinatesDisplay lat lng,
   select st {| Location.name :=
                  JS.toFixed NumberToString lat 4 +:+ ", "
                  +:+ JS.toFixed NumberToString lng 4;
                Location.latitude := lat;
                Location.longitude := lng |}).

(** The success callback of [getCurrentLocation]. *)
Definition onPosition (st : state) (lat lng : JS.number)
  : list location_effect * state :=
  (updateMapLocation lat lng ++ updateCoordinatesInput lat lng
   ++ updateMapCoordinatesDisplay lat lng,
   select st {| Location.name := "Current Location";
                Location.latitude := lat;
                Location.longitude := lng |}).

End Location.
End WeatherOracle.

(** ** script.js, second class: the date-only dashboard *)
Module EnvironmentalDashboard.
Import Api Dom.

Record state := {
  currentData : option stored
}.

Definition apiBaseUrl : string := "http://localhost:5000/api".

Definition prop (summary : gmap string JS.field) (k : string) : JS.field :=
  default JS.Absent (summary !! k).

Definition displayWeatherSummary (summary : gmap string JS.field)
  : list weather_item :=
  [ {| key := "🌡️ Average Temperature (°C)";
       item_value := prop summary "temperature"; item_unit := "°C" |};
    {| key := "🥵 Feels Like Temperature (°C)";
       item_value := prop summary "feels_like"; item_unit := "°C" |};
    {| key := "☔ Probability of Rain (%)";
       item_value := prop summary "rain_probability"; item_unit := "%" |};
    {| key := "❄️ Probability of Snow (%)";
       item_value := prop summary "snow_probability"; item_unit := "%" |};
    {| key := "⚡ Probability of Storm (%)";
       item_value := prop summary "storm_probability"; item_unit := "%" |};
    {| key := "🌤️ Sunshine Index (%)";
       item_value := prop summary "sunshine_index"; item_unit := "%" |};
    {| key := "💧 Humidity Index (%)";
       item_value := prop summary "humidity_index"; item_unit := "%" |};
    {| key := "💨 Wind Speed (m/s)";
       item_value := prop summary "wind_speed"; item_unit := "m/s" |} ].

Definition getVariableCategory (name : string) : string :=
  let lowerName := JS.toLowerCase name in
  if JS.includes lowerName "temperature" then "temperature"
  else if JS.includes lowerName "moisture" || JS.includes lowerName "humidity"
  then "moisture"
  else if JS.includes lowerName "radiation" || JS.includes lowerName "flux"
  then "radiation"
  else if JS.includes lowerName "precipitation" || JS.includes lowerName "rain"
          || JS.includes lowerName "snow"
  then "precipitation"
  else "other".

Section Render.
Variable NumberToString : Q -> string.

Definition headerRow : variable_row :=
  {| data_category := None;
     cell_name := "Variable";
     cell_value := "Predicted Value";
     cell_unit := "Unit";
     cell_confidence := "Confidence" |}.

Definition variableRow (variable : VariableEntry.t) : variable_row :=
  let confidence :=
    if JS.truthy (VariableEntry.confidence variable)
    then JS.toFixed NumberToString
           (JS.fmul (JS.ToNumber (VariableEntry.confidence variable))
              (JS.Num 100)) 1
         +:+ "%"
    else "N/A" in
  {| data_category := Some (getVariableCategory (VariableEntry.name variable));
     cell_name := VariableEntry.name variable;
     cell_value :=
       JS.toFixed NumberToString (JS.fl (VariableEntry.value variable)) 3;
     cell_unit := JS.or_str (VariableEntry.unit variable) "";
     cell_confidence := confidence |}.

Definition displayVariablesTable (variables : list VariableEntry.t)
  : list variable_row :=
  headerRow :: map variableRow variables.

Definition confidenceItem (item : ConfidenceEntry.t) : confidence_item :=
  {| heading := ConfidenceEntry.variable item;
     fill_width :=
       JS.fmul (JS.fl (ConfidenceEntry.confidence item)) (JS.Num 100);
     caption := "Confidence: "
       +:+ JS.toFixed NumberToString
             (JS.fmul (JS.fl (ConfidenceEntry.confidence item)) (JS.Num 100)) 1
       +:+ "%" |}.

Definition by_confidence_desc (a b : ConfidenceEntry.t) : Q :=
  (ConfidenceEntry.confidence b - ConfidenceEntry.confidence a)%Q.

Definition displayConfidenceIntervals
  (confidence : option (list ConfidenceEntry.t)) : confidence_section :=
  match confidence with
  | None =>
      Notice "<p>Confidence intervals not available for this prediction.</p>"
  | Some l =>
      if (length l =? 0)%nat
      then Notice "<p>Confidence intervals not available for this prediction.</p>"
      else
        let topConfidence :=
          JS.slice0 5 (JS.Array_sort by_confidence_desc l) in
        Items (map confidenceItem topConfidence)
  end.

Definition renderResults (data : prediction) : results :=
  {| weatherSummary := displayWeatherSummary (summary data);
     variablesTable := displayVariablesTable (variables data);
     confidenceSection := displayConfidenceIntervals (confidence data) |}.

(** The request carries the date alone. *)
Definition requestData (date : string) : JS.json :=
  JS.JObject [ ("date", JS.JString date) ].

Definition predictEnvironment (st : state) (date : string) (r : response)
  : list effect * state :=
  if negb (JS.truthy_str date)
  then ([showError "Please select a date"], st)
  else
    let start :=
      [ showLoading; hideError; hideResults;
        fetch (apiBaseUrl +:+ "/predict") (requestData date) ] in
    let failed :=
      [ hideLoading;
        showError
          "Failed to get predictions. Please make sure the API server is running." ] in
    match r with
    | Status true _ (Some data) =>
        (start ++ [ displayResults (renderResults data); hideLoading;
                    showResults ],
         {| currentData := Some (Rendered data) |})
    | StatusOther _ null =>
        (start ++ [displayInterrupted] ++ failed,
         {| currentData := if null then None else Some Unrendered |})
    | _ => (start ++ failed, st)
    end.

End Render.

(** Every row built by [displayVariablesTable], the header included, has a
    [.variable-name] cell, whose text is [cell_name]. *)
Definition filterVariables (searchTerm : string) (rows : list table_row)
  : list table_row :=
  let term := JS.toLowerCase searchTerm in
  map (fun r =>
         let name := JS.toLowerCase (cell_name (row r)) in
         let matches := JS.includes name term in
         {| row := row r; display := if matches then "grid" else "none" |})
      rows.

(** [getAttribute('data-category')] is [null] on the header row, and
    [null === category] is false. *)
Definition filterByCategory (category : string) (rows : list table_row)
  : list table_row :=
  map (fun r =>
         let matches :=
           String.eqb category "all"
           || match data_category (row r) with
              | Some rowCategory => String.eqb rowCategory category
              | None => false
              end in
         {| row := row r; display := if matches then "grid" else "none" |})
      rows.
End EnvironmentalDashboard.

(** ** The map application (class [WeatherApp]) *)
Module WeatherApp.

(** [currentCoords]: the pair the map marker stands on. *)
Record coords := { lat : JS.number; lng : JS.number }.

Record state := {
  currentCoords : option coords
}.

(** *** What the [/predict] model server answers *)

(** The groups of [data.data]. *)
Module Model.
Record temperature_t := { air_temperature : JS.field; feels_like : JS.field }.
Record humidity_t := { percentage : JS.field }.
Record weather_conditions_t := {
  primary : option string;
  visibility : option string;
  storm_probability : JS.field
}.
Record precipitation_t := {
  rain_rate : JS.field;
  rain_probability : JS.field;
  snow_probability : JS.field
}.
Record wind_t := { speed : JS.field }.
Record pressure_t := { value : JS.field }.
Record comfort_index_t := { comfort_level : option string }.

(** [data.data]; a group that is missing reads as [undefined], and reading
    a property of it throws. *)
Record modelData := {
  temperature : option temperature_t;
  humidity : option humidity_t;
  weather_conditions : option weather_conditions_t;
  precipitation : option precipitation_t;
  wind : option wind_t;
  pressure : option pressure_t;
  comfort_index : option comfort_index_t
}.
End Model.

(** The parsed body [{ success, data, error }]. *)
Record answer := {
  success : bool;
  data : option Model.modelData;
  error : option string
}.

(** What the network does with the request: [fetch] rejects, or a response
    arrives whose body parses or not.  A body that parses gives an object,
    or a number, text, truth value or array, on which the three properties
    read as [undefined], as on an object without them; or it gives [null]
    ([ReplyNull]), on which reading a property throws. *)
Inductive response :=
| NetworkFailure (e : JS.exn)
| Reply (ok : bool) (status : Z) (body : JS.exn + answer)
| ReplyNull (ok : bool) (status : Z).

(** The outcome of the geocoding request. *)
Inductive geocoding :=
| GeoFailure
| GeoNoResult
| GeoResult (latitude longitude : JS.number).

(** *** What the application shows *)

(** The object built by [convertModelDataToWeather]. *)
Record weather := {
  temp : JS.number;
  feelslike : JS.number;
  humidity : JS.number;
  conditions : JS.found;
  precip : JS.field;
  precipprob : JS.field;
  windSpeed : JS.field;
  windGusts : JS.number;
  pressure : JS.field;
  visibility : option string;
  stormProb : JS.field;
  snowProb : JS.field;
  comfortLevel : option string
}.

Record probabilities := {
  sunny : JS.number;
  rainy : JS.number;
  snowy : JS.number;
  storm : JS.number
}.

(** The elements written by [updateWeatherDisplay], by element id.  The
    numbers are kept as numbers, and the condition as what was found in
    the table (for a member of [Object.prototype] the element shows the
    text the engine prints for it); the clock elements ([currentTime],
    [tonightDate]) are set from [new Date()] and are left out. *)
Record display := {
  el_currentTemp : JS.number;
  el_currentFeelsLike : JS.number;
  el_currentCondition : JS.found;
  el_shadeTemp : JS.number;
  el_windSpeed : JS.number;
  el_windGusts : JS.number;
  el_humidity : JS.number;
  el_pressure : JS.number;
  el_visibility : string;
  el_comfortLevel : string;
  el_tonightLow : JS.number;
  el_tomorrowHigh : JS.number;
  el_probSunny : JS.number;
  el_probRainy : JS.number;
  el_probSnowy : JS.number;
  el_probStorm : JS.number
}.

Inductive zoom := keepZoom | zoomTo (z : Z).

Inductive effect :=
| showApiError (msg : string)
| showCoordinateError (msg : string)
| clearCoordinateError
| alert (msg : string)
| setView (la ln : JS.number) (z : zoom)
| addMarker (la ln : JS.number)
| predictBtn (text : string) (disabled : bool)
| fetch (url : string) (body : JS.json)
| geocode (query : string)
| updateWeatherDisplay_ (d : display)
| updateWeatherTheme_ (theme : string).

Definition is_fetch (e : effect) : bool :=
  match e with fetch _ _ => true | _ => false end.

Definition is_showApiError (e : effect) : bool :=
  match e with showApiError _ => true | _ => false end.

Definition is_display (e : effect) : bool :=
  match e with updateWeatherDisplay_ _ => true | _ => false end.

(** *** Effects and exceptions: a trace with an outcome *)

Definition M (A : Type) : Type := list effect * (JS.exn + A).

Definition throw {A} (e : JS.exn) : M A := ([], inl e).
Definition emit (e : effect) : M unit := ([e], inr tt).
Definition lift {A} (r : JS.exn + A) : M A := ([], r).

#[global] Instance M_ret : MRet M := fun A a => ([], inr a).

#[global] Instance M_bind : MBind M := fun A B k m =>
  match m with
  | (tr, inl e) => (tr, inl e)
  | (tr, inr a) => let '(tr', r) := k a in (tr ++ tr', r)
  end.

(** [try m catch (e) { h e }]. *)
Definition try_catch {A} (m : M A) (h : JS.exn -> M A) : M A :=
  match m with
  | (tr, inl e) => let '(tr', r) := h e in (tr ++ tr', r)
  | ok => ok
  end.

(** [try m finally { f }], for an [f] that does not throw. *)
Definition finally {A} (m : M A) (f : list effect) : M A :=
  (fst m ++ f, snd m).

(** *** Coordinates *)

Definition isValidCoordinate (lat lng : JS.number) : bool :=
  JS.ge lat (JS.Num (-90)) && JS.le lat (JS.Num 90)
  && JS.ge lng (JS.Num (-180)) && JS.le lng (JS.Num 180).

Definition updateCoordinates (la ln : JS.number) : list effect * state :=
  ([clearCoordinateError], {| currentCoords := Some {| lat := la; lng := ln |} |}).

(** The constructor runs [init], whose [initializeMap] puts the marker on
    New York.  No event is delivered before the constructor has returned;
    it is taken to return normally (the map library is loaded). *)
Definition constructor : list effect * state :=
  let '(tr, st) := updateCoordinates (JS.Num 40.7128) (JS.Num (-74.0060)) in
  (addMarker (JS.Num 40.7128) (JS.Num (-74.0060)) :: tr, st).

(** The map's click handler and the marker's drag handler. *)
Definition onMapClick (la ln : JS.number) : list effect * state :=
  let '(tr, st) := updateCoordinates la ln in
  (tr ++ [addMarker la ln], st).

Definition onMarkerDragEnd (la ln : JS.number) : list effect * state :=
  updateCoordinates la ln.

(** The success callback of [getCurrentLocation]. *)
Definition onPosition (la ln : JS.number) : list effect * state :=
  let '(tr, st) := updateCoordinates la ln in
  ([setView la ln (zoomTo 12); addMarker la ln] ++ tr, st).

Definition geocodeLocation (st : state) (query : string) (g : geocoding)
  : list effect * state :=
  match g with
  | GeoResult la ln =>
      let '(tr, st') := updateCoordinates la ln in
      ([geocode query; setView la ln (zoomTo 12); addMarker la ln] ++ tr, st')
  | GeoNoResult =>
      ([geocode query;
        showCoordinateError
          "Location not found. Please try a different search term."], st)
  | GeoFailure =>
      ([geocode query;
        showCoordinateError
          "Failed to search for location. Please check your internet connection."],
       st)
  end.

Section Inputs.
(** [parseFloat], and the two groups captured by the coordinate pattern of
    [handleSearch] when the query matches it. *)
Variable parseFloat : string -> JS.number.
Variable coordMatch : string -> option (string * string).

(** [latText] and [lngText] are the values of the two coordinate inputs. *)
Definition updateMapFromInputs (st : state) (latText lngText : string)
  : list effect * state :=
  let lat := parseFloat latText in
  let lng := parseFloat lngText in
  if negb (JS.isNaN lat) && negb (JS.isNaN lng) && isValidCoordinate lat lng
  then
    let '(tr, st') := updateCoordinates lat lng in
    ([setView lat lng keepZoom; addMarker lat lng] ++ tr, st')
  else ([], st).

Definition convertCoordinateFormat (latText lngText : string) : list effect :=
  if negb (JS.truthy_str latText) || negb (JS.truthy_str lngText)
  then [showCoordinateError "Please enter both latitude and longitude values."]
  else
    let latNum := parseFloat latText in
    let lngNum := parseFloat lngText in
    if isValidCoordinate latNum lngNum
    then [alert
            "Coordinate format conversion feature - to be implemented with DMS format support"]
    else [showCoordinateError "Invalid coordinate values."].

(** [query] is the trimmed text of the search box. *)
Definition handleSearch (st : state) (query : string) (g : geocoding)
  : list effect * state :=
  if negb (JS.truthy_str query) then ([], st)
  else
    match coordMatch query with
    | Some (g1, g2) =>
        let lat := parseFloat g1 in
        let lng := parseFloat g2 in
        if isValidCoordinate lat lng
        then
          let '(tr, st') := updateCoordinates lat lng in
          ([setView lat lng (zoomTo 12); addMarker lat lng] ++ tr, st')
        else geocodeLocation st query g
    | None => geocodeLocation st query g
    end.

(** What a user or the browser can do to the application between two
    predictions. *)
Inductive event :=
| MapClick (la ln : JS.number)
| MarkerDragEnd (la ln : JS.number)
| Position (la ln : JS.number)
| CoordinateInput (latText lngText : string)
| Search (query : string) (g : geocoding)
| CitySelected (query : string) (g : geocoding).

Definition step (st : state) (e : event) : state :=
  match e with
  | MapClick la ln => snd (onMapClick la ln)
  | MarkerDragEnd la ln => snd (onMarkerDragEnd la ln)
  | Position la ln => snd (onPosition la ln)
  | CoordinateInput a b => snd (updateMapFromInputs st a b)
  | Search q g => snd (handleSearch st q g)
  | CitySelected q g => snd (geocodeLocation st q g)
  end.

(** The states the application can be in after construction. *)
Definition reachable (st : state) : Prop :=
  exists es : list event, st = fold_left step es (snd constructor).

End Inputs.

(** *** Prediction *)

(** [Math.ceil((selectedDate - today) / (1000 * 60 * 60 * 24))].  Time
    values are integers, and a double tells a quotient near 0 or 7 from 0
    and 7 themselves, so the exact quotient decides the two checks as the
    double does. *)
Definition daysFromNow (selectedDate : JS.Date) (today : Z) : JS.number :=
  JS.Math_ceil
    (JS.div (JS.sub (JS.time_value selectedDate) (JS.Num (inject_Z today)))
            (JS.Num (inject_Z (1000 * 60 * 60 * 24)))).

Fixpoint table_lookup (k : string) (t : list (string * string)) : option string :=
  match t with
  | [] => None
  | (k', v) :: r => if bool_decide (k' = k) then Some v else table_lookup k r
  end.

(** [conditions[primary] || 'Partly Cloudy']: the table is an object
    literal, so the lookup finds its eight entries and, under the names
    every object inherits, the members of [Object.prototype], which are
    truthy; an [undefined] key finds nothing. *)
Definition getWeatherCondition (primary : option string) : JS.found :=
  let conditions :=
    [ ("Sun", "Sunny"); ("Rain", "Rainy"); ("Snow", "Snowy");
      ("Freezing", "Freezing"); ("Hot", "Hot"); ("Warm", "Warm");
      ("Cool", "Cool"); ("Mild", "Partly Cloudy") ] in
  match primary with
  | Some k =>
      if existsb (String.eqb k) JS.Object_prototype_names then JS.Inherited k
      else JS.Text (JS.or_str (table_lookup k conditions) "Partly Cloudy")
  | None => JS.Text "Partly Cloudy"
  end.

(** [group.name] where [group] may be [undefined]. *)
Definition read {A} (group : option A) (name : string) : M A :=
  match group with
  | Some g => mret g
  | None =>
      throw (JS.TypeError
               ("Cannot read properties of undefined (reading '" +:+ name +:+ "')"))
  end.

Definition convertModelDataToWeather (modelData : Model.modelData) : M weather :=
  t ← read (Model.temperature modelData) "air_temperature";
  h ← read (Model.humidity modelData) "percentage";
  wc ← read (Model.weather_conditions modelData) "primary";
  p ← read (Model.precipitation modelData) "rain_rate";
  w ← read (Model.wind modelData) "speed";
  pr ← read (Model.pressure modelData) "value";
  ci ← read (Model.comfort_index modelData) "comfort_level";
  mret
    {| temp := JS.Math_round (JS.ToNumber (Model.air_temperature t));
       feelslike := JS.Math_round (JS.ToNumber (Model.feels_like t));
       humidity := JS.Math_round (JS.ToNumber (Model.percentage h));
       conditions := getWeatherCondition (Model.primary wc);
       precip := Model.rain_rate p;
       precipprob := Model.rain_probability p;
       windSpeed := Model.speed w;
       windGusts := JS.fmul (JS.ToNumber (Model.speed w)) (JS.fl 1.3);
       pressure := Model.value pr;
       visibility := Model.visibility wc;
       stormProb := Model.storm_probability wc;
       snowProb := Model.snow_probability p;
       comfortLevel := Model.comfort_level ci |}.

(** The four probabilities of [calculateWeatherProbabilitiesFromModel]
    before they are rounded: its constants [rainProb], [snowProb],
    [stormProb] and [sunnyProb]. *)
Definition unrounded (data : weather) : probabilities :=
  let rainProb := JS.or_field (precipprob data) (JS.Num 0) in
  let snowProb := JS.or_field (snowProb data) (JS.Num 0) in
  let stormProb := JS.or_field (stormProb data) (JS.Num 0) in
  let otherProbs := JS.fadd (JS.fadd rainProb snowProb) stormProb in
  let sunnyProb := JS.Math_max (JS.Num 0) (JS.fsub (JS.Num 100) otherProbs) in
  {| sunny := sunnyProb;
     rainy := rainProb;
     snowy := snowProb;
     storm := stormProb |}.

Definition calculateWeatherProbabilitiesFromModel (data : weather)
  : probabilities :=
  let p := unrounded data in
  {| sunny := JS.Math_round (sunny p);
     rainy := JS.Math_round (rainy p);
     snowy := JS.Math_round (snowy p);
     storm := JS.Math_round (storm p) |}.

Definition updateWeatherDisplay (data : weather) : display :=
  let windSpeed := JS.Math_round (JS.or_field (windSpeed data) (JS.Num 0)) in
  let windGusts :=
    JS.Math_round
      (JS.or_num (windGusts data) (JS.fmul windSpeed (JS.fl 1.3))) in
  let tonightLow :=
    JS.Math_round
      (JS.fsub (temp data)
               (if JS.gt (temp data) (JS.Num 0) then JS.Num 8 else JS.Num 5)) in
  let tomorrowHigh :=
    JS.Math_round
      (JS.fadd (temp data)
               (if JS.gt (temp data) (JS.Num 0) then JS.Num 3 else JS.Num 2)) in
  let probabilities := calculateWeatherProbabilitiesFromModel data in
  {| el_currentTemp := JS.Math_round (temp data);
     el_currentFeelsLike := JS.Math_round (feelslike data);
     el_currentCondition :=
       match conditions data with
       | JS.Text s => JS.Text (JS.or_str (Some s) "Partly sunny")
       | inherited => inherited
       end;
     el_shadeTemp := JS.Math_round (JS.fsub (feelslike data) (JS.Num 2));
     el_windSpeed := windSpeed;
     el_windGusts := windGusts;
     el_humidity := JS.Math_round (JS.or_num (humidity data) (JS.Num 0));
     el_pressure := JS.Math_round (JS.or_field (pressure data) (JS.Num 0));
     el_visibility := JS.or_str (visibility data) "Good";
     el_comfortLevel := JS.or_str (comfortLevel data) "Pleasant";
     el_tonightLow := tonightLow;
     el_tomorrowHigh := tomorrowHigh;
     el_probSunny := JS.Math_round (sunny probabilities);
     el_probRainy := JS.Math_round (rainy probabilities);
     el_probSnowy := JS.Math_round (snowy probabilities);
     el_probStorm := JS.Math_round (storm probabilities) |}.

(** The theme put on the body.  A condition that is no text has no
    [toLowerCase], and calling it throws. *)
Definition updateWeatherTheme (data : weather) : JS.exn + string :=
  match conditions data with
  | JS.Text s =>
      let condition := JS.or_str (Some (JS.toLowerCase s)) "sunny" in
      inr (if JS.includes condition "rain" then "rainy"
           else if JS.includes condition "snow" then "snowy"
           else if JS.includes condition "storm"
                   || JS.includes condition "thunder"
           then "storm"
           else "sunny")
  | JS.Inherited _ =>
      inl (JS.TypeError "data.conditions?.toLowerCase is not a function")
  end.

(** The object handed to [JSON.stringify] by [fetchWeatherData]. *)
Definition requestBody (date : string) (c : coords) : JS.json :=
  JS.JObject
    [ ("date", JS.JString (JS.str_slice0 16 date));
      ("latitude", JS.json_of_number (lat c));
      ("longitude", JS.json_of_number (lng c)) ].

(** [selectedDate] is [new Date(datePicker.value)]; [r] is what the network
    does with the request, if one is made.  The [catch] logs and rethrows. *)
Definition fetchWeatherData (c : coords) (selectedDate : JS.Date) (r : response)
  : M weather :=
  try_catch
    (date ← lift (JS.toISOString selectedDate);
     emit (fetch "http://localhost:5000/predict" (requestBody date c));;
     match r with
     | NetworkFailure e => throw e
     | Reply false status body =>
         let errorData_error :=
           match body with inr a => error a | inl _ => None end in
         throw (JS.Error
                  (JS.or_str errorData_error
                     ("Model API error: " +:+ JS.decimal status)))
     | Reply true _ (inl e) => throw e
     | Reply true _ (inr a) =>
         match success a, data a with
         | true, Some d => convertModelDataToWeather d
         | _, _ =>
             throw (JS.Error
                      (JS.or_str (error a)
                         "No weather data available from model"))
         end
     | ReplyNull false _ =>
         throw (JS.TypeError "Cannot read properties of null (reading 'error')")
     | ReplyNull true _ =>
         throw (JS.TypeError
                  "Cannot read properties of null (reading 'success')")
     end)
    (fun e => throw e).

(** One run of [predictWeather]: the trace of what it does. *)
Definition predictWeather (st : state) (selectedDate : JS.Date) (today : Z)
  (r : response) : list effect :=
  match currentCoords st with
  | None =>
      [showApiError
         "Please select a location first by clicking on the map or entering coordinates."]
  | Some c =>
      let body : M unit :=
        let daysFromNow := daysFromNow selectedDate today in
        if JS.lt daysFromNow (JS.Num 0)
        then throw (JS.Error "Cannot predict weather for past dates")
        else if JS.gt daysFromNow (JS.Num 7)
        then throw (JS.Error "Cannot predict weather more than 7 days ahead")
        else
          weatherData ← fetchWeatherData c selectedDate r;
          emit (updateWeatherDisplay_ (updateWeatherDisplay weatherData));;
          theme ← lift (updateWeatherTheme weatherData);
          emit (updateWeatherTheme_ theme) in
      let handler (e : JS.exn) : M unit :=
        emit (showApiError
                ("Failed to get weather prediction: " +:+ JS.message e
                 +:+ ". Please check if the model server is running.")) in
      predictBtn "Predicting..." true
        :: fst (finally (try_catch body handler)
                  [predictBtn "Predict the Weather" false])
  end.

(** *** Colour scheme *)

(** The [data-color-scheme] attribute of the document element and the
    [aria-pressed] attribute of the toggle. *)
Record color_scheme := {
  data_color_scheme : string;
  aria_pressed : string
}.

(** [prefersDark] is the result of the media query. *)
Definition setupColorScheme (prefersDark : bool) : color_scheme :=
  if prefersDark
  then {| data_color_scheme := "dark"; aria_pressed := "false" |}
  else {| data_color_scheme := "light"; aria_pressed := "true" |}.

(** The click handler installed by [setupColorScheme]. *)
Definition colorSchemeToggle_click (c : color_scheme) : color_scheme :=
  let isDark := String.eqb (data_color_scheme c) "dark" in
  {| data_color_scheme := if isDark then "light" else "dark";
     aria_pressed := if isDark then "true" else "false" |}.

End WeatherApp.

(** ** script.js: the helper functions that follow each class *)
Module Utilities.

Definition icons : list (string * string) :=
  [ ("sunny", "☀️"); ("cloudy", "☁️"); ("rainy", "🌧️"); ("snowy", "❄️");
    ("stormy", "⛈️") ].

(** [icons[condition.toLowerCase()] || '🌤️'].  The table is an object
    literal: under a name that every object inherits the lookup finds a
    function, which is returned as it is; the result is no text then. *)
Definition getWeatherIcon (condition : string) : option string :=
  let key := JS.toLowerCase condition in
  if existsb (String.eqb key) JS.Object_prototype_names then None
  else Some (JS.or_str (WeatherApp.table_lookup key icons) "🌤️").

End Utilities.

(** ** The service worker shipped with the map application *)
Module ServiceWorker.

Definition CACHE : string := "weaza-v1".

(** The assets to precache; a URL stands for its resolved form. *)
Definition ASSETS : list string :=
  [ "./"; "./index.html"; "./styles.css"; "./app.js";
    "./assets/icons/weather-sun.svg" ].

Record request := { method : string; url : string }.

Record response := { status : Z; body : string }.

(** [response.ok]. *)
Definition ok (r : response) : bool := (200 <=? status r) && (status r <=? 299).

(** [caches.match(request)] for a GET request: the named caches are
    searched in the order of their creation. *)
Fixpoint caches_match (u : string) (cs : list (string * gmap string response))
  : option response :=
  match cs with
  | [] => None
  | (_, c) :: r =>
      match c !! u with
      | Some x => Some x
      | None => caches_match u r
      end
  end.

(** [caches.open(name)], which creates the cache when there is none. *)
Definition caches_open (name : string) (cs : list (string * gmap string response))
  : list (string * gmap string response) :=
  if existsb (fun nc => String.eqb (fst nc) name) cs then cs
  else cs ++ [(name, ∅)].

Fixpoint cache_insert (name u : string) (r : response)
  (cs : list (string * gmap string response))
  : list (string * gmap string response) :=
  match cs with
  | [] => []
  | (n, c) :: rest =>
      if String.eqb n name then (n, <[u := r]> c) :: rest
      else (n, c) :: cache_insert name u r rest
  end.

(** [caches.open(name).then(c => c.put(request, copy))].  [put] refuses a
    partial response (status 206); the rejection is not handled and leaves
    the cache, once opened, as it was.  The handler does not wait for the
    [put]; it is taken to have settled before the next event is handled. *)
Definition open_put (name u : string) (r : response)
  (cs : list (string * gmap string response))
  : list (string * gmap string response) :=
  let cs := caches_open name cs in
  if status r =? 206 then cs else cache_insert name u r cs.

(** What the [fetch] handler makes of a request: it leaves it to the
    browser, answers it, or fails it. *)
Inductive answer :=
| NotHandled
| Respond (r : response)
| Failed.

(** The [fetch] handler; [net] is what the network gives for the request
    ([None] when it fails). *)
Definition onFetch (net : option response) (req : request)
  (cs : list (string * gmap string response))
  : answer * list (string * gmap string response) :=
  if negb (String.eqb (method req) "GET") then (NotHandled, cs)
  else
    match caches_match (url req) cs with
    | Some cached => (Respond cached, cs)
    | None =>
        match net with
        | Some res => (Respond res, open_put CACHE (url req) res cs)
        | None => (Failed, cs)
        end
    end.

(** [caches.delete(k)]. *)
Definition caches_delete (k : string) (cs : list (string * gmap string response))
  : list (string * gmap string response) :=
  List.filter (fun nc => negb (String.eqb (fst nc) k)) cs.

(** The [activate] handler: every cache whose key is not the current one
    is deleted. *)
Definition onActivate (cs : list (string * gmap string response))
  : list (string * gmap string response) :=
  let keys := map fst cs in
  fold_left (fun cs k => caches_delete k cs)
    (List.filter (fun k => negb (String.eqb k CACHE)) keys) cs.

(** The [install] handler; [net] is what the network gives for each asset.
    [addAll] stores all the answers or, when one is missing, not ok or
    partial, none of them; the result tells whether installation succeeded. *)
Definition onInstall (net : string -> option response)
  (cs : list (string * gmap string response))
  : bool * list (string * gmap string response) :=
  let cs := caches_open CACHE cs in
  match mapM net ASSETS with
  | Some rs =>
      if forallb (fun r => ok r && negb (status r =? 206)) rs
      then (true,
            fold_left (fun cs ur => cache_insert CACHE (fst ur) (snd ur) cs)
              (zip ASSETS rs) cs)
      else (false, cs)
  | None => (false, cs)
  end.

End ServiceWorker.

(** ** What the specification says, in its own words *)
Module Spec.

(** [kw] occurs in [name] when case is ignored: some substring of [name]
    is [kw] once lowered. *)
Definition mentions (kw name : string) : Prop :=
  exists pre mid post : string,
    name = pre +:+ mid +:+ post /\ JS.toLowerCase mid = kw.

(** The capital letters and the small letters, in the order of the
    alphabet, and each capital with its small letter. *)
Definition capitals : string := "ABCDEFGHIJKLMNOPQRSTUVWXYZ".
Definition smalls : string := "abcdefghijklmnopqrstuvwxyz".

Definition letters : list (ascii * ascii) :=
  combine (String.list_ascii_of_string capitals) (String.list_ascii_of_string smalls).

(** Two characters are the same when case is ignored: they are equal, or
    one is the capital of the other. *)
Definition same_letter (a b : ascii) : Prop :=
  a = b \/ In (a, b) letters \/ In (b, a) letters.

(** Two texts are the same when case is ignored: they have the same
    length and, place by place, the same letters. *)
Inductive same_text : string -> string -> Prop :=
| same_empty : same_text "" ""
| same_cons (a b : ascii) (s t : string) :
    same_letter a b -> same_text s t -> same_text (String a s) (String b t).

(** [kw] occurs in [name] when case is ignored: some substring of [name]
    is the same text as [kw]. *)
Definition occurs_ignoring_case (kw name : string) : Prop :=
  exists pre mid post : string,
    name = pre +:+ mid +:+ post /\ same_text mid kw.

(** The five categories. *)
Definition categories : list string :=
  ["temperature"; "moisture"; "radiation"; "precipitation"; "other"].

(** The eight fields of the weather summary, in display order. *)
Definition summary_fields : list string :=
  [ "temperature"; "feels_like"; "rain_probability"; "snow_probability";
    "storm_probability"; "sunshine_index"; "humidity_index"; "wind_speed" ].

Definition is_digit (c : ascii) : bool :=
  let n := nat_of_ascii c in ((48 <=? n) && (n <=? 57))%nat.

Fixpoint all_digits (s : string) : bool :=
  match s with
  | EmptyString => true
  | String c r => is_digit c && all_digits r
  end.

(** A percentage with one decimal place: an optional sign, at least one
    integer digit, a point, one digit and the percent sign. *)
Definition one_decimal_percent (s : string) : Prop :=
  exists (sign int : string) (d : ascii),
    s = sign +:+ int +:+ "." +:+ String d "%"
    /\ (sign = "" \/ sign = "-")
    /\ int <> "" /\ all_digits int = true /\ is_digit d = true.

(** Ordered by confidence, highest first. *)
Definition by_confidence_descending : relation Api.ConfidenceEntry.t :=
  fun a b =>
    (Api.ConfidenceEntry.confidence b <= Api.ConfidenceEntry.confidence a)%Q.

(** A probability field with a missing value read as 0. *)
Definition or_zero (f : JS.field) : Q :=
  match f with
  | JS.Number q => q
  | JS.Absent | JS.Null => 0%Q
  end.

(** max(0, 100 - (rain + snow + storm)). *)
Definition sunny_formula (rain snow storm : Q) : Q :=
  let rest := (100 - (rain + snow + storm))%Q in
  if Qle_bool 0 rest then rest else 0%Q.

(** The text [predictWeather] shows for a caught error with message [m]. *)
Definition apiErrorText (m : string) : string :=
  "Failed to get weather prediction: " +:+ m
  +:+ ". Please check if the model server is running.".

(** The numbers the model returned: every numeric field that is present,
    as its JSON text denotes it. *)
Definition field_numbers (fs : list JS.field) : list Q :=
  omap (fun f => match f with JS.Number q => Some q | _ => None end) fs.

Definition model_numbers (d : WeatherApp.Model.modelData) : list Q :=
  let group {A} (fields : A -> list JS.field) (g : option A) :=
    from_option fields [] g in
  field_numbers
    (group (fun t => [ WeatherApp.Model.air_temperature t;
                       WeatherApp.Model.feels_like t ])
       (WeatherApp.Model.temperature d)
     ++ group (fun h => [ WeatherApp.Model.percentage h ])
          (WeatherApp.Model.humidity d)
     ++ group (fun w => [ WeatherApp.Model.storm_probability w ])
          (WeatherApp.Model.weather_conditions d)
     ++ group (fun p => [ WeatherApp.Model.rain_rate p;
                          WeatherApp.Model.rain_probability p;
                          WeatherApp.Model.snow_probability p ])
          (WeatherApp.Model.precipitation d)
     ++ group (fun w => [ WeatherApp.Model.speed w ]) (WeatherApp.Model.wind d)
     ++ group (fun p => [ WeatherApp.Model.value p ])
          (WeatherApp.Model.pressure d)).



(** A model answer in which every group and every number is present. *)
Definition complete_data
  (air feels hum storm rate rain snow speed pres : Q)
  (primary vis comfort : option string) : WeatherApp.Model.modelData :=
  {| WeatherApp.Model.temperature :=
       Some {| WeatherApp.Model.air_temperature := JS.Number air;
               WeatherApp.Model.feels_like := JS.Number feels |};
     WeatherApp.Model.humidity :=
       Some {| WeatherApp.Model.percentage := JS.Number hum |};
     WeatherApp.Model.weather_conditions :=
       Some {| WeatherApp.Model.primary := primary;
               WeatherApp.Model.visibility := vis;
               WeatherApp.Model.storm_probability := JS.Number storm |};
     WeatherApp.Model.precipitation :=
       Some {| WeatherApp.Model.rain_rate := JS.Number rate;
               WeatherApp.Model.rain_probability := JS.Number rain;
               WeatherApp.Model.snow_probability := JS.Number snow |};
     WeatherApp.Model.wind :=
       Some {| WeatherApp.Model.speed := JS.Number speed |};
     WeatherApp.Model.pressure :=
       Some {| WeatherApp.Model.value := JS.Number pres |};
     WeatherApp.Model.comfort_index :=
       Some {| WeatherApp.Model.comfort_level := comfort |} |}.

(** A request body with the coordinates nested under [location]. *)
Definition nested_location (body : JS.json) : Prop :=
  exists (date : string) (loc : JS.json) (la ln : Q),
    JS.member "date" body = Some (JS.JString date)
    /\ JS.member "location" body = Some loc
    /\ JS.member "latitude" loc = Some (JS.JNumber la)
    /\ JS.member "longitude" loc = Some (JS.JNumber ln).

(** [pattern] with [d] standing for any digit and every other character for
    itself. *)
Fixpoint matches (pattern s : string) : bool :=
  match pattern, s with
  | EmptyString, EmptyString => true
  | String p pattern', String c s' =>
      (if Ascii.eqb p "d" then is_digit c else Ascii.eqb p c)
      && matches pattern' s'
  | _, _ => false
  end.

(** The dashboards' back end is trained on 2023: a date is in range when it
    lies in that year. *)
Definition in_training_year (date : string) : bool :=
  String.prefix "2023-" date.

(** A pair of numbers within the bounds of a latitude and a longitude. *)
Definition in_bounds (la ln : JS.number) : Prop :=
  exists x y : Q,
    la = JS.Num x /\ ln = JS.Num y
    /\ (-90 <= x <= 90)%Q /\ (-180 <= y <= 180)%Q.

(** A number that is an integer: neither [NaN] nor infinite. *)
Definition integer (n : JS.number) : Prop :=
  exists z : Z, n = JS.Num (inject_Z z).

(** The texts [getWeatherCondition] can return. *)
Definition condition_texts : list string :=
  [ "Sunny"; "Rainy"; "Snowy"; "Freezing"; "Hot"; "Warm"; "Cool";
    "Partly Cloudy" ].

End Spec.

(** ** Sample inputs *)
Module Examples.




(** A complete answer of the model server. *)
Definition mild_day : WeatherApp.Model.modelData :=
  Spec.complete_data 20.4 18.6 55 10 0.2 30 0 4 1013.2
    (Some "Rain") (Some "Good") (Some "Pleasant").

Definition mild_day_reply : WeatherApp.response :=
  WeatherApp.Reply true 200
    (inr {| WeatherApp.success := true;
            WeatherApp.data := Some mild_day;
            WeatherApp.error := None |}).

(** An answer whose primary condition is the text 'constructor'. *)
Definition odd_day : WeatherApp.Model.modelData :=
  Spec.complete_data 20.4 18.6 55 10 0.2 30 0 4 1013.2
    (Some "constructor") (Some "Good") (Some "Pleasant").

Definition odd_day_reply : WeatherApp.response :=
  WeatherApp.Reply true 200
    (inr {| WeatherApp.success := true;
            WeatherApp.data := Some odd_day;
            WeatherApp.error := None |}).

(** An answer with a wind speed of 1.5e308. *)
Definition gale : WeatherApp.Model.modelData :=
  Spec.complete_data 20.4 18.6 55 10 0.2 30 0 (inject_Z (15 * 10 ^ 307))
    1013.2 (Some "Rain") (Some "Good") (Some "Pleasant").

(** The clock reads 2023-11-14T22:13:20Z; the date picked is the next day,
    2023-11-15, which [new Date] reads as midnight UTC; [far] is the
    2023-11-24, ten days ahead by the application's count. *)
Definition now : Z := 1700000000000.
Definition picked : Z := 1700006400000.
Definition far : Z := 1700006400000 + 9 * 86400000.

Definition new_york : Api.Location.t :=
  {| Api.Location.name := "New York City";
     Api.Location.latitude := JS.Num 40.7128;
     Api.Location.longitude := JS.Num (-74.0060) |}.

(** A variable of the dashboards' answer with a confidence of 0.87. *)
Definition air_temperature : Api.VariableEntry.t :=
  {| Api.VariableEntry.name := "air_temperature";
     Api.VariableEntry.value := 21.5;
     Api.VariableEntry.unit := Some "degC";
     Api.VariableEntry.confidence := JS.Number 0.87 |}.

(** A variable with a value of 0.2345 and a given confidence. *)
Definition soil_moisture (confidence : Q) : Api.VariableEntry.t :=
  {| Api.VariableEntry.name := "Soil Moisture";
     Api.VariableEntry.value := 0.2345;
     Api.VariableEntry.unit := None;
     Api.VariableEntry.confidence := JS.Number confidence |}.

Definition oracle_ready : WeatherOracle.state :=
  {| WeatherOracle.isLoading := false;
     WeatherOracle.selectedLocation := Some new_york;
     WeatherOracle.currentData := None |}.

End Examples.

(** * Properties *)

(** ** Doubles *)

Lemma pow2_pos (e : Z) : (0 < 2 ^ e)%Q.
Proof. apply Qpower_0_lt. reflexivity. Qed.

Lemma pow2_plus (a b : Z) : (2 ^ (a + b) == 2 ^ a * 2 ^ b)%Q.
Proof. apply Qpower_plus. discriminate. Qed.

Lemma pow2_Z (n : Z) : 0 <= n -> (2 ^ n == inject_Z (2 ^ n))%Q.
Proof. intros H. now rewrite Zpower_Qpower. Qed.

Lemma pow2_le (a b : Z) : a <= b -> (2 ^ a <= 2 ^ b)%Q.
Proof. intros H. apply Qpower_le_compat_l; [exact H | discriminate]. Qed.

Lemma pow2_lt_inv (a b : Z) : (2 ^ a < 2 ^ b)%Q -> a < b.
Proof. intros H. apply (Qpower_lt_compat_l_inv 2); [exact H | reflexivity]. Qed.

(** The exponent found is not above the magnitude. *)
Lemma ilog2_le (a : Q) : (0 < a)%Q -> (2 ^ JS.ilog2 a <= a)%Q.
Proof.
  intros Ha. unfold JS.ilog2.
  destruct (Qlt_le_dec a _) as [Hlt|Hle]; [|exact Hle].
  destruct a as [n d]. cbn [Qnum Qden] in *.
  assert (0 < n) as Hn by (unfold Qlt in Ha; cbn in Ha; lia).
  pose proof (Z.log2_spec n Hn) as [Hn1 _].
  pose proof (Z.log2_spec (Z.pos d) (Pos2Z.is_pos d)) as [_ Hd2].
  pose proof (Z.log2_nonneg n) as Hn0.
  pose proof (Z.log2_nonneg (Z.pos d)) as Hd0.
  replace (Z.log2 n - Z.log2 (Z.pos d) - 1)
    with (Z.log2 n + - (Z.log2 (Z.pos d) + 1)) by lia.
  rewrite pow2_plus, Qpower_opp, !pow2_Z by lia.
  set (p := 2 ^ Z.log2 n) in *. set (r := 2 ^ (Z.log2 (Z.pos d) + 1)) in *.
  assert (0 < r) as Hr by lia.
  apply Qle_shift_div_r; [change 0%Q with (inject_Z 0); now rewrite <- Zlt_Qlt|].
  unfold Qle, Qmult, inject_Z. cbn. nia.
Qed.

Lemma round_even_Z (z : Z) : JS.round_even (inject_Z z) = z.
Proof.
  unfold JS.round_even. rewrite Qfloor_Z.
  replace (inject_Z z - inject_Z z ?= 1 # 2)%Q with Lt; [reflexivity|].
  symmetry. apply -> Qlt_alt. lra.
Qed.

Lemma round_even_comp (x y : Q) : (x == y)%Q -> JS.round_even x = JS.round_even y.
Proof.
  intros H. unfold JS.round_even. rewrite (Qfloor_comp _ _ H).
  now rewrite H.
Qed.

Lemma round_even_le (m : Q) (n : Z) : (m <= inject_Z n)%Q -> JS.round_even m <= n.
Proof.
  intros H. unfold JS.round_even.
  pose proof (Qfloor_le m) as Hf. pose proof (Qlt_floor m) as Hc.
  assert (Qfloor m <= n) as Hfn.
  { rewrite Zle_Qle. lra. }
  destruct (Z.eq_dec (Qfloor m) n) as [E|E].
  - assert (m == inject_Z n)%Q as Hm by (rewrite <- E in *; lra).
    replace (m - inject_Z (Qfloor m) ?= 1 # 2)%Q with Lt; [lia|].
    symmetry. apply -> Qlt_alt. rewrite E. lra.
  - destruct (m - inject_Z (Qfloor m) ?= 1 # 2)%Q; [destruct (Z.even _)| |]; lia.
Qed.

Lemma round_even_nonneg (m : Q) : (0 <= m)%Q -> 0 <= JS.round_even m.
Proof.
  intros H. unfold JS.round_even.
  assert (0 <= Qfloor m).
  { change 0 with (Qfloor 0). now apply Qfloor_resp_le. }
  destruct (_ ?= _)%Q; [destruct (Z.even _)| |]; lia.
Qed.




Lemma Qle_bool_false (x y : Q) : (y < x)%Q -> Qle_bool x y = false.
Proof.
  intros H. destruct (Qle_bool x y) eqn:E; [|reflexivity].
  apply Qle_bool_iff in E. lra.
Qed.

(** What [JS.fl] does on a number that is not 0: the steps with their facts. *)
Lemma fl_steps (x : Q) :
  ~ (x == 0)%Q ->
  exists (q M : Z),
    q = Z.max (JS.ilog2 (Qabs x) - 52) (-1074)
    /\ M = JS.round_even (Qabs x / 2 ^ q)
    /\ 0 <= M
    /\ JS.fl x = (if Qle_bool (2 ^ 1024) (inject_Z M * 2 ^ q)
               then JS.sign_inf (Qle_bool 0 x)
               else JS.Num (Qred (if Qle_bool 0 x then inject_Z M * 2 ^ q
                               else - (inject_Z M * 2 ^ q)))).
Proof.
  intros Hx. unfold JS.fl.
  destruct (Qeq_bool x 0) eqn:E; [apply Qeq_bool_iff in E; contradiction|].
  eexists _, _. split; [reflexivity|]. split; [reflexivity|].
  split; [|reflexivity].
  apply round_even_nonneg. apply Qle_shift_div_l; [apply pow2_pos|].
  rewrite Qmult_0_l. apply Qabs_nonneg.
Qed.

Lemma ilog2_bound (a : Q) (k : Z) : (0 < a)%Q -> (a < 2 ^ k)%Q -> JS.ilog2 a < k.
Proof.
  intros Ha Hk. apply pow2_lt_inv.
  eapply Qle_lt_trans; [apply ilog2_le; exact Ha | exact Hk].
Qed.

(** Rounding does not leave an interval bounded by a power of two. *)
Lemma fl_bounded (x : Q) (k : Z) :
  0 <= k <= 1023 -> (Qabs x <= 2 ^ k)%Q ->
  exists y, JS.fl x = JS.Num y /\ (Qabs y <= 2 ^ k)%Q
            /\ ((0 <= x)%Q -> (0 <= y)%Q) /\ ((x <= 0)%Q -> (y <= 0)%Q).
Proof.
  intros Hk Hx.
  destruct (Qeq_dec x 0) as [E|E].
  { exists 0%Q. unfold JS.fl. apply Qeq_bool_iff in E. rewrite E.
    split; [reflexivity|]. split; [|split; intros _; apply Qle_refl].
    apply Qlt_le_weak, pow2_pos. }
  destruct (fl_steps x E) as (q & M & Hq & HM & HM0 & ->).
  assert (0 < Qabs x)%Q as Ha.
  { pose proof (Qabs_nonneg x) as H. apply Qle_lteq in H as [H|H]; [exact H|].
    exfalso. apply E. symmetry in H. revert H. apply Qabs_case; intros; lra. }
  assert (JS.ilog2 (Qabs x) < k + 1) as He.
  { apply ilog2_bound; [exact Ha|].
    eapply Qle_lt_trans; [exact Hx|]. apply Qpower_lt_compat_l; [lia|reflexivity]. }
  assert (q <= k) as Hqk by lia.
  assert (M <= 2 ^ (k - q)) as HMk.
  { rewrite HM. apply round_even_le. rewrite <- pow2_Z by lia.
    apply Qle_shift_div_r; [apply pow2_pos|].
    rewrite <- pow2_plus. replace (k - q + q) with k by lia. exact Hx. }
  assert (inject_Z M * 2 ^ q <= 2 ^ k)%Q as Hy.
  { replace k with ((k - q) + q) at 1 by lia. rewrite pow2_plus.
    apply Qmult_le_compat_r; [|apply Qlt_le_weak, pow2_pos].
    rewrite pow2_Z by lia. now rewrite <- Zle_Qle. }
  assert (0 <= inject_Z M * 2 ^ q)%Q as Hy0.
  { apply Qmult_le_0_compat; [|apply Qlt_le_weak, pow2_pos].
    change 0%Q with (inject_Z 0). now rewrite <- Zle_Qle. }
  rewrite Qle_bool_false.
  2:{ eapply Qle_lt_trans; [exact Hy|].
      apply Qpower_lt_compat_l; [lia|reflexivity]. }
  eexists. split; [reflexivity|]. rewrite Qred_correct.
  destruct (Qle_bool 0 x) eqn:Es.
  - apply Qle_bool_iff in Es. split; [|split].
    + rewrite Qabs_pos by exact Hy0. exact Hy.
    + intros _. exact Hy0.
    + intros H. exfalso. apply E. lra.
  - assert (x < 0)%Q as Hneg.
    { apply Qnot_le_lt. intros H. apply Qle_bool_iff in H. congruence. }
    split; [|split].
    + rewrite Qabs_opp, Qabs_pos by exact Hy0. exact Hy.
    + intros H. lra.
    + intros _. lra.
Qed.

Lemma Qred_zero (y : Q) : Qred y = 0%Q <-> (y == 0)%Q.
Proof.
  split; intros H.
  - rewrite <- (Qred_correct y), H. reflexivity.
  - apply (Qred_complete _ _ H).
Qed.

Lemma round_even_zero (m : Q) :
  (0 <= m)%Q -> (JS.round_even m = 0 <-> (m <= 1 # 2)%Q).
Proof.
  intros H0. unfold JS.round_even.
  pose proof (Qfloor_le m) as Hf. pose proof (Qlt_floor m) as Hc.
  assert (0 <= Qfloor m) as Hfl.
  { change 0 with (Qfloor 0). now apply Qfloor_resp_le. }
  rewrite inject_Z_plus in Hc. change (inject_Z 1) with 1%Q in Hc.
  destruct (Z.eq_dec (Qfloor m) 0) as [Hz|Hn].
  - rewrite Hz in *. change (inject_Z 0) with 0%Q in *. cbn [Z.even].
    destruct (m - 0 ?= 1 # 2)%Q eqn:E.
    + apply Qeq_alt in E. split; [intros _; lra | reflexivity].
    + apply Qlt_alt in E. split; [intros _; lra | reflexivity].
    + apply Qgt_alt in E. split; [intros H; lia | intros H; lra].
  - assert (1 <= Qfloor m) as H1 by lia.
    assert (1 <= inject_Z (Qfloor m))%Q as H1q.
    { change 1%Q with (inject_Z 1). now rewrite <- Zle_Qle. }
    split.
    + intros H. exfalso.
      destruct (_ ?= _)%Q; [destruct (Z.even _)| |]; lia.
    + intros H. lra.
Qed.

Lemma fl_not_NaN (x : Q) : JS.fl x <> JS.NaN.
Proof.
  unfold JS.fl. destruct (Qeq_bool x 0); [discriminate|].
  cbv zeta. destruct (Qle_bool (2 ^ 1024) _); [|discriminate].
  destruct (Qle_bool 0 x); discriminate.
Qed.

(** The value of a double is kept in lowest terms. *)
Lemma fl_canonical (x y : Q) : JS.fl x = JS.Num y -> Qred y = y.
Proof.
  unfold JS.fl. destruct (Qeq_bool x 0); [intros [= <-]; reflexivity|].
  cbv zeta. destruct (Qle_bool (2 ^ 1024) _).
  { destruct (Qle_bool 0 x); discriminate. }
  intros [= <-]. apply Qred_complete, Qred_correct.
Qed.

Lemma fl_zero_canonical (x y : Q) : JS.fl x = JS.Num y -> (y == 0)%Q -> y = 0%Q.
Proof.
  intros H Hy. rewrite <- (fl_canonical x y H). now apply Qred_zero.
Qed.

(** A number is read as 0 exactly when its magnitude is at most half of
    the least positive double, 2^-1074. *)
Lemma fl_zero_iff (x : Q) :
  JS.fl x = JS.Num 0 <-> (Qabs x <= 2 ^ (-1075))%Q.
Proof.
  destruct (Qeq_dec x 0) as [E|E].
  { split; intros _.
    - rewrite E. apply Qlt_le_weak. reflexivity.
    - unfold JS.fl. apply Qeq_bool_iff in E. now rewrite E. }
  destruct (fl_steps x E) as (q & M & Hq & HM & HM0 & ->).
  assert (0 < Qabs x)%Q as Ha.
  { pose proof (Qabs_nonneg x) as H. apply Qle_lteq in H as [H|H]; [exact H|].
    exfalso. apply E. symmetry in H. revert H. apply Qabs_case; intros; lra. }
  pose proof (ilog2_le _ Ha) as Hlog.
  pose proof (pow2_pos q) as Hpq.
  assert (M = 0 <-> (Qabs x <= 2 ^ (q - 1))%Q) as HMz.
  { rewrite HM, round_even_zero.
    2:{ apply Qle_shift_div_l; [exact Hpq|]. rewrite Qmult_0_l. lra. }
    replace (q - 1) with (q + -1) by lia. rewrite pow2_plus.
    change (2 ^ (-1))%Q with (1 # 2)%Q.
    split; intros H.
    - assert (Qabs x == 2 ^ q * (Qabs x / 2 ^ q))%Q as Hd.
      { rewrite Qmult_div_r; [reflexivity | lra]. }
      set (t := (Qabs x / 2 ^ q)%Q) in *. rewrite Hd.
      apply Qmult_le_l; [exact Hpq | exact H].
    - apply Qle_shift_div_r; [exact Hpq|]. lra. }
  assert ((Qabs x <= 2 ^ (q - 1))%Q <-> (Qabs x <= 2 ^ (-1075))%Q) as Hqq.
  { split; intros H.
    - assert (JS.ilog2 (Qabs x) < q).
      { apply ilog2_bound; [exact Ha|]. eapply Qle_lt_trans; [exact H|].
        apply Qpower_lt_compat_l; [lia|reflexivity]. }
      replace q with (-1074) in H by lia. exact H.
    - assert (JS.ilog2 (Qabs x) < -1074).
      { apply ilog2_bound; [exact Ha|]. eapply Qle_lt_trans; [exact H|].
        apply Qpower_lt_compat_l; [lia|reflexivity]. }
      replace q with (-1074) by lia. exact H. }
  rewrite <- Hqq, <- HMz.
  split.
  - intros H. destruct (Qle_bool (2 ^ 1024) _).
    { destruct (Qle_bool 0 x); discriminate H. }
    injection H as H. apply Qred_zero in H.
    assert (inject_Z M * 2 ^ q == 0)%Q as Hy.
    { revert H. destruct (Qle_bool 0 x); intros H; lra. }
    apply Qmult_integral in Hy as [Hy|Hy]; [|lra].
    change 0%Q with (inject_Z 0) in Hy. now rewrite inject_Z_injective in Hy.
  - intros ->. rewrite Qle_bool_false.
    2:{ rewrite Qmult_0_l. apply pow2_pos. }
    f_equal. apply Qred_zero. destruct (Qle_bool 0 x).
    + apply Qmult_0_l.
    + rewrite Qmult_0_l. reflexivity.
Qed.

(** The exponent found is the one: the magnitude is below the next power. *)
Lemma ilog2_lt (a : Q) : (0 < a)%Q -> (a < 2 ^ (JS.ilog2 a + 1))%Q.
Proof.
  intros Ha. unfold JS.ilog2.
  destruct (Qlt_le_dec a _) as [Hlt|Hle].
  { now replace (Z.log2 (Qnum a) - Z.log2 (Z.pos (Qden a)) - 1 + 1)
      with (Z.log2 (Qnum a) - Z.log2 (Z.pos (Qden a))) by lia. }
  destruct a as [n d]. cbn [Qnum Qden] in *.
  assert (0 < n) as Hn by (unfold Qlt in Ha; cbn in Ha; lia).
  pose proof (Z.log2_spec n Hn) as [_ Hn2].
  pose proof (Z.log2_spec (Z.pos d) (Pos2Z.is_pos d)) as [Hd1 _].
  pose proof (Z.log2_nonneg n) as Hn0.
  pose proof (Z.log2_nonneg (Z.pos d)) as Hd0.
  replace (Z.log2 n - Z.log2 (Z.pos d) + 1)
    with (Z.succ (Z.log2 n) + - Z.log2 (Z.pos d)) by lia.
  rewrite pow2_plus, Qpower_opp, !pow2_Z by lia.
  set (p := 2 ^ Z.succ (Z.log2 n)) in *. set (r := 2 ^ Z.log2 (Z.pos d)) in *.
  assert (0 < r) as Hr by lia.
  apply Qlt_shift_div_l; [change 0%Q with (inject_Z 0); now rewrite <- Zlt_Qlt|].
  unfold Qlt, Qmult, inject_Z. cbn. nia.
Qed.

Lemma ilog2_unique (a : Q) (e : Z) :
  (2 ^ e <= a)%Q -> (a < 2 ^ (e + 1))%Q -> JS.ilog2 a = e.
Proof.
  intros H1 H2.
  assert (0 < a)%Q as Ha by (eapply Qlt_le_trans; [apply pow2_pos | exact H1]).
  pose proof (ilog2_le a Ha) as H3. pose proof (ilog2_lt a Ha) as H4.
  assert (e < JS.ilog2 a + 1).
  { apply pow2_lt_inv. eapply Qle_lt_trans; [exact H1 | exact H4]. }
  assert (JS.ilog2 a < e + 1).
  { apply pow2_lt_inv. eapply Qle_lt_trans; [exact H3 | exact H2]. }
  lia.
Qed.

(** A multiple [M * 2^q] of a power of two that a double can hold, with a
    significand of at most 53 bits, is read as itself. *)
Lemma fl_multiple (x : Q) (M q : Z) :
  1 <= M <= 2 ^ 53 -> -1074 <= q ->
  (Qabs x == inject_Z M * 2 ^ q)%Q -> (Qabs x < 2 ^ 1024)%Q ->
  JS.fl x = JS.Num (Qred x).
Proof.
  intros HM Hq Hx Hfin.
  assert (0 < inject_Z M)%Q as HM0.
  { change 0%Q with (inject_Z 0). rewrite <- Zlt_Qlt. lia. }
  pose proof (pow2_pos q) as Hpq.
  assert (0 < Qabs x)%Q as Ha.
  { rewrite Hx. apply Qmult_lt_0_compat; assumption. }
  assert (~ (x == 0)%Q) as E.
  { intros E. rewrite E in Ha. now apply Qlt_irrefl in Ha. }
  destruct (fl_steps x E) as (q' & M' & Hq' & HM' & HM'0 & ->).
  set (L := Z.log2 M).
  assert (0 <= L <= 53) as HL.
  { split; [apply Z.log2_nonneg|].
    unfold L. destruct (Z.eq_dec M (2 ^ 53)) as [->|Hne]; [reflexivity|].
    assert (Z.log2 M < 53); [|lia]. apply Z.log2_lt_pow2; lia. }
  pose proof (Z.log2_spec M ltac:(lia)) as [HL1 HL2]. fold L in HL1, HL2.
  clearbody L.
  assert (JS.ilog2 (Qabs x) = L + q) as Hlog.
  { apply ilog2_unique; rewrite Hx.
    - rewrite pow2_plus. apply Qmult_le_compat_r; [|lra].
      rewrite pow2_Z by lia. now rewrite <- Zle_Qle.
    - replace (L + q + 1) with (Z.succ L + q) by lia. rewrite pow2_plus.
      apply Qmult_lt_compat_r; [exact Hpq|].
      rewrite pow2_Z by lia. now rewrite <- Zlt_Qlt. }
  rewrite Hlog in Hq'.
  assert (exists k, Qabs x / 2 ^ q' == inject_Z k)%Q as (k & Hm).
  { pose proof (pow2_pos q') as Hpq'.
    destruct (Z.eq_dec L 53) as [E53|Hne].
    - subst L. assert (M = 2 ^ 53) as -> by lia.
      exists (2 ^ 52). rewrite Hx, <- !pow2_Z by lia.
      replace q' with (q + 1) by lia. rewrite (pow2_plus q 1).
      assert (2 ^ 53 == 2 ^ 52 * 2 ^ 1)%Q as -> by reflexivity.
      field. lra.
    - exists (M * 2 ^ (q - q')). rewrite Hx, inject_Z_mult, <- pow2_Z by lia.
      replace q with ((q - q') + q') at 1 by lia.
      rewrite pow2_plus. field. lra. }
  rewrite (round_even_comp _ _ Hm), round_even_Z in HM'. subst M'.
  assert (inject_Z k * 2 ^ q' == Qabs x)%Q as Hy.
  { rewrite <- Hm. field. apply Qnot_eq_sym, Qlt_not_eq, pow2_pos. }
  rewrite Qle_bool_false by (rewrite Hy; exact Hfin).
  f_equal. apply Qred_complete.
  destruct (Qle_bool 0 x) eqn:Es.
  - apply Qle_bool_iff in Es. rewrite Hy. now apply Qabs_pos.
  - assert (x < 0)%Q as Hneg.
    { apply Qnot_le_lt. intros H. apply Qle_bool_iff in H. congruence. }
    rewrite Hy, Qabs_neg by lra. lra.
Qed.

(** A double is read as itself. *)
Lemma fl_idempotent (x y : Q) : JS.fl x = JS.Num y -> JS.fl y = JS.Num y.
Proof.
  intros H. pose proof (fl_canonical x y H) as Hc.
  destruct (Qeq_dec x 0) as [E|E].
  { unfold JS.fl in H. apply Qeq_bool_iff in E. rewrite E in H.
    now injection H as <-. }
  destruct (fl_steps x E) as (q & M & Hq & HM & HM0 & Hfl).
  rewrite H in Hfl.
  destruct (Qle_bool (2 ^ 1024) (inject_Z M * 2 ^ q)) eqn:Efin;
    [destruct (Qle_bool 0 x); discriminate Hfl|].
  assert (inject_Z M * 2 ^ q < 2 ^ 1024)%Q as Hfin.
  { apply Qnot_le_lt. intros Hle. apply Qle_bool_iff in Hle. congruence. }
  injection Hfl as Hy.
  assert (Qabs y == inject_Z M * 2 ^ q)%Q as Habs.
  { pose proof (pow2_pos q) as Hpq.
    assert (0 <= inject_Z M * 2 ^ q)%Q as H0.
    { apply Qmult_le_0_compat; [|lra].
      change 0%Q with (inject_Z 0). now rewrite <- Zle_Qle. }
    rewrite Hy, Qred_correct.
    destruct (Qle_bool 0 x); [now apply Qabs_pos|].
    rewrite Qabs_opp. now apply Qabs_pos. }
  destruct (Z.eq_dec M 0) as [->|HM1].
  { assert (y == 0)%Q as Hz.
    { revert Habs. rewrite Qmult_0_l. apply Qabs_case; intros; lra. }
    rewrite (fl_zero_canonical x y H Hz). reflexivity. }
  assert (0 < Qabs x)%Q as Ha.
  { pose proof (Qabs_nonneg x) as H0. apply Qle_lteq in H0 as [H0|H0]; [exact H0|].
    exfalso. apply E. symmetry in H0. revert H0. apply Qabs_case; intros; lra. }
  assert (M <= 2 ^ 53) as HM53.
  { rewrite HM. apply round_even_le. rewrite <- pow2_Z by lia.
    apply Qle_shift_div_r; [apply pow2_pos|]. rewrite <- pow2_plus.
    apply Qlt_le_weak. eapply Qlt_le_trans; [apply ilog2_lt; exact Ha|].
    apply pow2_le. lia. }
  rewrite (fl_multiple y M q); [now rewrite Hc | lia | lia | exact Habs|].
  now rewrite Habs.
Qed.

(** ** Strings *)

Lemma append_cons (c : ascii) (a b : string) :
  String c a +:+ b = String c (a +:+ b).
Proof. reflexivity. Qed.

Lemma append_nil_l (s : string) : "" +:+ s = s.
Proof. reflexivity. Qed.

Lemma append_nil_r (s : string) : s +:+ "" = s.
Proof.
  induction s as [|c s IH]; [reflexivity | now rewrite append_cons, IH].
Qed.

Lemma append_assoc (a b c : string) : (a +:+ b) +:+ c = a +:+ (b +:+ c).
Proof.
  induction a as [|x a IH]; [reflexivity | now rewrite !append_cons, IH].
Qed.

Lemma toLowerCase_append (a b : string) :
  JS.toLowerCase (a +:+ b) = JS.toLowerCase a +:+ JS.toLowerCase b.
Proof.
  induction a as [|x a IH]; [reflexivity |].
  rewrite append_cons. cbn [JS.toLowerCase]. now rewrite append_cons, IH.
Qed.

(** A lowered string splits where its source splits. *)
Lemma toLowerCase_split (s a b : string) :
  JS.toLowerCase s = a +:+ b ->
  exists s1 s2, s = s1 +:+ s2 /\ JS.toLowerCase s1 = a /\ JS.toLowerCase s2 = b.
Proof.
  revert s. induction a as [|x a IH]; intros s H.
  - exists ""%string, s. auto.
  - rewrite append_cons in H.
    destruct s as [|c s]; cbn [JS.toLowerCase] in H; [discriminate|].
    injection H as Hc Hs. destruct (IH _ Hs) as (s1 & s2 & -> & H1 & H2).
    exists (String c s1), s2. cbn [JS.toLowerCase].
    rewrite H1, Hc, append_cons. auto.
Qed.

Lemma prefix_append (p s : string) :
  String.prefix p s = true <-> exists post, s = p +:+ post.
Proof.
  revert s. induction p as [|x p IH]; intros s.
  - destruct s; cbn [String.prefix]; split; eauto.
  - destruct s as [|c s]; cbn [String.prefix].
    + split; [discriminate | intros [post H]; discriminate].
    + destruct (ascii_dec x c) as [->|Hne].
      * rewrite IH. split; intros [post H]; exists post.
        -- now rewrite append_cons, H.
        -- rewrite append_cons in H. now injection H.
      * split; [discriminate | intros [post H]].
        rewrite append_cons in H. injection H as H1 _. congruence.
Qed.

(** [includes] decides the occurrence of a substring. *)
Lemma includes_iff (hay needle : string) :
  JS.includes hay needle = true <->
  exists pre post, hay = pre +:+ needle +:+ post.
Proof.
  induction hay as [|c hay IH].
  - cbn [JS.includes]. rewrite orb_false_r, prefix_append. split.
    + intros [post H]. exists ""%string, post. exact H.
    + intros (pre & post & H). destruct pre; [eauto | discriminate].
  - cbn [JS.includes]. rewrite orb_true_iff, prefix_append, IH. split.
    + intros [[post H] | (pre & post & H)].
      * exists ""%string, post. exact H.
      * exists (String c pre), post. now rewrite append_cons, H.
    + intros (pre & post & H). destruct pre as [|x pre].
      * left. eauto.
      * right. rewrite append_cons in H. injection H as _ H. eauto.
Qed.

(** The keyword test of [getVariableCategory] is the case-insensitive
    occurrence of the keyword. *)
Lemma includes_lower_mentions (name kw : string) :
  JS.includes (JS.toLowerCase name) kw = true <-> Spec.mentions kw name.
Proof.
  rewrite includes_iff. split.
  - intros (pre & post & H).
    apply toLowerCase_split in H as (s1 & s23 & -> & H1 & H23).
    apply toLowerCase_split in H23 as (s2 & s3 & -> & H2 & H3).
    exists s1, s2, s3. auto.
  - intros (pre & mid & post & -> & <-).
    exists (JS.toLowerCase pre), (JS.toLowerCase post).
    now rewrite !toLowerCase_append.
Qed.

Lemma not_mentions (name kw : string) :
  JS.includes (JS.toLowerCase name) kw = false <-> ~ Spec.mentions kw name.
Proof.
  rewrite <- includes_lower_mentions.
  destruct (JS.includes _ _); split; congruence.
Qed.

(** Lowering a character gives the same letter. *)
Lemma same_letter_lower (c : ascii) : Spec.same_letter c (JS.lower_ascii c).
Proof.
  destruct c as [[] [] [] [] [] [] [] []];
    first [ left; reflexivity
          | right; left; cbv [Spec.letters Spec.capitals Spec.smalls
               String.list_ascii_of_string combine In];
            repeat first [left; reflexivity | right] ].
Qed.

(** A character that is the same letter as one that lowering leaves alone
    is lowered to it. *)
Lemma lower_same_letter (c k : ascii) :
  JS.lower_ascii k = k -> Spec.same_letter c k -> JS.lower_ascii c = k.
Proof.
  intros Hk [-> | [H | H]]; [exact Hk | |].
  - cbv [Spec.letters Spec.capitals Spec.smalls
               String.list_ascii_of_string combine In] in H.
    repeat (destruct H as [[= <- <-] | H]; [reflexivity|]). contradiction.
  - cbv [Spec.letters Spec.capitals Spec.smalls
               String.list_ascii_of_string combine In] in H.
    repeat (destruct H as [[= <- <-] | H]; [discriminate Hk|]). contradiction.
Qed.

(** For a keyword without capitals, a text is lowered to it exactly when
    the two are the same text. *)
Lemma toLowerCase_same_text (mid kw : string) :
  JS.toLowerCase kw = kw ->
  JS.toLowerCase mid = kw <-> Spec.same_text mid kw.
Proof.
  intros Hkw. split.
  - intros <-. clear Hkw. induction mid as [|c mid IH]; cbn [JS.toLowerCase].
    + constructor.
    + constructor; [apply same_letter_lower | exact IH].
  - intros H. induction H as [|a b s t Hab Hst IH]; [reflexivity|].
    cbn [JS.toLowerCase] in *. injection Hkw as Hb Ht.
    now rewrite (lower_same_letter a b Hb Hab), (IH Ht).
Qed.

(** The keyword test of [getVariableCategory] is the occurrence of the
    keyword with case ignored. *)
Lemma includes_lower_occurs (name kw : string) :
  JS.toLowerCase kw = kw ->
  JS.includes (JS.toLowerCase name) kw = true
  <-> Spec.occurs_ignoring_case kw name.
Proof.
  intros Hkw. rewrite includes_lower_mentions. unfold Spec.mentions.
  split; intros (pre & mid & post & Hname & H); exists pre, mid, post;
    (split; [exact Hname|]); now apply (toLowerCase_same_text mid kw Hkw).
Qed.

Lemma not_occurs (name kw : string) :
  JS.toLowerCase kw = kw ->
  JS.includes (JS.toLowerCase name) kw = false
  <-> ~ Spec.occurs_ignoring_case kw name.
Proof.
  intros Hkw. rewrite <- (includes_lower_occurs name kw Hkw).
  destruct (JS.includes _ _); split; congruence.
Qed.

Lemma getVariableCategory_same (name : string) :
  EnvironmentalDashboard.getVariableCategory name
  = WeatherOracle.getVariableCategory name.
Proof. reflexivity. Qed.

(** C7: [getVariableCategory] returns one of the five categories, chosen by
    the first keyword group, in the order temperature, moisture/humidity,
    radiation/flux, precipitation/rain/snow, that occurs in the name when
    case is ignored - some part of the name spells the keyword in capital
    or small letters - and [other] when none does; the two dashboards
    agree. *)
Theorem getVariableCategory_decision_list (name : string) :
  let cat := WeatherOracle.getVariableCategory name in
  let has kw := Spec.occurs_ignoring_case kw name in
  In cat Spec.categories
  /\ (cat = "temperature" <-> has "temperature")
  /\ (cat = "moisture" <->
        ~ has "temperature" /\ (has "moisture" \/ has "humidity"))
  /\ (cat = "radiation" <->
        ~ has "temperature" /\ ~ (has "moisture" \/ has "humidity")
        /\ (has "radiation" \/ has "flux"))
  /\ (cat = "precipitation" <->
        ~ has "temperature" /\ ~ (has "moisture" \/ has "humidity")
        /\ ~ (has "radiation" \/ has "flux")
        /\ (has "precipitation" \/ has "rain" \/ has "snow"))
  /\ (cat = "other" <->
        ~ has "temperature" /\ ~ (has "moisture" \/ has "humidity")
        /\ ~ (has "radiation" \/ has "flux")
        /\ ~ (has "precipitation" \/ has "rain" \/ has "snow"))
  /\ EnvironmentalDashboard.getVariableCategory name = cat.
Proof.
  intros cat has. subst cat has. cbv beta.
  unfold WeatherOracle.getVariableCategory, Spec.categories.
  rewrite getVariableCategory_same. unfold WeatherOracle.getVariableCategory.
  cbv zeta.
  repeat match goal with
  | |- context [JS.includes (JS.toLowerCase name) ?kw] =>
      let b := fresh "b" in let E := fresh "E" in
      destruct (JS.includes (JS.toLowerCase name) kw) eqn:E;
      [apply (includes_lower_occurs name kw eq_refl) in E
      | apply (not_occurs name kw eq_refl) in E]
  end; cbn [orb];
  (repeat split; try (intros; discriminate); try (cbn [In]; tauto);
   intros; try reflexivity; try tauto).
Qed.

(** 'Air TEMPERATURE' spells the keyword in capitals: its category is
    temperature; 'Relative Humidity' is moisture. *)
Lemma getVariableCategory_decision_list_witness :
  WeatherOracle.getVariableCategory "Air TEMPERATURE" = "temperature"
  /\ WeatherOracle.getVariableCategory "Relative Humidity" = "moisture".
Proof.
  assert (forall a b, In (a, b) Spec.letters -> Spec.same_letter a b) as Hup.
  { intros a b H. right. left. exact H. }
  assert (forall a, Spec.same_letter a a) as Hsame by (intros a; now left).
  split.
  - apply (proj1 (proj2 (getVariableCategory_decision_list "Air TEMPERATURE"))).
    exists "Air "%string, "TEMPERATURE"%string, ""%string.
    split; [reflexivity|].
    repeat (constructor; [apply Hup; cbv [Spec.letters Spec.capitals Spec.smalls
               String.list_ascii_of_string combine In]; tauto|]).
    constructor.
  - apply (proj1 (proj2 (proj2
             (getVariableCategory_decision_list "Relative Humidity")))).
    split.
    + intros (pre & mid & post & Hname & H).
      apply (toLowerCase_same_text mid "temperature" eq_refl) in H.
      assert (JS.includes (JS.toLowerCase "Relative Humidity") "temperature"
              = true) as Hinc; [|discriminate Hinc].
      apply includes_lower_mentions. exists pre, mid, post. auto.
    + right. exists "Relative "%string, "Humidity"%string, ""%string.
      split; [reflexivity|].
      constructor; [apply Hup; cbv [Spec.letters Spec.capitals Spec.smalls
               String.list_ascii_of_string combine In]; tauto|].
      repeat (constructor; [apply Hsame|]). constructor.
Defined.

(** ** The weather summary *)

Lemma displayWeatherSummary_same (summary : gmap string JS.field) :
  EnvironmentalDashboard.displayWeatherSummary summary
  = WeatherOracle.displayWeatherSummary summary.
Proof. reflexivity. Qed.

(** C8: the summary display has exactly eight items, which show the fields
    temperature, feels_like, rain_probability, snow_probability,
    storm_probability, sunshine_index, humidity_index, wind_speed of the
    summary object in this order; no other field of the object has any
    influence on what is shown; the two dashboards agree. *)
Theorem displayWeatherSummary_eight_fields (summary : gmap string JS.field) :
  length (WeatherOracle.displayWeatherSummary summary) = 8%nat
  /\ map Dom.item_value (WeatherOracle.displayWeatherSummary summary)
     = map (fun k => default JS.Absent (summary !! k)) Spec.summary_fields
  /\ (forall other : gmap string JS.field,
        (forall k, In k Spec.summary_fields -> other !! k = summary !! k) ->
        WeatherOracle.displayWeatherSummary other
        = WeatherOracle.displayWeatherSummary summary)
  /\ EnvironmentalDashboard.displayWeatherSummary summary
     = WeatherOracle.displayWeatherSummary summary.
Proof.
  split; [reflexivity|]. split; [reflexivity|]. split; [|reflexivity].
  intros other H. unfold WeatherOracle.displayWeatherSummary, WeatherOracle.prop.
  rewrite !H by (unfold Spec.summary_fields; cbn [In]; tauto).
  reflexivity.
Qed.

(** ** Printing numbers *)

Lemma is_digit_digit (d : Z) : 0 <= d < 10 -> Spec.is_digit (JS.digit d) = true.
Proof.
  intros H.
  assert (d = 0 \/ d = 1 \/ d = 2 \/ d = 3 \/ d = 4 \/ d = 5 \/ d = 6 \/ d = 7
          \/ d = 8 \/ d = 9) as Hd by lia.
  repeat (destruct Hd as [-> | Hd]; [reflexivity |]). now subst.
Qed.

Lemma all_digits_NilEmpty (u : Decimal.uint) :
  Spec.all_digits (NilEmpty.string_of_uint u) = true.
Proof. induction u; cbn; auto. Qed.

Lemma decimal_all_digits (n : Z) : Spec.all_digits (JS.decimal n) = true.
Proof.
  unfold JS.decimal, NilZero.string_of_uint.
  destruct (N.to_uint (Z.to_N n)) as [|u|u|u|u|u|u|u|u|u|u] eqn:E;
    [reflexivity | ..].
  all: match goal with
       | |- Spec.all_digits (NilEmpty.string_of_uint ?d) = true =>
           apply (all_digits_NilEmpty d)
       end.
Qed.

Lemma decimal_nonempty (n : Z) : JS.decimal n <> "".
Proof.
  unfold JS.decimal, NilZero.string_of_uint.
  destruct (N.to_uint (Z.to_N n)); discriminate.
Qed.

Lemma frac_digits_1 (r : Z) :
  JS.frac_digits 1 r = String (JS.digit (r mod 10)) "".
Proof. reflexivity. Qed.

Section Printing.
Variable NumberToString : Q -> string.

(** Below 10^21, [toFixed(1)] prints an optional sign, the integer digits,
    a point and one digit. *)
Lemma toFixed_1_shape (x : Q) :
  (Qabs x < inject_Z (10 ^ 21))%Q ->
  exists (sign int : string) (d : ascii),
    JS.toFixed NumberToString (JS.Num x) 1 = sign +:+ int +:+ "." +:+ String d ""
    /\ (sign = "" \/ sign = "-")
    /\ int <> "" /\ Spec.all_digits int = true /\ Spec.is_digit d = true.
Proof.
  intros Hx. cbn [JS.toFixed]. unfold JS.toFixed_finite. cbv zeta.
  destruct (Qle_bool (inject_Z (10 ^ 21)) (Qabs x)) eqn:E.
  { apply Qle_bool_iff in E. exfalso. apply (Qlt_not_le _ _ Hx E). }
  rewrite frac_digits_1.
  set (n := Qfloor _).
  exists (if Qlt_le_dec x 0 then "-" else ""), (JS.decimal (n / 10 ^ Z.of_nat 1)),
    (JS.digit ((n mod 10 ^ Z.of_nat 1) mod 10)).
  split; [reflexivity|]. split; [destruct (Qlt_le_dec x 0); auto|].
  split; [apply decimal_nonempty|]. split; [apply decimal_all_digits|].
  apply is_digit_digit. apply Z.mod_pos_bound. lia.
Qed.

End Printing.

(** A summary that also carries a field the display does not know shows
    the same eight items as the summary without it. *)
Lemma displayWeatherSummary_eight_fields_witness :
  WeatherOracle.displayWeatherSummary
    (<["dew_point" := JS.Number 9]> {["temperature" := JS.Number 21]})
  = WeatherOracle.displayWeatherSummary {["temperature" := JS.Number 21]}.
Proof.
  apply (proj1 (proj2 (proj2 (displayWeatherSummary_eight_fields
           {["temperature" := JS.Number 21]})))).
  intros k Hk. apply lookup_insert_ne. intros <-.
  cbn in Hk. repeat (destruct Hk as [Hk|Hk]; [discriminate Hk|]). exact Hk.
Defined.

(** ** The variables table *)

Lemma percent_not_NA (s : string) : s +:+ "%" <> "N/A".
Proof.
  destruct s as [|a [|b [|c [|d s]]]]; rewrite ?append_cons, ?append_nil_l;
    intros H; try discriminate H.
  all: injection H as _ _ _ H; discriminate H.
Qed.

Lemma truthy_false_iff (f : JS.field) :
  JS.truthy f = false <->
  f = JS.Absent \/ f = JS.Null
  \/ exists q, f = JS.Number q /\ JS.fl q = JS.Num 0.
Proof.
  destruct f as [| |q]; cbn [JS.truthy].
  - tauto.
  - tauto.
  - split.
    + intros H. right. right. exists q. split; [reflexivity|].
      destruct (JS.fl q) as [| | |y] eqn:E; try discriminate H.
      { now apply fl_not_NaN in E. }
      cbn [JS.truthy_num] in H. apply negb_false_iff, Qeq_bool_iff in H.
      f_equal. now apply (fl_zero_canonical q).
    + intros [H | [H | (q' & [= <-] & Hq)]]; try discriminate.
      now rewrite Hq.
Qed.

Lemma variableRow_same (NumberToString : Q -> string) (v : Api.VariableEntry.t) :
  EnvironmentalDashboard.variableRow NumberToString v
  = WeatherOracle.variableRow NumberToString v.
Proof. reflexivity. Qed.

(** Below its header, the variables table has one row per variable, in
    order. *)
Lemma displayVariablesTable_rows
  (NumberToString : Q -> string) (variables : list Api.VariableEntry.t)
  (i : nat) :
  WeatherOracle.displayVariablesTable NumberToString variables !! S i
  = WeatherOracle.variableRow NumberToString <$> variables !! i.
Proof.
  unfold WeatherOracle.displayVariablesTable. cbn [lookup list_lookup].
  apply list_lookup_fmap.
Qed.

(** Below 2^62 in magnitude, a number read and multiplied by 100 stays
    below 10^21. *)
Lemma percent_bounded (q : Q) :
  (Qabs q <= 2 ^ 62)%Q ->
  exists z, JS.fmul (JS.fl q) (JS.Num 100) = JS.Num z
            /\ (Qabs z < inject_Z (10 ^ 21))%Q.
Proof.
  intros Hq.
  destruct (fl_bounded q 62 ltac:(lia) Hq) as (y & -> & Hy & _).
  cbn [JS.fmul].
  destruct (fl_bounded (y * 100) 69 ltac:(lia)) as (z & -> & Hz & _).
  { rewrite Qabs_Qmult. change (Qabs 100) with 100%Q.
    change (2 ^ 69)%Q with (2 ^ 62 * 128)%Q.
    pose proof (Qabs_nonneg y) as H0.
    set (a := Qabs y) in *. set (b := (2 ^ 62)%Q) in *.
    assert (0 <= b)%Q by (apply Qlt_le_weak; reflexivity). nra. }
  exists z. split; [reflexivity|].
  eapply Qle_lt_trans; [exact Hz | reflexivity].
Qed.

(** C9: the confidence cell of a row of the variables table reads 'N/A'
    exactly when the variable's confidence is absent, null or a number
    that is read as 0, which are 0 and the numbers of a magnitude up to
    2^-1075; any other confidence is shown as [(c * 100).toFixed(1)]
    followed by '%', where [c] is the double read and the product is the
    double nearest to it; when this product is below 10^21, as it is for
    a confidence below 2^62, the cell is a percentage with one decimal
    place; two variables that differ only in that one has confidence 0 and
    the other none give the same row; this row is the one the table shows
    for the variable; the two dashboards agree. *)
Theorem variableRow_confidence_cell
  (NumberToString : Q -> string) (v : Api.VariableEntry.t) :
  let cell :=
    Dom.cell_confidence (WeatherOracle.variableRow NumberToString v) in
  (cell = "N/A" <->
     Api.VariableEntry.confidence v = JS.Absent
     \/ Api.VariableEntry.confidence v = JS.Null
     \/ exists q, Api.VariableEntry.confidence v = JS.Number q
                  /\ (Qabs q <= 2 ^ (-1075))%Q)
  /\ (forall q, Api.VariableEntry.confidence v = JS.Number q ->
        (q == 0)%Q -> cell = "N/A")
  /\ (forall q, Api.VariableEntry.confidence v = JS.Number q ->
        ~ (Qabs q <= 2 ^ (-1075))%Q ->
        let percent := JS.fmul (JS.fl q) (JS.Num 100) in
        cell = JS.toFixed NumberToString percent 1 +:+ "%"
        /\ (forall z, percent = JS.Num z -> (Qabs z < inject_Z (10 ^ 21))%Q ->
              Spec.one_decimal_percent cell)
        /\ ((Qabs q <= 2 ^ 62)%Q -> Spec.one_decimal_percent cell))
  /\ (forall v' : Api.VariableEntry.t,
        Api.VariableEntry.name v' = Api.VariableEntry.name v ->
        Api.VariableEntry.value v' = Api.VariableEntry.value v ->
        Api.VariableEntry.unit v' = Api.VariableEntry.unit v ->
        JS.truthy (Api.VariableEntry.confidence v) = false ->
        JS.truthy (Api.VariableEntry.confidence v') = false ->
        WeatherOracle.variableRow NumberToString v'
        = WeatherOracle.variableRow NumberToString v)
  /\ (forall (variables : list Api.VariableEntry.t) (i : nat),
        variables !! i = Some v ->
        WeatherOracle.displayVariablesTable NumberToString variables !! S i
        = Some (WeatherOracle.variableRow NumberToString v))
  /\ EnvironmentalDashboard.variableRow NumberToString v
     = WeatherOracle.variableRow NumberToString v.
Proof.
  cbv zeta.
  assert (forall (variables : list Api.VariableEntry.t) (i : nat),
            variables !! i = Some v ->
            WeatherOracle.displayVariablesTable NumberToString variables !! S i
            = Some (WeatherOracle.variableRow NumberToString v)) as Hrows.
  { intros variables i Hi. now rewrite displayVariablesTable_rows, Hi. }
  assert (forall z, (Qabs z < inject_Z (10 ^ 21))%Q ->
            Spec.one_decimal_percent
              (JS.toFixed NumberToString (JS.Num z) 1 +:+ "%")) as Hshape.
  { intros z Hz.
    destruct (toFixed_1_shape NumberToString z Hz)
      as (sign & int & d & -> & Hs & Hi & Hd & Hc).
    exists sign, int, d. rewrite !append_assoc.
    rewrite append_cons, append_nil_l. auto. }
  assert (forall q, JS.truthy (JS.Number q) = false
                    <-> (Qabs q <= 2 ^ (-1075))%Q) as Hzero.
  { intros q. rewrite truthy_false_iff, <- fl_zero_iff. split.
    - intros [H | [H | (q' & [= <-] & H)]]; try discriminate H. exact H.
    - intros H. right. right. eauto. }
  unfold WeatherOracle.variableRow. cbn [Dom.cell_confidence].
  split; [|split; [|split; [|split; [|split; [exact Hrows | reflexivity]]]]].
  - split.
    + intros H.
      destruct (JS.truthy (Api.VariableEntry.confidence v)) eqn:E.
      { now apply percent_not_NA in H. }
      apply truthy_false_iff in E as [E | [E | (q & E & Hq)]]; auto.
      right. right. exists q. split; [exact E | now apply fl_zero_iff].
    + intros [H | [H | (q & H & Hq)]]; rewrite H; try reflexivity.
      apply Hzero in Hq. now rewrite Hq.
  - intros q H Hq. rewrite H.
    assert (JS.truthy (JS.Number q) = false) as ->; [|reflexivity].
    apply Hzero. rewrite Hq. apply Qlt_le_weak. reflexivity.
  - intros q H Hq. rewrite H.
    destruct (JS.truthy (JS.Number q)) eqn:E.
    2:{ apply Hzero in E. contradiction. }
    cbn [JS.ToNumber].
    split; [reflexivity|]. split.
    + intros z -> Hz. now apply Hshape.
    + intros Hb. destruct (percent_bounded q Hb) as (z & -> & Hz).
      now apply Hshape.
  - intros v' Hn Hv Hu Ht Ht'. now rewrite Hn, Hv, Hu, Ht, Ht'.
Qed.

(** A confidence of 0.87 is shown as 87.0% and one of 0.9996 as 100.0%;
    one of 0.0015 is shown as 0.1% and one of 0.8765 as 87.6%: the doubles
    read, times 100, are the doubles just below 0.15 and 87.65.  In the
    same way the value 0.2345 is shown as 0.234. *)
Lemma variableRow_confidence_cell_witness :
  let cell v := Dom.cell_confidence (WeatherOracle.variableRow (fun _ => "") v) in
  cell Examples.air_temperature = "87.0%"
  /\ cell (Examples.soil_moisture 0.9996) = "100.0%"
  /\ cell (Examples.soil_moisture 0.0015) = "0.1%"
  /\ cell (Examples.soil_moisture 0.8765) = "87.6%"
  /\ Spec.one_decimal_percent (cell (Examples.soil_moisture 0.0015))
  /\ Dom.cell_value
       (WeatherOracle.variableRow (fun _ => "") (Examples.soil_moisture 0.0015))
     = "0.234".
Proof.
  cbv zeta.
  split; [vm_compute; reflexivity|]. split; [vm_compute; reflexivity|].
  split; [vm_compute; reflexivity|]. split; [vm_compute; reflexivity|].
  split; [|vm_compute; reflexivity].
  apply (proj1 (proj2 (proj2 (variableRow_confidence_cell (fun _ => "")
                         (Examples.soil_moisture 0.0015))))
           0.0015%Q eq_refl).
  - intros H. vm_compute in H. now apply H.
  - vm_compute. discriminate.
Defined.

(** The caption of a confidence item is printed in the same way: a
    confidence of 0.0015 reads 0.1%. *)
Lemma confidenceItem_caption :
  Dom.caption
    (WeatherOracle.confidenceItem (fun _ => "")
       {| Api.ConfidenceEntry.variable := "Soil Moisture";
          Api.ConfidenceEntry.confidence := 0.0015 |})
  = "Confidence: 0.1%".
Proof. vm_compute. reflexivity. Qed.

(** ** Sorting *)

Section SortFacts.
Context {A : Type}.
Variable cmp : A -> A -> Q.

Lemma sort_insert_Permutation (x : A) (l : list A) :
  Permutation (JS.sort_insert cmp x l) (x :: l).
Proof.
  induction l as [|y l IH]; cbn [JS.sort_insert]; [reflexivity|].
  destruct (Qle_bool (cmp x y) 0); [reflexivity|].
  rewrite IH. apply perm_swap.
Qed.

Lemma Array_sort_Permutation (l : list A) : Permutation (JS.Array_sort cmp l) l.
Proof.
  induction l as [|x l IH]; cbn [JS.Array_sort]; [reflexivity|].
  rewrite sort_insert_Permutation. now constructor.
Qed.

(** The order the comparator stands for; the comparator must be consistent
    with it. *)
Variable R : relation A.
Hypothesis R_trans : Transitive R.
Hypothesis cmp_le : forall x y, (cmp x y <= 0)%Q -> R x y.
Hypothesis cmp_gt : forall x y, ~ (cmp x y <= 0)%Q -> R y x.

Lemma sort_insert_sorted (x : A) (l : list A) :
  StronglySorted R l -> StronglySorted R (JS.sort_insert cmp x l).
Proof.
  induction 1 as [|y l Hs IH Hy]; cbn [JS.sort_insert].
  - repeat constructor.
  - destruct (Qle_bool (cmp x y) 0) eqn:E.
    + apply Qle_bool_iff, cmp_le in E.
      constructor; [now constructor|]. constructor; [exact E|].
      eapply Forall_impl; [exact Hy|]. intros z Hz. now transitivity y.
    + assert (R y x) as Hyx.
      { apply cmp_gt. intros H. apply Qle_bool_iff in H. congruence. }
      constructor; [exact IH|].
      rewrite (sort_insert_Permutation x l). now constructor.
Qed.

Lemma Array_sort_sorted (l : list A) : StronglySorted R (JS.Array_sort cmp l).
Proof.
  induction l as [|x l IH]; cbn [JS.Array_sort]; [constructor|].
  now apply sort_insert_sorted.
Qed.

End SortFacts.

(** In a sorted list, what a prefix keeps comes before what it drops. *)
Lemma StronglySorted_take_drop {A} (R : relation A) (n : nat) (l : list A) :
  StronglySorted R l ->
  forall a b, In a (take n l) -> In b (drop n l) -> R a b.
Proof.
  intros Hs a b Ha Hb. rewrite <- (take_drop n l) in Hs.
  apply (StronglySorted_app_1_elem_of R _ _ a b Hs); now apply list_elem_of_In.
Qed.

Lemma by_confidence_descending_trans :
  Transitive Spec.by_confidence_descending.
Proof. intros a b c H1 H2. unfold Spec.by_confidence_descending in *. lra. Qed.

Lemma by_confidence_desc_le (a b : Api.ConfidenceEntry.t) :
  (WeatherOracle.by_confidence_desc a b <= 0)%Q ->
  Spec.by_confidence_descending a b.
Proof.
  unfold WeatherOracle.by_confidence_desc, Spec.by_confidence_descending. lra.
Qed.

Lemma by_confidence_desc_gt (a b : Api.ConfidenceEntry.t) :
  ~ (WeatherOracle.by_confidence_desc a b <= 0)%Q ->
  Spec.by_confidence_descending b a.
Proof.
  unfold WeatherOracle.by_confidence_desc, Spec.by_confidence_descending. lra.
Qed.

Lemma displayConfidenceIntervals_same
  (NumberToString : Q -> string) (c : option (list Api.ConfidenceEntry.t)) :
  EnvironmentalDashboard.displayConfidenceIntervals NumberToString c
  = WeatherOracle.displayConfidenceIntervals NumberToString c.
Proof. reflexivity. Qed.

(** C1: whatever confidence list arrives ([None] when the answer has none),
    the confidence section shows at most five items; they are, in order, the
    first five entries of the received list rearranged by confidence from
    the highest down, so every entry shown has a confidence at least that of
    every entry left out; the two dashboards agree. *)
Theorem displayConfidenceIntervals_top5
  (NumberToString : Q -> string)
  (confidence : option (list Api.ConfidenceEntry.t)) :
  exists sorted : list Api.ConfidenceEntry.t,
    Permutation sorted (default [] confidence)
    /\ StronglySorted Spec.by_confidence_descending sorted
    /\ Dom.items_of
         (WeatherOracle.displayConfidenceIntervals NumberToString confidence)
       = map (WeatherOracle.confidenceItem NumberToString) (take 5 sorted)
    /\ (length (Dom.items_of
          (WeatherOracle.displayConfidenceIntervals NumberToString confidence))
        <= 5)%nat
    /\ (forall shown hidden,
          In shown (take 5 sorted) -> In hidden (drop 5 sorted) ->
          (Api.ConfidenceEntry.confidence hidden
           <= Api.ConfidenceEntry.confidence shown)%Q)
    /\ EnvironmentalDashboard.displayConfidenceIntervals NumberToString confidence
       = WeatherOracle.displayConfidenceIntervals NumberToString confidence.
Proof.
  exists (JS.Array_sort WeatherOracle.by_confidence_desc (default [] confidence)).
  assert (StronglySorted Spec.by_confidence_descending
            (JS.Array_sort WeatherOracle.by_confidence_desc (default [] confidence)))
    as Hsorted.
  { apply Array_sort_sorted;
      [ apply by_confidence_descending_trans | apply by_confidence_desc_le
      | apply by_confidence_desc_gt ]. }
  assert (Dom.items_of
            (WeatherOracle.displayConfidenceIntervals NumberToString confidence)
          = map (WeatherOracle.confidenceItem NumberToString)
              (take 5 (JS.Array_sort WeatherOracle.by_confidence_desc
                         (default [] confidence)))) as Hitems.
  { destruct confidence as [[|e l]|]; reflexivity. }
  split; [apply Array_sort_Permutation|]. split; [exact Hsorted|].
  split; [exact Hitems|]. split; [|split].
  - rewrite Hitems, length_map, length_take. lia.
  - intros shown hidden Hs Hh.
    exact (StronglySorted_take_drop _ 5 _ Hsorted shown hidden Hs Hh).
  - reflexivity.
Qed.

(** ** Numbers *)

Lemma round_Q_comp (x y : Q) : (x == y)%Q -> JS.round_Q x = JS.round_Q y.
Proof. intros H. unfold JS.round_Q. now rewrite H. Qed.


(** Rounding twice is rounding once. *)
Lemma round_Q_inject_Z (z : Z) : JS.round_Q (inject_Z z) = z.
Proof.
  unfold JS.round_Q.
  apply Z.le_antisymm.
  - apply Z.lt_succ_r. rewrite Zlt_Qlt.
    eapply Qle_lt_trans; [apply Qfloor_le|].
    unfold Z.succ. rewrite inject_Z_plus. apply Qplus_lt_r. reflexivity.
  - rewrite <- (Qfloor_Z z) at 1. apply Qfloor_resp_le. 
    rewrite <- (Qplus_0_r (inject_Z z)) at 1. apply Qplus_le_r. discriminate.
Qed.

Lemma Math_round_idempotent (a : JS.number) :
  JS.Math_round (JS.Math_round a) = JS.Math_round a.
Proof.
  destruct a; cbn [JS.Math_round]; try reflexivity.
  now rewrite round_Q_inject_Z.
Qed.


(** A double that is falsy is 0. *)
Lemma truthy_num_fl (q : Q) :
  JS.truthy_num (JS.fl q) = false -> JS.fl q = JS.Num 0.
Proof.
  destruct (JS.fl q) as [| | |y] eqn:E; try discriminate.
  { now apply fl_not_NaN in E. }
  cbn [JS.truthy_num]. intros H. apply negb_false_iff, Qeq_bool_iff in H.
  f_equal. now apply (fl_zero_canonical q).
Qed.

(** [f || 0] is the field as read, with a missing value read as 0. *)
Lemma or_field_zero (f : JS.field) :
  JS.or_field f (JS.Num 0) = JS.fl (Spec.or_zero f).
Proof.
  destruct f as [| |q]; unfold JS.or_field;
    cbn [JS.truthy JS.ToNumber Spec.or_zero]; try reflexivity.
  destruct (JS.truthy_num (JS.fl q)) eqn:E; [reflexivity|].
  symmetry. now apply truthy_num_fl.
Qed.

Lemma Math_round_or_num (a : JS.number) :
  a <> JS.NaN ->
  JS.Math_round (JS.or_num (JS.Math_round a) (JS.Num 0)) = JS.Math_round a.
Proof.
  intros Ha. unfold JS.or_num.
  destruct (JS.truthy_num (JS.Math_round a)) eqn:E;
    [apply Math_round_idempotent|].
  destruct a as [| | |x]; cbn [JS.Math_round JS.truthy_num] in *;
    try discriminate E; try contradiction.
  apply negb_false_iff, Qeq_bool_iff in E.
  change 0%Q with (inject_Z 0) in E. rewrite inject_Z_injective in E.
  now rewrite E.
Qed.



Lemma sunny_formula_nonneg (r s t : Q) : (0 <= Spec.sunny_formula r s t)%Q.
Proof.
  unfold Spec.sunny_formula. cbv zeta.
  destruct (Qle_bool 0 (100 - (r + s + t))) eqn:E; [|lra].
  now apply Qle_bool_iff in E.
Qed.











(** ** The four probabilities of the map application *)

(** The values before rounding, from the fields as read. *)
Lemma unrounded_values (data : WeatherApp.weather) :
  let rain := JS.fl (Spec.or_zero (WeatherApp.precipprob data)) in
  let snow := JS.fl (Spec.or_zero (WeatherApp.snowProb data)) in
  let storm := JS.fl (Spec.or_zero (WeatherApp.stormProb data)) in
  WeatherApp.unrounded data
  = {| WeatherApp.sunny :=
         JS.Math_max (JS.Num 0)
           (JS.fsub (JS.Num 100) (JS.fadd (JS.fadd rain snow) storm));
       WeatherApp.rainy := rain;
       WeatherApp.snowy := snow;
       WeatherApp.storm := storm |}.
Proof.
  cbv zeta. unfold WeatherApp.unrounded. now rewrite !or_field_zero.
Qed.




(** ** The map application: states and the horizon check *)

Section Reachability.
Variable parseFloat : string -> JS.number.
Variable coordMatch : string -> option (string * string).

Lemma updateCoordinates_coords (la ln : JS.number) :
  WeatherApp.currentCoords (snd (WeatherApp.updateCoordinates la ln))
  = Some {| WeatherApp.lat := la; WeatherApp.lng := ln |}.
Proof. reflexivity. Qed.

Lemma geocodeLocation_coords (st : WeatherApp.state) q g :
  is_Some (WeatherApp.currentCoords st) ->
  is_Some (WeatherApp.currentCoords (snd (WeatherApp.geocodeLocation st q g))).
Proof. intros H. destruct g; cbn; eauto. Qed.

(** No handler ever clears the selected coordinates. *)
Lemma step_coords (st : WeatherApp.state) (e : WeatherApp.event) :
  is_Some (WeatherApp.currentCoords st) ->
  is_Some (WeatherApp.currentCoords (WeatherApp.step parseFloat coordMatch st e)).
Proof.
  intros H. destruct e as [la ln|la ln|la ln|a b|q g|q g]; cbn [WeatherApp.step].
  - cbn. eauto.
  - cbn. eauto.
  - cbn. eauto.
  - unfold WeatherApp.updateMapFromInputs.
    destruct (_ && _); cbn; eauto.
  - unfold WeatherApp.handleSearch.
    destruct (negb _); [exact H|].
    destruct (coordMatch q) as [[g1 g2]|]; [|now apply geocodeLocation_coords].
    destruct (WeatherApp.isValidCoordinate _ _);
      [cbn; eauto | now apply geocodeLocation_coords].
  - now apply geocodeLocation_coords.
Qed.

Lemma fold_step_coords (es : list WeatherApp.event) (st : WeatherApp.state) :
  is_Some (WeatherApp.currentCoords st) ->
  is_Some (WeatherApp.currentCoords
             (fold_left (WeatherApp.step parseFloat coordMatch) es st)).
Proof.
  revert st. induction es as [|e es IH]; intros st H; [exact H|].
  cbn [fold_left]. apply IH. now apply step_coords.
Qed.

(** Once constructed, the application always has coordinates selected. *)
Lemma reachable_coords (st : WeatherApp.state) :
  WeatherApp.reachable parseFloat coordMatch st ->
  is_Some (WeatherApp.currentCoords st).
Proof. intros [es ->]. apply fold_step_coords. cbn. eauto. Qed.

End Reachability.

(** The day count as an integer: the ceiling of the difference in days. *)
Lemma daysFromNow_valid (t today : Z) :
  WeatherApp.daysFromNow (Some t) today
  = JS.Num (inject_Z (Qceiling ((inject_Z t + - inject_Z today)
                                * / inject_Z 86400000))).
Proof. reflexivity. Qed.

Lemma daysFromNow_invalid (today : Z) :
  WeatherApp.daysFromNow None today = JS.NaN.
Proof. reflexivity. Qed.

Lemma lt_le_exclusive (a b : JS.number) :
  JS.le b a = true -> JS.lt a b = false.
Proof.
  destruct a, b; cbn; try congruence.
  intros H. apply Qle_bool_iff in H.
  destruct (Qlt_le_dec q q0); [|reflexivity]. exfalso. lra.
Qed.


(** Reading the model data has no effect on the page. *)
Lemma convert_no_effects (d : WeatherApp.Model.modelData) :
  fst (WeatherApp.convertModelDataToWeather d) = [].
Proof.
  unfold WeatherApp.convertModelDataToWeather, WeatherApp.read.
  destruct d as [[?|] [?|] [?|] [?|] [?|] [?|] [?|]]; reflexivity.
Qed.

Lemma convert_outcome (d : WeatherApp.Model.modelData) :
  exists o, WeatherApp.convertModelDataToWeather d = ([], o).
Proof.
  pose proof (convert_no_effects d) as H.
  destruct (WeatherApp.convertModelDataToWeather d) as [tr o].
  cbn in H. subst tr. now exists o.
Qed.

Lemma predictWeather_past (st : WeatherApp.state) c selectedDate today r :
  WeatherApp.currentCoords st = Some c ->
  JS.lt (WeatherApp.daysFromNow selectedDate today) (JS.Num 0) = true ->
  WeatherApp.predictWeather st selectedDate today r
  = [ WeatherApp.predictBtn "Predicting..." true;
      WeatherApp.showApiError
        (Spec.apiErrorText "Cannot predict weather for past dates");
      WeatherApp.predictBtn "Predict the Weather" false ].
Proof.
  intros Hc H. unfold WeatherApp.predictWeather. rewrite Hc. cbv zeta.
  rewrite H. reflexivity.
Qed.

Lemma predictWeather_far (st : WeatherApp.state) c selectedDate today r :
  WeatherApp.currentCoords st = Some c ->
  JS.gt (WeatherApp.daysFromNow selectedDate today) (JS.Num 7) = true ->
  WeatherApp.predictWeather st selectedDate today r
  = [ WeatherApp.predictBtn "Predicting..." true;
      WeatherApp.showApiError
        (Spec.apiErrorText "Cannot predict weather more than 7 days ahead");
      WeatherApp.predictBtn "Predict the Weather" false ].
Proof.
  intros Hc H. unfold WeatherApp.predictWeather. rewrite Hc. cbv zeta.
  assert (JS.lt (WeatherApp.daysFromNow selectedDate today) (JS.Num 0) = false)
    as ->.
  { unfold JS.gt in H. destruct (WeatherApp.daysFromNow selectedDate today);
      cbn in *; try congruence.
    destruct (Qlt_le_dec 7 q); [|discriminate].
    destruct (Qlt_le_dec q 0); [exfalso; lra | reflexivity]. }
  rewrite H. reflexivity.
Qed.

(** Past the two checks, the request is built and sent; [k] is what the
    response leads to. *)
Lemma predictWeather_in_range (st : WeatherApp.state) c selectedDate today r :
  WeatherApp.currentCoords st = Some c ->
  JS.le (JS.Num 0) (WeatherApp.daysFromNow selectedDate today) = true ->
  JS.le (WeatherApp.daysFromNow selectedDate today) (JS.Num 7) = true ->
  exists t rest,
    selectedDate = Some t
    /\ WeatherApp.predictWeather st selectedDate today r
       = WeatherApp.predictBtn "Predicting..." true
         :: WeatherApp.fetch "http://localhost:5000/predict"
              (WeatherApp.requestBody (JS.iso_string t) c)
         :: rest
    /\ forall status d e w,
         r = WeatherApp.Reply true status
               (inr {| WeatherApp.success := true; WeatherApp.data := Some d;
                       WeatherApp.error := e |}) ->
         WeatherApp.convertModelDataToWeather d = ([], inr w) ->
         rest = WeatherApp.updateWeatherDisplay_ (WeatherApp.updateWeatherDisplay w)
                :: match WeatherApp.updateWeatherTheme w with
                   | inr theme => WeatherApp.updateWeatherTheme_ theme
                   | inl thrown =>
                       WeatherApp.showApiError
                         (Spec.apiErrorText (JS.message thrown))
                   end
                :: [ WeatherApp.predictBtn "Predict the Weather" false ].
Proof.
  intros Hc H0 H7.
  destruct selectedDate as [t|]; [|discriminate H0].
  unfold WeatherApp.predictWeather. rewrite Hc. cbv zeta.
  rewrite (lt_le_exclusive _ _ H0).
  unfold JS.gt. rewrite (lt_le_exclusive _ _ H7).
  exists t.
  destruct r as [e | [|] status [e | [[|] [d|] e]] | [|] status].
  all: try (eexists; split; [reflexivity|]; split; [reflexivity|];
            intros ? ? ? ? Hr ?; discriminate Hr).
  unfold WeatherApp.fetchWeatherData. cbn [JS.toISOString WeatherApp.lift].
  cbn [WeatherApp.success WeatherApp.data].
  destruct (convert_outcome d) as [[x|w] E]; rewrite E.
  - eexists. split; [reflexivity|]. split; [reflexivity|].
    intros ? ? ? ? Hr Hw. injection Hr as _ <- _. rewrite E in Hw. discriminate.
  - destruct (WeatherApp.updateWeatherTheme w) as [thrown|theme] eqn:Et.
    + eexists. split; [reflexivity|]. split; [cbn; rewrite Et; reflexivity|].
      intros ? ? ? ? Hr Hw. injection Hr as _ <- _. rewrite E in Hw.
      injection Hw as <-. rewrite Et. reflexivity.
    + eexists. split; [reflexivity|]. split; [cbn; rewrite Et; reflexivity|].
      intros ? ? ? ? Hr Hw. injection Hr as _ <- _. rewrite E in Hw.
      injection Hw as <-. rewrite Et. reflexivity.
Qed.

(** C2: in any state the map application can reach, [predictWeather] shows
    an error and sends nothing when the computed day count is negative or
    above 7; when it lies between 0 and 7 inclusive neither check throws
    and the request is sent to the model server; an answer carrying
    complete data is then displayed, after which the theme is set, or,
    when the condition found is a member of [Object.prototype], the error
    thrown by [updateWeatherTheme] is shown. *)
Theorem predictWeather_horizon
  (parseFloat : string -> JS.number)
  (coordMatch : string -> option (string * string))
  (st : WeatherApp.state) (selectedDate : JS.Date) (today : Z)
  (r : WeatherApp.response) :
  WeatherApp.reachable parseFloat coordMatch st ->
  let daysFromNow := WeatherApp.daysFromNow selectedDate today in
  let trace := WeatherApp.predictWeather st selectedDate today r in
  (JS.lt daysFromNow (JS.Num 0) = true ->
     trace = [ WeatherApp.predictBtn "Predicting..." true;
               WeatherApp.showApiError
                 (Spec.apiErrorText "Cannot predict weather for past dates");
               WeatherApp.predictBtn "Predict the Weather" false ])
  /\ (JS.gt daysFromNow (JS.Num 7) = true ->
     trace = [ WeatherApp.predictBtn "Predicting..." true;
               WeatherApp.showApiError
                 (Spec.apiErrorText
                    "Cannot predict weather more than 7 days ahead");
               WeatherApp.predictBtn "Predict the Weather" false ])
  /\ (JS.le (JS.Num 0) daysFromNow = true ->
      JS.le daysFromNow (JS.Num 7) = true ->
      exists c t rest,
        WeatherApp.currentCoords st = Some c
        /\ selectedDate = Some t
        /\ trace
           = WeatherApp.predictBtn "Predicting..." true
             :: WeatherApp.fetch "http://localhost:5000/predict"
                  (WeatherApp.requestBody (JS.iso_string t) c)
             :: rest
        /\ forall status d e w,
             r = WeatherApp.Reply true status
                   (inr {| WeatherApp.success := true;
                           WeatherApp.data := Some d;
                           WeatherApp.error := e |}) ->
             WeatherApp.convertModelDataToWeather d = ([], inr w) ->
             rest = WeatherApp.updateWeatherDisplay_
                      (WeatherApp.updateWeatherDisplay w)
                    :: match WeatherApp.updateWeatherTheme w with
                       | inr theme => WeatherApp.updateWeatherTheme_ theme
                       | inl thrown =>
                           WeatherApp.showApiError
                             (Spec.apiErrorText (JS.message thrown))
                       end
                    :: [ WeatherApp.predictBtn "Predict the Weather" false ]).
Proof.
  intros Hreach. cbv zeta.
  destruct (reachable_coords _ _ _ Hreach) as [c Hc].
  split; [|split].
  - now apply predictWeather_past with (c := c).
  - now apply predictWeather_far with (c := c).
  - intros H0 H7.
    destruct (predictWeather_in_range st c selectedDate today r Hc H0 H7)
      as (t & rest & Ht & Htrace & Hrest).
    exists c, t, rest. auto.
Qed.

(** On a freshly constructed application, a date ten days ahead is turned
    down without a request. *)
Lemma predictWeather_horizon_witness :
  WeatherApp.predictWeather (snd WeatherApp.constructor)
    (Some Examples.far) Examples.now
    (WeatherApp.NetworkFailure (JS.TypeError "Failed to fetch"))
  = [ WeatherApp.predictBtn "Predicting..." true;
      WeatherApp.showApiError
        (Spec.apiErrorText "Cannot predict weather more than 7 days ahead");
      WeatherApp.predictBtn "Predict the Weather" false ].
Proof.
  apply (proj1 (proj2 (predictWeather_horizon
           (fun _ => JS.NaN) (fun _ => None) (snd WeatherApp.constructor)
           (Some Examples.far) Examples.now
           (WeatherApp.NetworkFailure (JS.TypeError "Failed to fetch"))
           (ex_intro _ [] eq_refl)))).
  reflexivity.
Defined.

(** ** Coordinates *)

Lemma le_Num (a b : Q) : JS.le (JS.Num a) (JS.Num b) = true <-> (a <= b)%Q.
Proof. cbn [JS.le]. apply Qle_bool_iff. Qed.

(** The predicate accepts exactly the finite pairs within the bounds. *)
Lemma isValidCoordinate_iff (lat lng : JS.number) :
  WeatherApp.isValidCoordinate lat lng = true <->
  exists x y : Q,
    lat = JS.Num x /\ lng = JS.Num y
    /\ (-90 <= x <= 90)%Q /\ (-180 <= y <= 180)%Q.
Proof.
  unfold WeatherApp.isValidCoordinate, JS.ge.
  rewrite !andb_true_iff. split.
  - intros [[[H1 H2] H3] H4].
    destruct lat as [| | |x]; try discriminate.
    destruct lng as [| | |y]; try discriminate.
    apply le_Num in H1, H2, H3, H4. exists x, y. auto.
  - intros (x & y & -> & -> & [H1 H2] & [H3 H4]).
    rewrite !le_Num. auto.
Qed.

(** C6: [isValidCoordinate] accepts a pair of numbers exactly when the
    latitude lies in [-90, 90] and the longitude in [-180, 180]; a pair it
    does not accept is dropped by the coordinate inputs (nothing changes),
    is not taken as coordinates by the search box (the text goes to the
    geocoder as a place name) and is refused with an error by the format
    conversion. *)
Theorem isValidCoordinate_bounds :
  (forall lat lng : JS.number,
     WeatherApp.isValidCoordinate lat lng = true <->
     exists x y : Q,
       lat = JS.Num x /\ lng = JS.Num y
       /\ (-90 <= x <= 90)%Q /\ (-180 <= y <= 180)%Q)
  /\ (forall parseFloat st latText lngText,
        WeatherApp.isValidCoordinate (parseFloat latText) (parseFloat lngText)
        = false ->
        WeatherApp.updateMapFromInputs parseFloat st latText lngText = ([], st))
  /\ (forall parseFloat coordMatch st query g g1 g2,
        JS.truthy_str query = true ->
        coordMatch query = Some (g1, g2) ->
        WeatherApp.isValidCoordinate (parseFloat g1) (parseFloat g2) = false ->
        WeatherApp.handleSearch parseFloat coordMatch st query g
        = WeatherApp.geocodeLocation st query g)
  /\ (forall parseFloat latText lngText,
        JS.truthy_str latText = true -> JS.truthy_str lngText = true ->
        WeatherApp.isValidCoordinate (parseFloat latText) (parseFloat lngText)
        = false ->
        WeatherApp.convertCoordinateFormat parseFloat latText lngText
        = [WeatherApp.showCoordinateError "Invalid coordinate values."]).
Proof.
  split; [exact isValidCoordinate_iff|]. split; [|split].
  - intros parseFloat st a b H. unfold WeatherApp.updateMapFromInputs.
    rewrite H, andb_false_r. reflexivity.
  - intros parseFloat coordMatch st q g g1 g2 Hq Hm H.
    unfold WeatherApp.handleSearch. now rewrite Hq, Hm, H.
  - intros parseFloat a b Ha Hb H. unfold WeatherApp.convertCoordinateFormat.
    now rewrite Ha, Hb, H.
Qed.

(** Latitude 95 typed in the coordinate inputs leaves the application
    where it was. *)
Lemma isValidCoordinate_bounds_witness :
  WeatherApp.updateMapFromInputs
    (fun s => if String.eqb s "95" then JS.Num 95 else JS.Num 0)
    (snd WeatherApp.constructor) "95" "0"
  = ([], snd WeatherApp.constructor).
Proof.
  apply (proj1 (proj2 isValidCoordinate_bounds)
           (fun s => if String.eqb s "95" then JS.Num 95 else JS.Num 0)).
  reflexivity.
Defined.

(** ** The map application: what is displayed *)



(** The factor of the gusts: the double read from 1.3. *)
Lemma fl_gust_factor :
  JS.fl 1.3 = JS.Num (5854679515581645 # 4503599627370496).
Proof. vm_compute. reflexivity. Qed.

(** The gusts shown are the wind speed times 1.3, rounded to a double and
    then to an integer, also when this product is 0 and the fallback is
    taken. *)
Lemma Math_round_gusts (q : Q) :
  JS.Math_round
    (JS.or_num (JS.fmul (JS.ToNumber (JS.Number q)) (JS.fl 1.3))
       (JS.fmul (JS.Math_round (JS.or_field (JS.Number q) (JS.Num 0)))
          (JS.fl 1.3)))
  = JS.Math_round (JS.fmul (JS.fl q) (JS.fl 1.3)).
Proof.
  rewrite or_field_zero. cbn [JS.ToNumber Spec.or_zero]. unfold JS.or_num.
  destruct (JS.truthy_num (JS.fmul (JS.fl q) (JS.fl 1.3))) eqn:E;
    [reflexivity|].
  rewrite fl_gust_factor in *.
  destruct (JS.fl q) as [| | |s] eqn:Eq; try discriminate E.
  { now apply fl_not_NaN in Eq. }
  cbn [JS.fmul] in *. apply truthy_num_fl in E. rewrite E.
  apply fl_zero_iff, Qabs_Qle_condition in E.
  assert (2 ^ (-1075) <= 1 # 4)%Q as Hsmall.
  { change (1 # 4)%Q with (2 ^ (-2))%Q. apply pow2_le. lia. }
  set (tiny := (2 ^ (-1075))%Q) in *.
  assert (JS.round_Q s = 0) as Hs.
  { unfold JS.round_Q.
    pose proof (Qfloor_le (s + (1 # 2))) as Hf.
    pose proof (Qlt_floor (s + (1 # 2))) as Hc.
    rewrite inject_Z_plus in Hc. change (inject_Z 1) with 1%Q in Hc.
    set (f := Qfloor _) in *.
    assert (-1 < f) as H1.
    { rewrite Zlt_Qlt. change (inject_Z (-1)) with (-1)%Q. lra. }
    assert (f < 1) as H2.
    { rewrite Zlt_Qlt. change (inject_Z 1) with 1%Q. lra. }
    lia. }
  cbn [JS.Math_round]. rewrite Hs. reflexivity.
Qed.

Lemma convert_complete
  (air feels hum storm rate rain snow speed pres : Q)
  (primary vis comfort : option string) :
  WeatherApp.convertModelDataToWeather
    (Spec.complete_data air feels hum storm rate rain snow speed pres
       primary vis comfort)
  = ([], inr
      {| WeatherApp.temp := JS.Math_round (JS.fl air);
         WeatherApp.feelslike := JS.Math_round (JS.fl feels);
         WeatherApp.humidity := JS.Math_round (JS.fl hum);
         WeatherApp.conditions := WeatherApp.getWeatherCondition primary;
         WeatherApp.precip := JS.Number rate;
         WeatherApp.precipprob := JS.Number rain;
         WeatherApp.windSpeed := JS.Number speed;
         WeatherApp.windGusts := JS.fmul (JS.fl speed) (JS.fl 1.3);
         WeatherApp.pressure := JS.Number pres;
         WeatherApp.visibility := vis;
         WeatherApp.stormProb := JS.Number storm;
         WeatherApp.snowProb := JS.Number snow;
         WeatherApp.comfortLevel := comfort |}).
Proof. reflexivity. Qed.









(** ** Request bodies *)

Lemma frac_digits_2 (r : Z) :
  JS.frac_digits 2 r
  = String (JS.digit (r / 10 mod 10)) (String (JS.digit (r mod 10)) "").
Proof. reflexivity. Qed.

Lemma frac_digits_4 (r : Z) :
  JS.frac_digits 4 r
  = String (JS.digit (r / 10 / 10 / 10 mod 10))
      (String (JS.digit (r / 10 / 10 mod 10))
         (String (JS.digit (r / 10 mod 10)) (String (JS.digit (r mod 10)) ""))).
Proof. reflexivity. Qed.

Lemma substring_0_S (n : nat) (c : ascii) (s : string) :
  String.substring 0 (S n) (String c s) = String c (String.substring 0 n s).
Proof. reflexivity. Qed.

Lemma substring_0_0 (s : string) : String.substring 0 0 s = "".
Proof. destruct s; reflexivity. Qed.

Lemma matches_digit (d : Z) (pattern s : string) :
  Spec.matches pattern s = true ->
  Spec.matches (String "d" pattern) (String (JS.digit (d mod 10)) s) = true.
Proof.
  intros H. cbn [Spec.matches]. rewrite H.
  rewrite is_digit_digit by (apply Z.mod_pos_bound; lia). reflexivity.
Qed.

(** Between the years 0000 and 9999 the first sixteen characters of the ISO
    rendering are the date and the time to the minute. *)
Lemma iso_minute_shape (t : Z) :
  0 <= JS.year_of t <= 9999 ->
  Spec.matches "dddd-dd-ddTdd:dd" (JS.str_slice0 16 (JS.iso_string t)) = true.
Proof.
  unfold JS.year_of, JS.iso_string.
  destruct (JS.civil_from_days (t / JS.msPerDay)) as [[y m] d].
  cbn [fst]. intros Hy. unfold JS.year_string.
  replace ((0 <=? y) && (y <=? 9999)) with true by (symmetry; apply andb_true_iff; lia).
  rewrite frac_digits_4, !frac_digits_2. unfold JS.str_slice0.
  rewrite !append_cons, !append_nil_l.
  repeat (rewrite ?append_cons, ?append_nil_l, substring_0_S).
  rewrite substring_0_0.
  repeat first [ apply matches_digit | reflexivity
               | (cbn [Spec.matches]; apply andb_true_iff; split; [reflexivity|]) ].
Qed.

(** Every request of the map application carries the date to the minute and
    the two coordinates side by side. *)
Lemma predictWeather_request
  (st : WeatherApp.state) selectedDate today r url body :
  In (WeatherApp.fetch url body)
     (WeatherApp.predictWeather st selectedDate today r) ->
  exists c t,
    WeatherApp.currentCoords st = Some c /\ selectedDate = Some t
    /\ JS.lt (WeatherApp.daysFromNow selectedDate today) (JS.Num 0) = false
    /\ JS.gt (WeatherApp.daysFromNow selectedDate today) (JS.Num 7) = false
    /\ url = "http://localhost:5000/predict"
    /\ body = WeatherApp.requestBody (JS.iso_string t) c.
Proof.
  unfold WeatherApp.predictWeather.
  destruct (WeatherApp.currentCoords st) as [c|];
    [|cbn; intros [H|[]]; discriminate].
  cbv zeta.
  destruct (JS.lt _ _) eqn:E0; [cbn; intros [H|[H|[H|[]]]]; discriminate|].
  destruct (JS.gt _ _) eqn:E7; [cbn; intros [H|[H|[H|[]]]]; discriminate|].
  destruct selectedDate as [t|];
    [|cbn; intros [H|[H|[H|[]]]]; discriminate].
  intros H. exists c, t. repeat (split; [reflexivity|]).
  revert H. unfold WeatherApp.fetchWeatherData.
  cbn [JS.toISOString WeatherApp.lift].
  destruct r as [e | [|] status [e | [[|] [d|] e]] | [|] status];
    try (cbn; intros [H|[H|[H|[H|[]]]]]; try discriminate H;
         now injection H as <- <-).
  cbn [WeatherApp.success WeatherApp.data].
  destruct (convert_outcome d) as [[x|w] E]; rewrite E;
    [|destruct (WeatherApp.updateWeatherTheme w) eqn:Et]; cbn; rewrite ?Et;
    cbn;
    intros H; repeat (destruct H as [H|H]; try discriminate H); try easy;
    now injection H as <- <-.
Qed.

(** Every request of the location dashboard nests the coordinates, with the
    place name, under [location]. *)
Lemma predictEnvironment_request
  (NumberToString : Q -> string) (st : WeatherOracle.state) date r url body :
  In (Dom.fetch url body)
     (fst (WeatherOracle.predictEnvironment NumberToString st date r)) ->
  exists loc,
    WeatherOracle.isLoading st = false /\ JS.truthy_str date = true
    /\ WeatherOracle.selectedLocation st = Some loc
    /\ url = "http://localhost:5000/api/predict"
    /\ body = WeatherOracle.requestData date loc.
Proof.
  unfold WeatherOracle.predictEnvironment.
  destruct (WeatherOracle.isLoading st); [intros []|].
  destruct (JS.truthy_str date); [|cbn; intros [H|[]]; discriminate].
  destruct (WeatherOracle.selectedLocation st) as [loc|];
    [|cbn; intros [H|[]]; discriminate].
  intros H. exists loc. repeat (split; [reflexivity|]). revert H.
  cbv zeta. destruct r as [|[|] status [data|]|status null]; cbn;
    intros H; repeat (destruct H as [H|H]; try discriminate H); try easy;
    now injection H as <- <-.
Qed.

(** C4, as stated, fails: the body the map application posts has no
    [location] member; its coordinates are top-level members. *)
Lemma predictWeather_body_not_nested :
  exists body : JS.json,
    In (WeatherApp.fetch "http://localhost:5000/predict" body)
       (WeatherApp.predictWeather (snd WeatherApp.constructor)
          (Some Examples.picked) Examples.now Examples.mild_day_reply)
    /\ body
       = JS.JObject [ ("date", JS.JString "2023-11-15T00:00");
                      ("latitude", JS.JNumber 40.7128);
                      ("longitude", JS.JNumber (-74.0060)) ]
    /\ ~ Spec.nested_location body.
Proof.
  eexists. split; [|split].
  - cbn. right. left. reflexivity.
  - reflexivity.
  - intros (date & loc & la & ln & _ & H & _). discriminate H.
Qed.

(** C4, as amended: the location dashboard posts
    [{ date, location: { name, latitude, longitude } }] with the date
    input's text as the date, so the coordinates are nested under
    [location] next to the place name; the map application posts
    [{ date, latitude, longitude }] with the coordinates at the top level
    and no [location] member, its date being the first sixteen characters
    of the ISO rendering of the selected date, which for the years 0000 to
    9999 has the form YYYY-MM-DDTHH:MM. *)
Theorem request_body_shapes :
  (forall NumberToString st date r url body,
     In (Dom.fetch url body)
        (fst (WeatherOracle.predictEnvironment NumberToString st date r)) ->
     exists loc,
       WeatherOracle.selectedLocation st = Some loc
       /\ url = "http://localhost:5000/api/predict"
       /\ body
          = JS.JObject
              [ ("date", JS.JString date);
                ("location",
                  JS.JObject
                    [ ("name", JS.JString (Api.Location.name loc));
                      ("latitude",
                        JS.json_of_number (Api.Location.latitude loc));
                      ("longitude",
                        JS.json_of_number (Api.Location.longitude loc)) ]) ]
       /\ (forall la ln,
             Api.Location.latitude loc = JS.Num la ->
             Api.Location.longitude loc = JS.Num ln ->
             Spec.nested_location body))
  /\ (forall st selectedDate today r url body,
        In (WeatherApp.fetch url body)
           (WeatherApp.predictWeather st selectedDate today r) ->
        exists c t,
          WeatherApp.currentCoords st = Some c /\ selectedDate = Some t
          /\ url = "http://localhost:5000/predict"
          /\ body
             = JS.JObject
                 [ ("date", JS.JString (JS.str_slice0 16 (JS.iso_string t)));
                   ("latitude", JS.json_of_number (WeatherApp.lat c));
                   ("longitude", JS.json_of_number (WeatherApp.lng c)) ]
          /\ JS.member "location" body = None
          /\ (0 <= JS.year_of t <= 9999 ->
              Spec.matches "dddd-dd-ddTdd:dd"
                (JS.str_slice0 16 (JS.iso_string t)) = true)).
Proof.
  split.
  - intros NumberToString st date r url body H.
    apply predictEnvironment_request in H as (loc & _ & _ & Hl & -> & ->).
    exists loc. repeat (split; [reflexivity || assumption|]).
    intros la ln Hla Hln. unfold WeatherOracle.requestData.
    rewrite Hla, Hln. eexists date, _, la, ln.
    repeat split; reflexivity.
  - intros st selectedDate today r url body H.
    apply predictWeather_request in H as (c & t & Hc & Ht & _ & _ & -> & ->).
    exists c, t. repeat (split; [reflexivity || assumption|]).
    apply iso_minute_shape.
Qed.

(** The request of the sample prediction: its date reads 2023-11-15T00:00. *)
Lemma request_body_shapes_witness :
  Spec.matches "dddd-dd-ddTdd:dd"
    (JS.str_slice0 16 (JS.iso_string Examples.picked)) = true.
Proof.
  destruct (proj2 request_body_shapes (snd WeatherApp.constructor)
              (Some Examples.picked) Examples.now Examples.mild_day_reply
              "http://localhost:5000/predict"
              (WeatherApp.requestBody (JS.iso_string Examples.picked)
                 {| WeatherApp.lat := JS.Num 40.7128;
                    WeatherApp.lng := JS.Num (-74.0060) |}))
    as (c & t & _ & Ht & _ & _ & _ & Hshape).
  - cbn. right. left. reflexivity.
  - injection Ht as <-. apply Hshape. vm_compute. split; discriminate.
Defined.

(** ** Validation before the request *)

Lemma predictWeather_no_location (st : WeatherApp.state) selectedDate today r :
  WeatherApp.currentCoords st = None ->
  WeatherApp.predictWeather st selectedDate today r
  = [ WeatherApp.showApiError
        "Please select a location first by clicking on the map or entering coordinates." ].
Proof. intros H. unfold WeatherApp.predictWeather. now rewrite H. Qed.

(** An empty or unparseable date passes both range checks and fails when
    the request body is built, before anything is sent. *)
Lemma predictWeather_invalid_date (st : WeatherApp.state) c today r :
  WeatherApp.currentCoords st = Some c ->
  WeatherApp.predictWeather st None today r
  = [ WeatherApp.predictBtn "Predicting..." true;
      WeatherApp.showApiError (Spec.apiErrorText "Invalid time value");
      WeatherApp.predictBtn "Predict the Weather" false ].
Proof. intros H. unfold WeatherApp.predictWeather. now rewrite H. Qed.

Lemma predictEnvironment_no_date
  (NumberToString : Q -> string) (st : WeatherOracle.state) r :
  WeatherOracle.isLoading st = false ->
  fst (WeatherOracle.predictEnvironment NumberToString st "" r)
  = [Dom.showError "Please select a date"].
Proof. intros H. unfold WeatherOracle.predictEnvironment. now rewrite H. Qed.

Lemma predictEnvironment_no_location
  (NumberToString : Q -> string) (st : WeatherOracle.state) date r :
  WeatherOracle.isLoading st = false -> JS.truthy_str date = true ->
  WeatherOracle.selectedLocation st = None ->
  fst (WeatherOracle.predictEnvironment NumberToString st date r)
  = [Dom.showError "Please select a location using one of the methods above"].
Proof.
  intros H Hd Hl. unfold WeatherOracle.predictEnvironment.
  now rewrite H, Hd, Hl.
Qed.

(** The location dashboard sends whatever non-empty date it is given. *)
Lemma predictEnvironment_sends
  (NumberToString : Q -> string) (st : WeatherOracle.state) date r loc :
  WeatherOracle.isLoading st = false -> JS.truthy_str date = true ->
  WeatherOracle.selectedLocation st = Some loc ->
  In (Dom.fetch "http://localhost:5000/api/predict"
        (WeatherOracle.requestData date loc))
     (fst (WeatherOracle.predictEnvironment NumberToString st date r)).
Proof.
  intros H Hd Hl. unfold WeatherOracle.predictEnvironment.
  rewrite H, Hd, Hl. cbv zeta.
  destruct r as [|[|] status [data|]|status null]; cbn; tauto.
Qed.

(** C5, as stated, fails: with a location selected the location dashboard
    posts a date outside the training year; the first and only error it
    shows is the one for the back end's refusal, after the request. *)
Lemma predictEnvironment_sends_out_of_range_date :
  Spec.in_training_year "1999-12-31" = false
  /\ fst (WeatherOracle.predictEnvironment (fun _ => "")
            Examples.oracle_ready "1999-12-31" (Api.Status false 400 None))
     = [ Dom.showLoading; Dom.hideError; Dom.hideResults;
         Dom.predictBtn "Processing..." true;
         Dom.fetch "http://localhost:5000/api/predict"
           (JS.JObject
              [ ("date", JS.JString "1999-12-31");
                ("location",
                  JS.JObject
                    [ ("name", JS.JString "New York City");
                      ("latitude", JS.JNumber 40.7128);
                      ("longitude", JS.JNumber (-74.0060)) ]) ]);
         Dom.hideLoading;
         Dom.showError
           "Failed to get predictions. Please make sure the API server is running.";
         Dom.predictBtn "Generate Prediction" false ].
Proof. split; reflexivity. Qed.

(** C5, as amended: the map application shows an error and sends nothing
    when no location is selected, when the date is missing or unparseable,
    and when the day count is negative or above 7; the location dashboard,
    when no prediction is in flight, shows an error and sends nothing when
    the date is empty or no location is selected, and the date-only
    dashboard when the date is empty; a request is only ever sent after
    these checks have passed; the dashboards do not check the range of the
    date: the location dashboard, with a location selected, and the
    date-only dashboard send every non-empty date. *)
Theorem predict_validation :
  (forall st selectedDate today r,
     WeatherApp.currentCoords st = None \/ selectedDate = None
     \/ JS.lt (WeatherApp.daysFromNow selectedDate today) (JS.Num 0) = true
     \/ JS.gt (WeatherApp.daysFromNow selectedDate today) (JS.Num 7) = true ->
     (exists msg,
        In (WeatherApp.showApiError msg)
           (WeatherApp.predictWeather st selectedDate today r))
     /\ forallb (fun e => negb (WeatherApp.is_fetch e))
          (WeatherApp.predictWeather st selectedDate today r) = true)
  /\ (forall NumberToString st date r,
        WeatherOracle.isLoading st = false ->
        date = "" \/ WeatherOracle.selectedLocation st = None ->
        exists msg,
          fst (WeatherOracle.predictEnvironment NumberToString st date r)
          = [Dom.showError msg])
  /\ (forall NumberToString st r,
        fst (EnvironmentalDashboard.predictEnvironment NumberToString st "" r)
        = [Dom.showError "Please select a date"])
  /\ (forall st selectedDate today r url body,
        In (WeatherApp.fetch url body)
           (WeatherApp.predictWeather st selectedDate today r) ->
        is_Some (WeatherApp.currentCoords st) /\ is_Some selectedDate
        /\ JS.lt (WeatherApp.daysFromNow selectedDate today) (JS.Num 0) = false
        /\ JS.gt (WeatherApp.daysFromNow selectedDate today) (JS.Num 7) = false)
  /\ (forall NumberToString st date r url body,
        In (Dom.fetch url body)
           (fst (WeatherOracle.predictEnvironment NumberToString st date r)) ->
        WeatherOracle.isLoading st = false /\ date <> ""
        /\ is_Some (WeatherOracle.selectedLocation st))
  /\ (forall NumberToString st date r loc,
        WeatherOracle.isLoading st = false -> date <> "" ->
        WeatherOracle.selectedLocation st = Some loc ->
        In (Dom.fetch "http://localhost:5000/api/predict"
              (WeatherOracle.requestData date loc))
           (fst (WeatherOracle.predictEnvironment NumberToString st date r)))
  /\ (forall NumberToString st date r,
        date <> "" ->
        In (Dom.fetch "http://localhost:5000/api/predict"
              (EnvironmentalDashboard.requestData date))
           (fst (EnvironmentalDashboard.predictEnvironment
                   NumberToString st date r))).
Proof.
  split; [|split; [|split; [|split; [|split; [|split]]]]].
  - intros st selectedDate today r H.
    destruct (WeatherApp.currentCoords st) as [c|] eqn:Hc.
    + destruct H as [H | [-> | [H | H]]]; [discriminate H | | |].
      * rewrite (predictWeather_invalid_date st c today r Hc).
        split; [eexists; cbn; eauto | reflexivity].
      * rewrite (predictWeather_past st c selectedDate today r Hc H).
        split; [eexists; cbn; eauto | reflexivity].
      * rewrite (predictWeather_far st c selectedDate today r Hc H).
        split; [eexists; cbn; eauto | reflexivity].
    + rewrite (predictWeather_no_location st selectedDate today r Hc).
      split; [eexists; cbn; eauto | reflexivity].
  - intros NumberToString st date r Hl [-> | Hloc].
    + eexists. now apply predictEnvironment_no_date.
    + destruct (JS.truthy_str date) eqn:Hd.
      * eexists. now apply predictEnvironment_no_location.
      * destruct date; [|discriminate Hd].
        eexists. now apply predictEnvironment_no_date.
  - reflexivity.
  - intros st selectedDate today r url body H.
    apply predictWeather_request in H as (c & t & -> & -> & H0 & H7 & _).
    eauto.
  - intros NumberToString st date r url body H.
    apply predictEnvironment_request in H as (loc & Hl & Hd & -> & _).
    split; [exact Hl|]. split; [|eauto]. intros ->. discriminate Hd.
  - intros NumberToString st date r loc Hl Hd Hloc.
    apply predictEnvironment_sends; [exact Hl | | exact Hloc].
    destruct date; [contradiction | reflexivity].
  - intros NumberToString st date r Hd.
    unfold EnvironmentalDashboard.predictEnvironment.
    destruct date as [|c date]; [contradiction|]. cbn [JS.truthy_str negb].
    cbv zeta.
    destruct r as [|[|] status [data|]|status null]; cbn [fst app In];
      auto 6.
Qed.

(** With the date input left empty the map application asks for nothing:
    it shows the error of the failed date conversion. *)
Lemma predict_validation_witness :
  (exists msg,
     In (WeatherApp.showApiError msg)
        (WeatherApp.predictWeather (snd WeatherApp.constructor) None
           Examples.now Examples.mild_day_reply))
  /\ forallb (fun e => negb (WeatherApp.is_fetch e))
       (WeatherApp.predictWeather (snd WeatherApp.constructor) None
          Examples.now Examples.mild_day_reply) = true.
Proof.
  apply (proj1 predict_validation (snd WeatherApp.constructor) None
           Examples.now Examples.mild_day_reply).
  right. left. reflexivity.
Defined.

(** * Further properties *)

(** ** Searching and filtering the variables table *)

Lemma getVariableCategory_in_categories (name : string) :
  In (WeatherOracle.getVariableCategory name) Spec.categories.
Proof.
  unfold WeatherOracle.getVariableCategory, Spec.categories. cbv zeta.
  repeat match goal with
  | |- context [if ?b then _ else _] => destruct b
  end; cbn [In]; tauto.
Qed.

Lemma rendered_lookup (rows : list Dom.variable_row) (i : nat) :
  Dom.rendered rows !! i
  = (fun r => {| Dom.row := r; Dom.display := "" |}) <$> rows !! i.
Proof. unfold Dom.rendered. apply list_lookup_fmap. Qed.

Lemma filterVariables_lookup (term : string) (rows : list Dom.table_row) i :
  WeatherOracle.filterVariables term rows !! i
  = (fun r =>
       {| Dom.row := Dom.row r;
          Dom.display :=
            if JS.includes (JS.toLowerCase (Dom.cell_name (Dom.row r)))
                 (JS.toLowerCase term)
            then "grid" else "none" |}) <$> rows !! i.
Proof. unfold WeatherOracle.filterVariables. apply list_lookup_fmap. Qed.

Lemma filterByCategory_lookup (category : string) (rows : list Dom.table_row) i :
  WeatherOracle.filterByCategory category rows !! i
  = (fun r =>
       {| Dom.row := Dom.row r;
          Dom.display :=
            if String.eqb category "all"
               || match Dom.data_category (Dom.row r) with
                  | Some rowCategory => String.eqb rowCategory category
                  | None => false
                  end
            then "grid" else "none" |}) <$> rows !! i.
Proof. unfold WeatherOracle.filterByCategory. apply list_lookup_fmap. Qed.

Lemma includes_empty (s : string) : JS.includes s "" = true.
Proof. destruct s; reflexivity. Qed.

(** X1: for ASCII names and an ASCII search term, names and units holding
    no markup: after a search, the row of a variable is shown ([grid])
    exactly when the search term occurs in the variable's name, case
    ignored, and is hidden ([none]) otherwise; the header row is searched
    like any other row, by its text 'Variable'; an empty term shows every
    row; the rows keep their content and order; the two dashboards agree. *)
Theorem filterVariables_search
  (NumberToString : Q -> string) (searchTerm : string)
  (variables : list Api.VariableEntry.t)
  (Hterm : JS.is_ascii searchTerm = true)
  (Hnames : Forall
              (fun v => JS.is_ascii (Api.VariableEntry.name v)
                        && Dom.verbatim_entry v = true)
              variables) :
  let table :=
    Dom.rendered (WeatherOracle.displayVariablesTable NumberToString variables) in
  let filtered := WeatherOracle.filterVariables searchTerm table in
  let occurs name := Spec.mentions (JS.toLowerCase searchTerm) name in
  (forall i v, variables !! i = Some v ->
     exists r, filtered !! S i = Some r
       /\ Dom.row r = WeatherOracle.variableRow NumberToString v
       /\ (Dom.display r = "grid" <-> occurs (Api.VariableEntry.name v))
       /\ (Dom.display r = "none" <-> ~ occurs (Api.VariableEntry.name v)))
  /\ (exists h, filtered !! 0%nat = Some h
        /\ Dom.row h = WeatherOracle.headerRow
        /\ (Dom.display h = "grid" <-> occurs "Variable"))
  /\ (searchTerm = "" -> Forall (fun r => Dom.display r = "grid") filtered)
  /\ map Dom.row filtered = map Dom.row table
  /\ EnvironmentalDashboard.filterVariables searchTerm table = filtered.
Proof.
  cbv zeta. split; [|split; [|split; [|split]]].
  - intros i v Hv.
    rewrite filterVariables_lookup, rendered_lookup,
      displayVariablesTable_rows, Hv.
    cbn [fmap option_fmap option_map Dom.row]. eexists. split; [reflexivity|].
    cbn [Dom.row Dom.display]. split; [reflexivity|].
    unfold WeatherOracle.variableRow at 1 2. cbn [Dom.cell_name].
    destruct (JS.includes _ _) eqn:E.
    + apply includes_lower_mentions in E. split; split; auto; try discriminate.
      intros H. contradiction.
    + apply not_mentions in E. split; split; auto; try discriminate.
      intros H. contradiction.
  - eexists. split; [reflexivity|]. split; [reflexivity|].
    cbn [Dom.display Dom.row WeatherOracle.headerRow Dom.cell_name].
    destruct (JS.includes _ _) eqn:E.
    + apply includes_lower_mentions in E. split; auto.
    + apply not_mentions in E. split; [discriminate | intros H; contradiction].
  - intros ->. unfold WeatherOracle.filterVariables. cbv zeta.
    apply Forall_fmap, Forall_true. intros r. cbn.
    now rewrite includes_empty.
  - unfold WeatherOracle.filterVariables. cbv zeta.
    rewrite !map_map. reflexivity.
  - reflexivity.
Qed.

(** A search for 'TEMP' shows the air temperature. *)
Lemma filterVariables_search_witness :
  exists r,
    WeatherOracle.filterVariables "TEMP"
      (Dom.rendered
         (WeatherOracle.displayVariablesTable (fun _ => "")
            [Examples.air_temperature])) !! 1%nat = Some r
    /\ Dom.display r = "grid".
Proof.
  assert (Forall
            (fun v => JS.is_ascii (Api.VariableEntry.name v)
                      && Dom.verbatim_entry v = true)
            [Examples.air_temperature]) as Hnames
    by (repeat constructor).
  destruct (proj1 (filterVariables_search (fun _ => "") "TEMP"
                     [Examples.air_temperature] eq_refl Hnames)
              0%nat Examples.air_temperature eq_refl)
    as (r & Hr & _ & Hshown & _).
  exists r. split; [exact Hr|]. apply Hshown.
  exists "air_", "temp", "erature". split; reflexivity.
Defined.

Lemma eqb_all_false_in_categories (c : string) :
  In c Spec.categories -> String.eqb c "all" = false.
Proof.
  unfold Spec.categories. cbn [In].
  intros [<- | [<- | [<- | [<- | [<- | []]]]]]; reflexivity.
Qed.

(** X2: for names and units holding no markup: after a category filter,
    the row of a variable is shown exactly when the category is 'all' or is
    the category of the variable's name;
    the header row is shown for 'all' only; so each variable is shown under
    exactly one of the five category filters; the rows keep their content
    and order; the two dashboards agree. *)
Theorem filterByCategory_rows
  (NumberToString : Q -> string) (category : string)
  (variables : list Api.VariableEntry.t)
  (Hmarkup : Forall (fun v => Dom.verbatim_entry v = true) variables) :
  let table :=
    Dom.rendered (WeatherOracle.displayVariablesTable NumberToString variables) in
  let filtered := WeatherOracle.filterByCategory category table in
  (forall i v, variables !! i = Some v ->
     let own := WeatherOracle.getVariableCategory (Api.VariableEntry.name v) in
     exists r, filtered !! S i = Some r
       /\ Dom.row r = WeatherOracle.variableRow NumberToString v
       /\ (Dom.display r = "grid" <-> category = "all" \/ category = own)
       /\ (Dom.display r = "none" <-> ~ (category = "all" \/ category = own))
       /\ In own Spec.categories
       /\ (In category Spec.categories ->
           (Dom.display r = "grid" <-> category = own)))
  /\ (exists h, filtered !! 0%nat = Some h
        /\ Dom.row h = WeatherOracle.headerRow
        /\ (Dom.display h = "grid" <-> category = "all"))
  /\ map Dom.row filtered = map Dom.row table
  /\ EnvironmentalDashboard.filterByCategory category table = filtered.
Proof.
  cbv zeta. split; [|split; [|split]].
  - intros i v Hv.
    rewrite filterByCategory_lookup, rendered_lookup,
      displayVariablesTable_rows, Hv.
    cbn [fmap option_fmap option_map Dom.row]. eexists. split; [reflexivity|].
    cbn [Dom.row Dom.display]. split; [reflexivity|].
    unfold WeatherOracle.variableRow at 1 2 3. cbn [Dom.data_category].
    assert ((String.eqb category "all"
             || String.eqb (WeatherOracle.getVariableCategory
                              (Api.VariableEntry.name v)) category) = true
            <-> category = "all"
                \/ category
                   = WeatherOracle.getVariableCategory (Api.VariableEntry.name v))
      as Hiff.
    { rewrite orb_true_iff, !String.eqb_eq. intuition congruence. }
    remember (String.eqb category "all"
              || String.eqb (WeatherOracle.getVariableCategory
                               (Api.VariableEntry.name v)) category) as b eqn:Eb.
    split; [|split; [|split]].
    + destruct b; split; intros H; try discriminate H; auto.
      * now apply Hiff.
      * apply Hiff in H. discriminate H.
    + destruct b; split; intros H; try discriminate H; auto.
      * exfalso. apply H. now apply Hiff.
      * intros H'. apply Hiff in H'. discriminate H'.
    + apply getVariableCategory_in_categories.
    + intros Hc. apply eqb_all_false_in_categories in Hc as Hall.
      rewrite Hall in Eb. cbn [orb] in Eb. subst b.
      destruct (String.eqb _ _) eqn:E.
      * apply String.eqb_eq in E. split; auto.
      * apply String.eqb_neq in E. split; [discriminate | congruence].
  - eexists. split; [reflexivity|]. split; [reflexivity|].
    cbn [Dom.display Dom.row WeatherOracle.headerRow Dom.data_category].
    rewrite orb_false_r.
    destruct (String.eqb category "all") eqn:E.
    + apply String.eqb_eq in E. split; auto.
    + apply String.eqb_neq in E. split; [discriminate | contradiction].
  - unfold WeatherOracle.filterByCategory. rewrite !map_map. reflexivity.
  - reflexivity.
Qed.

(** A variable named after the air temperature is shown under the
    temperature filter. *)
Lemma filterByCategory_rows_witness :
  exists r,
    WeatherOracle.filterByCategory "temperature"
      (Dom.rendered
         (WeatherOracle.displayVariablesTable (fun _ => "")
            [Examples.air_temperature])) !! 1%nat = Some r
    /\ Dom.display r = "grid".
Proof.
  assert (Forall (fun v => Dom.verbatim_entry v = true)
            [Examples.air_temperature]) as Hmarkup
    by (repeat constructor).
  destruct (proj1 (filterByCategory_rows (fun _ => "") "temperature"
                     [Examples.air_temperature] Hmarkup)
              0%nat Examples.air_temperature eq_refl)
    as (r & Hr & _ & Hshown & _).
  exists r. split; [exact Hr|]. apply Hshown. right. reflexivity.
Defined.

(** X3: a filter overwrites what the other one left: filtering by category
    after a search gives what the category filter alone gives, and
    searching after a category filter what the search alone gives; the two
    filters never narrow each other down. *)
Theorem filters_overwrite
  (searchTerm category : string) (rows : list Dom.table_row) :
  WeatherOracle.filterByCategory category
    (WeatherOracle.filterVariables searchTerm rows)
  = WeatherOracle.filterByCategory category rows
  /\ WeatherOracle.filterVariables searchTerm
       (WeatherOracle.filterByCategory category rows)
     = WeatherOracle.filterVariables searchTerm rows
  /\ EnvironmentalDashboard.filterByCategory category
       (EnvironmentalDashboard.filterVariables searchTerm rows)
     = EnvironmentalDashboard.filterByCategory category rows
  /\ EnvironmentalDashboard.filterVariables searchTerm
       (EnvironmentalDashboard.filterByCategory category rows)
     = EnvironmentalDashboard.filterVariables searchTerm rows.
Proof.
  assert (WeatherOracle.filterByCategory category
            (WeatherOracle.filterVariables searchTerm rows)
          = WeatherOracle.filterByCategory category rows) as H1.
  { unfold WeatherOracle.filterByCategory, WeatherOracle.filterVariables.
    cbv zeta. rewrite map_map. reflexivity. }
  assert (WeatherOracle.filterVariables searchTerm
            (WeatherOracle.filterByCategory category rows)
          = WeatherOracle.filterVariables searchTerm rows) as H2.
  { unfold WeatherOracle.filterByCategory, WeatherOracle.filterVariables.
    cbv zeta. rewrite map_map. reflexivity. }
  repeat split; assumption.
Qed.

(** ** Themes *)

Lemma applyTheme_light (theme : string) (t : WeatherOracle.theme_state) :
  WeatherOracle.light_theme (WeatherOracle.applyTheme theme t) = true
  <-> theme = "light".
Proof.
  unfold WeatherOracle.applyTheme.
  destruct (String.eqb theme "light") eqn:E; cbn.
  - apply String.eqb_eq in E. tauto.
  - apply String.eqb_neq in E. split; [discriminate | contradiction].
Qed.

(** X4: a click on the theme toggle flips the theme, sets the icon that
    goes with it and stores the theme shown; loading the page again with
    that storage brings the same theme and icon back, whatever the page
    looked like before; a page loaded with an empty storage, or with any
    stored text other than 'light', is dark. *)
Theorem theme_toggle_persists (t : WeatherOracle.theme_state) :
  let clicked := WeatherOracle.themeToggle_click t in
  WeatherOracle.light_theme clicked = negb (WeatherOracle.light_theme t)
  /\ WeatherOracle.stored clicked
     = Some (if WeatherOracle.light_theme clicked then "light" else "dark")
  /\ WeatherOracle.icon clicked
     = (if WeatherOracle.light_theme clicked then "fas fa-sun" else "fas fa-moon")
  /\ (forall page : WeatherOracle.theme_state,
        WeatherOracle.stored page = WeatherOracle.stored clicked ->
        WeatherOracle.light_theme (WeatherOracle.setupThemeToggle page)
        = WeatherOracle.light_theme clicked
        /\ WeatherOracle.icon (WeatherOracle.setupThemeToggle page)
           = WeatherOracle.icon clicked)
  /\ (forall page : WeatherOracle.theme_state,
        WeatherOracle.light_theme (WeatherOracle.setupThemeToggle page) = true
        <-> WeatherOracle.stored page = Some "light").
Proof.
  cbv zeta. split; [|split; [|split; [|split]]].
  - destruct t as [[|] i s]; reflexivity.
  - destruct t as [[|] i s]; reflexivity.
  - destruct t as [[|] i s]; reflexivity.
  - intros page Hs. unfold WeatherOracle.setupThemeToggle. cbv zeta. rewrite Hs.
    destruct t as [[|] i s]; split; reflexivity.
  - intros page. unfold WeatherOracle.setupThemeToggle. cbv zeta.
    rewrite applyTheme_light.
    destruct (WeatherOracle.stored page) as [s|]; cbn [JS.or_str].
    + destruct s as [|c s]; cbn [JS.truthy_str].
      * split; intros H; discriminate H.
      * split; congruence.
    + split; intros H; discriminate H.
Qed.

(** After a click on a dark page, a reload of a page that starts dark
    comes up light. *)
Lemma theme_toggle_persists_witness :
  WeatherOracle.light_theme
    (WeatherOracle.setupThemeToggle
       {| WeatherOracle.light_theme := false;
          WeatherOracle.icon := "fas fa-moon";
          WeatherOracle.stored := Some "light" |})
  = true.
Proof.
  apply (proj1 (proj2 (proj2 (proj2 (theme_toggle_persists
            {| WeatherOracle.light_theme := false;
               WeatherOracle.icon := "fas fa-moon";
               WeatherOracle.stored := None |}))))
           {| WeatherOracle.light_theme := false;
              WeatherOracle.icon := "fas fa-moon";
              WeatherOracle.stored := Some "light" |}
           eq_refl).
Defined.

Lemma colorScheme_click_setup (prefersDark : bool) :
  WeatherApp.colorSchemeToggle_click (WeatherApp.setupColorScheme prefersDark)
  = WeatherApp.setupColorScheme (negb prefersDark).
Proof. destruct prefersDark; reflexivity. Qed.

Lemma colorScheme_iter (prefersDark : bool) (n : nat) :
  Nat.iter n WeatherApp.colorSchemeToggle_click
    (WeatherApp.setupColorScheme prefersDark)
  = WeatherApp.setupColorScheme (if Nat.even n then prefersDark
                                 else negb prefersDark).
Proof.
  induction n as [|n IH]; [reflexivity|].
  rewrite Nat.iter_succ, IH, colorScheme_click_setup, Nat.even_succ.
  rewrite <- Nat.negb_even.
  destruct (Nat.even n), prefersDark; reflexivity.
Qed.

(** X5: however often the colour scheme toggle of the map application is
    clicked, the scheme is 'dark' or 'light', the toggle's [aria-pressed]
    is 'true' exactly when the scheme is light, an even number of clicks
    gives the scheme the page started with and an odd number the other
    one. *)
Theorem colorScheme_invariant (prefersDark : bool) (n : nat) :
  let c :=
    Nat.iter n WeatherApp.colorSchemeToggle_click
      (WeatherApp.setupColorScheme prefersDark) in
  (WeatherApp.data_color_scheme c = "dark"
   \/ WeatherApp.data_color_scheme c = "light")
  /\ (WeatherApp.aria_pressed c = "true"
      <-> WeatherApp.data_color_scheme c = "light")
  /\ (WeatherApp.aria_pressed c = "false"
      <-> WeatherApp.data_color_scheme c = "dark")
  /\ (WeatherApp.data_color_scheme c = "dark"
      <-> (if Nat.even n then prefersDark else negb prefersDark) = true).
Proof.
  cbv zeta. rewrite colorScheme_iter.
  destruct (if Nat.even n then prefersDark else negb prefersDark); cbn;
    repeat split; auto; intros H; discriminate H.
Qed.

(** ** Choosing a location in the dashboard *)

Lemma in_bounds_Q (x y : Q) :
  (Qle_bool (-90) x && Qle_bool x 90 && Qle_bool (-180) y && Qle_bool y 180)
  = true ->
  Spec.in_bounds (JS.Num x) (JS.Num y).
Proof.
  rewrite !andb_true_iff, !Qle_bool_iff. intros [[[H1 H2] H3] H4].
  exists x, y. auto.
Qed.

Lemma sample_lookup_Some (k : string) (t : list (string * (Q * Q))) xy :
  WeatherOracle.sample_lookup k t = Some xy -> In (k, xy) t.
Proof.
  induction t as [|[k' v] t IH]; cbn [WeatherOracle.sample_lookup];
    [discriminate|].
  destruct (String.eqb k' k) eqn:E.
  - apply String.eqb_eq in E. intros H. injection H as ->. left. congruence.
  - intros H. right. auto.
Qed.

Lemma sample_lookup_None (k : string) (t : list (string * (Q * Q))) :
  WeatherOracle.sample_lookup k t = None <-> ~ In k (map fst t).
Proof.
  induction t as [|[k' v] t IH]; cbn [WeatherOracle.sample_lookup map fst In].
  - tauto.
  - destruct (String.eqb k' k) eqn:E.
    + apply String.eqb_eq in E. split; [discriminate | intros H; tauto].
    + apply String.eqb_neq in E. rewrite IH. tauto.
Qed.

Lemma sampleCoordinates_in_bounds (k : string) (xy : Q * Q) :
  In (k, xy) WeatherOracle.sampleCoordinates ->
  Spec.in_bounds (JS.Num (fst xy)) (JS.Num (snd xy)).
Proof.
  unfold WeatherOracle.sampleCoordinates. cbn [In]. intros H.
  repeat (destruct H as [H|H];
          [injection H as _ <-; apply in_bounds_Q; reflexivity|]).
  contradiction.
Qed.

(** X6: choosing a city whose name no object literal inherits selects a
    location with that name and with coordinates inside the bounds of a
    latitude and a longitude: those listed for it in the sample table, and
    New York's (40.7128, -74.0060) for a city the table does not list.  The
    loading flag and the data are untouched, and an empty choice changes
    nothing at all. *)
Theorem onCityChange_selects
  (NumberToString : Q -> string) (mapReady : bool)
  (st : WeatherOracle.state) (cityName : string)
  (Hown : ~ In cityName JS.Object_prototype_names) :
  exists effects after,
    WeatherOracle.onCityChange NumberToString mapReady st cityName
    = Some (effects, after)
    /\ (cityName = "" -> effects = [] /\ after = st)
    /\ (cityName <> "" ->
        exists loc,
          WeatherOracle.selectedLocation after = Some loc
          /\ Api.Location.name loc = cityName
          /\ Spec.in_bounds (Api.Location.latitude loc)
               (Api.Location.longitude loc)
          /\ (forall xy,
                WeatherOracle.sample_lookup cityName
                  WeatherOracle.sampleCoordinates = Some xy ->
                In (cityName, xy) WeatherOracle.sampleCoordinates
                /\ Api.Location.latitude loc = JS.Num (fst xy)
                /\ Api.Location.longitude loc = JS.Num (snd xy))
          /\ (~ In cityName (map fst WeatherOracle.sampleCoordinates) ->
              Api.Location.latitude loc = JS.Num 40.7128
              /\ Api.Location.longitude loc = JS.Num (-74.0060))
          /\ WeatherOracle.isLoading after = WeatherOracle.isLoading st
          /\ WeatherOracle.currentData after = WeatherOracle.currentData st).
Proof.
  unfold WeatherOracle.onCityChange.
  destruct cityName as [|c s].
  - cbn [JS.truthy_str negb]. eexists _, _. split; [reflexivity|].
    split; [auto | congruence].
  - cbn [JS.truthy_str negb].
    destruct (existsb (String.eqb (String c s))
                JS.Object_prototype_names) eqn:E.
    + exfalso. apply Hown. apply existsb_exists in E as (x & Hx & Heq).
      apply String.eqb_eq in Heq. congruence.
    + eexists _, _. split; [reflexivity|]. split; [discriminate|].
      intros _. eexists. split; [reflexivity|].
      cbn [WeatherOracle.select WeatherOracle.selectedLocation
           WeatherOracle.isLoading WeatherOracle.currentData
           Api.Location.name Api.Location.latitude Api.Location.longitude].
      split; [reflexivity|].
      destruct (WeatherOracle.sample_lookup (String c s)
                  WeatherOracle.sampleCoordinates) as [xy|] eqn:L;
        cbn [default].
      * pose proof (sample_lookup_Some _ _ _ L) as Hin.
        split; [exact (sampleCoordinates_in_bounds _ _ Hin)|].
        split; [intros xy' [= <-]; auto|].
        split; [|auto].
        intros Hn. exfalso. apply Hn.
        apply (in_map fst) in Hin. exact Hin.
      * split; [apply in_bounds_Q; reflexivity|].
        split; [discriminate|]. auto.
Qed.

(** Chicago is selected with the coordinates of the table. *)
Lemma onCityChange_selects_witness :
  exists effects after,
    WeatherOracle.onCityChange (fun _ => "") true Examples.oracle_ready "Chicago"
    = Some (effects, after)
    /\ WeatherOracle.selectedLocation after
       = Some {| Api.Location.name := "Chicago";
                 Api.Location.latitude := JS.Num 41.8781;
                 Api.Location.longitude := JS.Num (-87.6298) |}.
Proof.
  assert (Hown : ~ In "Chicago" JS.Object_prototype_names).
  { cbn. intros H. repeat (destruct H as [H|H]; [discriminate H|]). exact H. }
  destruct (onCityChange_selects (fun _ => "") true Examples.oracle_ready
              "Chicago" Hown) as (effects & after & Heq & _ & _).
  exists effects, after. split; [exact Heq|].
  vm_compute in Heq. injection Heq as _ <-. reflexivity.
Defined.

(** X7: coordinates typed into the dashboard are taken as they parse: when
    both texts parse to numbers [x] and [y], whatever their size, the
    location selected carries them under the name made of their four-decimal
    prints, and the next prediction posts exactly these numbers; no bound of
    a latitude or longitude is checked on the way.  When one of the texts
    does not parse, nothing is selected and nothing happens. *)
Theorem updateLocationFromCoordinates_unchecked
  (NumberToString : Q -> string) (parseFloat : string -> JS.number)
  (mapReady : bool) (st : WeatherOracle.state) (latText lngText : string) :
  let result :=
    WeatherOracle.updateLocationFromCoordinates NumberToString parseFloat
      mapReady st latText lngText in
  (parseFloat latText = JS.NaN \/ parseFloat lngText = JS.NaN ->
   result = ([], st))
  /\ (forall x y : Q,
        parseFloat latText = JS.Num x -> parseFloat lngText = JS.Num y ->
        let name :=
          JS.toFixed NumberToString (JS.Num x) 4 +:+ ", "
          +:+ JS.toFixed NumberToString (JS.Num y) 4 in
        WeatherOracle.selectedLocation (snd result)
        = Some {| Api.Location.name := name;
                  Api.Location.latitude := JS.Num x;
                  Api.Location.longitude := JS.Num y |}
        /\ forall date r,
             WeatherOracle.isLoading st = false ->
             JS.truthy_str date = true ->
             In (Dom.fetch "http://localhost:5000/api/predict"
                   (JS.JObject
                      [ ("date", JS.JString date);
                        ("location",
                          JS.JObject
                            [ ("name", JS.JString name);
                              ("latitude", JS.JNumber x);
                              ("longitude", JS.JNumber y) ]) ]))
                (fst (WeatherOracle.predictEnvironment NumberToString
                        (snd result) date r))).
Proof.
  cbv zeta. unfold WeatherOracle.updateLocationFromCoordinates. split.
  - intros [H|H]; rewrite H; cbn [JS.isNaN negb andb]; [reflexivity|].
    rewrite andb_false_r. reflexivity.
  - intros x y Hx Hy. rewrite Hx, Hy. cbn [JS.isNaN negb andb snd].
    split; [reflexivity|].
    intros date r Hl Hd.
    apply (predictEnvironment_sends NumberToString _ date r
             {| Api.Location.name :=
                  JS.toFixed NumberToString (JS.Num x) 4 +:+ ", "
                  +:+ JS.toFixed NumberToString (JS.Num y) 4;
                Api.Location.latitude := JS.Num x;
                Api.Location.longitude := JS.Num y |});
      [exact Hl | exact Hd | reflexivity].
Qed.

(** ** The confidence section: how many items, and in which order *)

Section SortStable.
Context {A : Type}.
Variable cmp : A -> A -> Q.

Lemma sort_insert_length (x : A) (l : list A) :
  length (JS.sort_insert cmp x l) = S (length l).
Proof.
  induction l as [|y l IH]; cbn [JS.sort_insert]; [reflexivity|].
  destruct (Qle_bool (cmp x y) 0); cbn [length]; congruence.
Qed.

Lemma Array_sort_length (l : list A) :
  length (JS.Array_sort cmp l) = length l.
Proof.
  induction l as [|x l IH]; cbn [JS.Array_sort]; [reflexivity|].
  rewrite sort_insert_length. cbn [length]. congruence.
Qed.

(** Insertion moves [x] only past elements it must come after: what a
    predicate picks keeps its order when [x] never has to come after an
    element picked with it. *)
Lemma sort_insert_filter (p : A -> bool) (x : A) (l : list A) :
  (forall y, p x = true -> p y = true -> (cmp x y <= 0)%Q) ->
  List.filter p (JS.sort_insert cmp x l) = List.filter p (x :: l).
Proof.
  intros Hp. induction l as [|y l IH]; cbn [JS.sort_insert]; [reflexivity|].
  destruct (Qle_bool (cmp x y) 0) eqn:E; [reflexivity|].
  cbn [List.filter] in *. rewrite IH.
  destruct (p x) eqn:Px, (p y) eqn:Py; try reflexivity.
  exfalso. specialize (Hp y eq_refl Py). apply Qle_bool_iff in Hp. congruence.
Qed.

Lemma Array_sort_filter (p : A -> bool) (l : list A) :
  (forall x y, p x = true -> p y = true -> (cmp x y <= 0)%Q) ->
  List.filter p (JS.Array_sort cmp l) = List.filter p l.
Proof.
  intros Hp. induction l as [|x l IH]; cbn [JS.Array_sort]; [reflexivity|].
  rewrite sort_insert_filter by (intros y; apply Hp).
  cbn [List.filter]. now rewrite IH.
Qed.

Lemma Array_sort_fixed (l : list A) :
  StronglySorted (fun x y => (cmp x y <= 0)%Q) l -> JS.Array_sort cmp l = l.
Proof.
  induction 1 as [|x l Hs IH Hx]; cbn [JS.Array_sort]; [reflexivity|].
  rewrite IH. destruct l as [|y l]; cbn [JS.sort_insert]; [reflexivity|].
  apply Forall_cons in Hx as [Hxy _]. apply Qle_bool_iff in Hxy.
  now rewrite Hxy.
Qed.

End SortStable.

Lemma StronglySorted_weaken {A} (R S : relation A) (l : list A) :
  (forall x y, R x y -> S x y) -> StronglySorted R l -> StronglySorted S l.
Proof.
  intros HRS. induction 1 as [|x l Hs IH Hx]; constructor; [exact IH|].
  eapply Forall_impl; [exact Hx|]. intros y. apply HRS.
Qed.

(** X8: the confidence section holds the notice exactly when the answer has
    no confidence list or an empty one; otherwise it holds items, as many
    as the list has entries up to five, never none. *)
Theorem displayConfidenceIntervals_count
  (NumberToString : Q -> string)
  (confidence : option (list Api.ConfidenceEntry.t)) :
  let section :=
    WeatherOracle.displayConfidenceIntervals NumberToString confidence in
  ((exists html, section = Dom.Notice html)
   <-> default [] confidence = [])
  /\ (default [] confidence <> [] ->
      exists items,
        section = Dom.Items items
        /\ length items = Nat.min 5 (length (default [] confidence))
        /\ (1 <= length items)%nat).
Proof.
  cbv zeta. destruct confidence as [[|e l]|]; cbn [default].
  - split; [split; [reflexivity | intros _; eexists; reflexivity]|].
    intros H. contradiction.
  - split; [split; [intros [html H]; discriminate H | discriminate]|].
    intros _. eexists. split; [reflexivity|].
    unfold JS.slice0. rewrite length_map, length_take, Array_sort_length.
    unfold id. cbn [length]. split; lia.
  - split; [split; [reflexivity | intros _; eexists; reflexivity]|].
    intros H. contradiction.
Qed.

(** X9: entries of equal confidence are shown in the order they were
    received: for every confidence [q], the entries of confidence [q] follow
    one another in the ranking as they do in the received list; and a list
    that arrives already ranked, highest confidence first, is shown as it
    is, cut after five items. *)
Theorem displayConfidenceIntervals_stable
  (NumberToString : Q -> string) (l : list Api.ConfidenceEntry.t) :
  let ranked := JS.Array_sort WeatherOracle.by_confidence_desc l in
  (forall q : Q,
     List.filter (fun e => Qeq_bool (Api.ConfidenceEntry.confidence e) q) ranked
     = List.filter (fun e => Qeq_bool (Api.ConfidenceEntry.confidence e) q) l)
  /\ (StronglySorted Spec.by_confidence_descending l ->
      ranked = l
      /\ Dom.items_of
           (WeatherOracle.displayConfidenceIntervals NumberToString (Some l))
         = map (WeatherOracle.confidenceItem NumberToString) (take 5 l)).
Proof.
  cbv zeta. split.
  - intros q. apply Array_sort_filter. intros x y Hx Hy.
    apply Qeq_bool_iff in Hx. apply Qeq_bool_iff in Hy.
    unfold WeatherOracle.by_confidence_desc. rewrite Hx, Hy. lra.
  - intros Hs.
    assert (JS.Array_sort WeatherOracle.by_confidence_desc l = l) as Hfix.
    { apply Array_sort_fixed. eapply StronglySorted_weaken; [|exact Hs].
      intros x y. unfold Spec.by_confidence_descending,
        WeatherOracle.by_confidence_desc. lra. }
    split; [exact Hfix|].
    destruct l as [|e l]; [reflexivity|].
    cbn [WeatherOracle.displayConfidenceIntervals length Nat.eqb Dom.items_of].
    cbv zeta. now rewrite Hfix.
Qed.

(** X23: what the dashboard selects does not depend on the map: for
    numbers, with or without a map, each of the four location handlers
    leaves the same state, and without a map its effects are those it has
    with a map less the two on the map and its marker.  A click on the map
    selects the very location that typing the same two numbers selects,
    and the browser's position the same coordinates under the name
    'Current Location'; none of the four touches the loading flag or the
    data. *)
Theorem location_handlers_agree
  (NumberToString : Q -> string) (parseFloat : string -> JS.number)
  (st : WeatherOracle.state) :
  let on_map (e : WeatherOracle.location_effect) :=
    match e with
    | WeatherOracle.map_setView _ _ | WeatherOracle.marker_setLatLng _ _ => true
    | _ => false
    end in
  let same (a b : list WeatherOracle.location_effect * WeatherOracle.state) :=
    a.2 = b.2 /\ a.1 = List.filter (fun e => negb (on_map e)) b.1 in
  (forall x y : Q,
     same (WeatherOracle.onMapClick NumberToString false st (JS.Num x) (JS.Num y))
          (WeatherOracle.onMapClick NumberToString true st (JS.Num x) (JS.Num y))
     /\ same (WeatherOracle.onPosition NumberToString false st
                (JS.Num x) (JS.Num y))
             (WeatherOracle.onPosition NumberToString true st
                (JS.Num x) (JS.Num y)))
  /\ (forall latText lngText (x y : Q),
        parseFloat latText = JS.Num x -> parseFloat lngText = JS.Num y ->
        same (WeatherOracle.updateLocationFromCoordinates NumberToString
                parseFloat false st latText lngText)
             (WeatherOracle.updateLocationFromCoordinates NumberToString
                parseFloat true st latText lngText)
        /\ forall mapReady,
             (WeatherOracle.updateLocationFromCoordinates NumberToString
                parseFloat mapReady st latText lngText).2
             = (WeatherOracle.onMapClick NumberToString mapReady st
                  (JS.Num x) (JS.Num y)).2)
  /\ (forall cityName,
        match WeatherOracle.onCityChange NumberToString false st cityName,
              WeatherOracle.onCityChange NumberToString true st cityName with
        | Some a, Some b => same a b
        | None, None => True
        | _, _ => False
        end)
  /\ (forall mapReady (x y : Q),
        let clicked :=
          (WeatherOracle.onMapClick NumberToString mapReady st
             (JS.Num x) (JS.Num y)).2 in
        let located :=
          (WeatherOracle.onPosition NumberToString mapReady st
             (JS.Num x) (JS.Num y)).2 in
        WeatherOracle.selectedLocation located
        = Some {| Api.Location.name := "Current Location";
                  Api.Location.latitude := JS.Num x;
                  Api.Location.longitude := JS.Num y |}
        /\ (Api.Location.latitude <$> WeatherOracle.selectedLocation clicked)
           = Some (JS.Num x)
        /\ (Api.Location.longitude <$> WeatherOracle.selectedLocation clicked)
           = Some (JS.Num y)
        /\ WeatherOracle.isLoading clicked = WeatherOracle.isLoading st
        /\ WeatherOracle.currentData clicked = WeatherOracle.currentData st
        /\ WeatherOracle.isLoading located = WeatherOracle.isLoading st
        /\ WeatherOracle.currentData located = WeatherOracle.currentData st)
  /\ (forall mapReady cityName run,
        WeatherOracle.onCityChange NumberToString mapReady st cityName
        = Some run ->
        WeatherOracle.isLoading run.2 = WeatherOracle.isLoading st
        /\ WeatherOracle.currentData run.2 = WeatherOracle.currentData st)
  /\ (forall mapReady latText lngText,
        let typed :=
          (WeatherOracle.updateLocationFromCoordinates NumberToString
             parseFloat mapReady st latText lngText).2 in
        WeatherOracle.isLoading typed = WeatherOracle.isLoading st
        /\ WeatherOracle.currentData typed = WeatherOracle.currentData st).
Proof.
  cbv zeta. split; [|split; [|split; [|split; [|split]]]].
  - intros x y. repeat split; reflexivity.
  - intros latText lngText x y Hx Hy.
    unfold WeatherOracle.updateLocationFromCoordinates. cbv zeta.
    rewrite Hx, Hy. cbn [JS.isNaN negb andb]. repeat split; reflexivity.
  - intros cityName. unfold WeatherOracle.onCityChange.
    destruct (negb (JS.truthy_str cityName)); [split; reflexivity|].
    destruct (existsb (String.eqb cityName) JS.Object_prototype_names);
      [exact I|]. split; reflexivity.
  - intros mapReady x y. repeat split; reflexivity.
  - intros mapReady cityName run. unfold WeatherOracle.onCityChange.
    destruct (negb (JS.truthy_str cityName)); [intros [= <-]; auto|].
    destruct (existsb (String.eqb cityName) JS.Object_prototype_names);
      [discriminate|]. intros [= <-]. split; reflexivity.
  - intros mapReady latText lngText.
    unfold WeatherOracle.updateLocationFromCoordinates. cbv zeta.
    destruct (_ && _); split; reflexivity.
Qed.

(** ** The map application: answers that lack a group *)

Lemma read_Some {A} (g : A) (name : string) :
  WeatherApp.read (Some g) name = ([], inr g).
Proof. reflexivity. Qed.

(** X10: the conversion of a model answer succeeds exactly when the seven
    groups it reads are present, whatever their fields hold; when a group is
    missing it throws a [TypeError], and a prediction whose answer passed
    the success check then shows that error and displays nothing: no
    partial weather is ever shown. *)
Theorem convertModelDataToWeather_groups (d : WeatherApp.Model.modelData) :
  let complete :=
    is_Some (WeatherApp.Model.temperature d)
    /\ is_Some (WeatherApp.Model.humidity d)
    /\ is_Some (WeatherApp.Model.weather_conditions d)
    /\ is_Some (WeatherApp.Model.precipitation d)
    /\ is_Some (WeatherApp.Model.wind d)
    /\ is_Some (WeatherApp.Model.pressure d)
    /\ is_Some (WeatherApp.Model.comfort_index d) in
  (complete <->
   exists w, WeatherApp.convertModelDataToWeather d = ([], inr w))
  /\ (~ complete <->
      exists msg,
        WeatherApp.convertModelDataToWeather d = ([], inl (JS.TypeError msg)))
  /\ (~ complete ->
      forall st c t today status e,
        WeatherApp.currentCoords st = Some c ->
        JS.le (JS.Num 0) (WeatherApp.daysFromNow (Some t) today) = true ->
        JS.le (WeatherApp.daysFromNow (Some t) today) (JS.Num 7) = true ->
        exists msg,
          WeatherApp.predictWeather st (Some t) today
            (WeatherApp.Reply true status
               (inr {| WeatherApp.success := true;
                       WeatherApp.data := Some d;
                       WeatherApp.error := e |}))
          = [ WeatherApp.predictBtn "Predicting..." true;
              WeatherApp.fetch "http://localhost:5000/predict"
                (WeatherApp.requestBody (JS.iso_string t) c);
              WeatherApp.showApiError (Spec.apiErrorText msg);
              WeatherApp.predictBtn "Predict the Weather" false ]).
Proof.
  cbv zeta.
  assert ((is_Some (WeatherApp.Model.temperature d)
           /\ is_Some (WeatherApp.Model.humidity d)
           /\ is_Some (WeatherApp.Model.weather_conditions d)
           /\ is_Some (WeatherApp.Model.precipitation d)
           /\ is_Some (WeatherApp.Model.wind d)
           /\ is_Some (WeatherApp.Model.pressure d)
           /\ is_Some (WeatherApp.Model.comfort_index d))
          /\ (exists w, WeatherApp.convertModelDataToWeather d = ([], inr w))
          \/ ~ (is_Some (WeatherApp.Model.temperature d)
                /\ is_Some (WeatherApp.Model.humidity d)
                /\ is_Some (WeatherApp.Model.weather_conditions d)
                /\ is_Some (WeatherApp.Model.precipitation d)
                /\ is_Some (WeatherApp.Model.wind d)
                /\ is_Some (WeatherApp.Model.pressure d)
                /\ is_Some (WeatherApp.Model.comfort_index d))
             /\ (exists msg,
                   WeatherApp.convertModelDataToWeather d
                   = ([], inl (JS.TypeError msg)))) as Hcases.
  { destruct d as [t h wc p w pr ci].
    unfold WeatherApp.convertModelDataToWeather.
    cbn [WeatherApp.Model.temperature WeatherApp.Model.humidity
         WeatherApp.Model.weather_conditions WeatherApp.Model.precipitation
         WeatherApp.Model.wind WeatherApp.Model.pressure
         WeatherApp.Model.comfort_index].
    destruct t as [t|];
      [|right; split;
        [intros (H & _); destruct H; discriminate | eexists; reflexivity]].
    destruct h as [h|];
      [|right; split;
        [intros (_ & H & _); destruct H; discriminate | eexists; reflexivity]].
    destruct wc as [wc|];
      [|right; split;
        [intros (_ & _ & H & _); destruct H; discriminate
        | eexists; reflexivity]].
    destruct p as [p|];
      [|right; split;
        [intros (_ & _ & _ & H & _); destruct H; discriminate
        | eexists; reflexivity]].
    destruct w as [w|];
      [|right; split;
        [intros (_ & _ & _ & _ & H & _); destruct H; discriminate
        | eexists; reflexivity]].
    destruct pr as [pr|];
      [|right; split;
        [intros (_ & _ & _ & _ & _ & H & _); destruct H; discriminate
        | eexists; reflexivity]].
    destruct ci as [ci|];
      [|right; split;
        [intros (_ & _ & _ & _ & _ & _ & H); destruct H; discriminate
        | eexists; reflexivity]].
    left. split; [repeat split; eauto | eexists; reflexivity]. }
  split; [|split].
  - destruct Hcases as [[Hc Hw]|[Hn [msg Hm]]]; [tauto|].
    split; [tauto|]. intros [w Hw]. congruence.
  - destruct Hcases as [[Hc [w Hw]]|[Hn Hm]]; [|tauto].
    split; [tauto|]. intros [msg Hm]. congruence.
  - intros Hn st c t today status e Hc H0 H7.
    destruct Hcases as [[Hc' _]|[_ [msg Hm]]]; [tauto|].
    exists msg. unfold WeatherApp.predictWeather. rewrite Hc. cbv zeta.
    rewrite (lt_le_exclusive _ _ H0).
    unfold JS.gt. rewrite (lt_le_exclusive _ _ H7).
    unfold WeatherApp.fetchWeatherData.
    cbn [JS.toISOString WeatherApp.success WeatherApp.data]. rewrite Hm.
    reflexivity.
Qed.

(** An answer without its wind group, for a date in range. *)
Lemma convertModelDataToWeather_groups_witness :
  exists msg,
    WeatherApp.convertModelDataToWeather
      {| WeatherApp.Model.temperature := WeatherApp.Model.temperature Examples.mild_day;
         WeatherApp.Model.humidity := WeatherApp.Model.humidity Examples.mild_day;
         WeatherApp.Model.weather_conditions :=
           WeatherApp.Model.weather_conditions Examples.mild_day;
         WeatherApp.Model.precipitation :=
           WeatherApp.Model.precipitation Examples.mild_day;
         WeatherApp.Model.wind := None;
         WeatherApp.Model.pressure := WeatherApp.Model.pressure Examples.mild_day;
         WeatherApp.Model.comfort_index :=
           WeatherApp.Model.comfort_index Examples.mild_day |}
    = ([], inl (JS.TypeError msg)).
Proof.
  apply (proj1 (proj1 (proj2 (convertModelDataToWeather_groups _)))).
  intros (_ & _ & _ & _ & H & _). destruct H as [x H]. discriminate H.
Defined.

(** ** The map application: the shape of a run *)

(** What [updateWeatherTheme] does depends on the condition alone: a text
    gives a theme, a member of [Object.prototype] makes it throw. *)
Lemma updateWeatherTheme_cases (w : WeatherApp.weather) :
  match WeatherApp.conditions w with
  | JS.Text _ => exists theme, WeatherApp.updateWeatherTheme w = inr theme
  | JS.Inherited _ =>
      WeatherApp.updateWeatherTheme w
      = inl (JS.TypeError "data.conditions?.toLowerCase is not a function")
  end.
Proof.
  unfold WeatherApp.updateWeatherTheme.
  destruct (WeatherApp.conditions w); [eexists|]; reflexivity.
Qed.

(** The condition shown is a text exactly when the condition found is. *)
Lemma el_currentCondition_cases (w : WeatherApp.weather) :
  match WeatherApp.conditions w with
  | JS.Text _ =>
      exists s,
        WeatherApp.el_currentCondition (WeatherApp.updateWeatherDisplay w)
        = JS.Text s
  | JS.Inherited name =>
      WeatherApp.el_currentCondition (WeatherApp.updateWeatherDisplay w)
      = JS.Inherited name
  end.
Proof.
  unfold WeatherApp.updateWeatherDisplay. cbv zeta.
  cbn [WeatherApp.el_currentCondition].
  destruct (WeatherApp.conditions w); [eexists|]; reflexivity.
Qed.

(** A run that got past the location check is one of four: an error before
    any request; a request and an error; a request, the display and its
    theme; a request, the display and the error thrown by
    [updateWeatherTheme].  The button is taken and given back around it. *)
Lemma predictWeather_shape (st : WeatherApp.state) c selectedDate today r :
  WeatherApp.currentCoords st = Some c ->
  exists mid,
    WeatherApp.predictWeather st selectedDate today r
    = WeatherApp.predictBtn "Predicting..." true
      :: mid ++ [WeatherApp.predictBtn "Predict the Weather" false]
    /\ ((exists m, mid = [WeatherApp.showApiError (Spec.apiErrorText m)])
        \/ (exists url body m,
              mid = [ WeatherApp.fetch url body;
                      WeatherApp.showApiError (Spec.apiErrorText m) ])
        \/ (exists url body w theme,
              WeatherApp.updateWeatherTheme w = inr theme
              /\ mid = [ WeatherApp.fetch url body;
                         WeatherApp.updateWeatherDisplay_
                           (WeatherApp.updateWeatherDisplay w);
                         WeatherApp.updateWeatherTheme_ theme ])
        \/ (exists url body w thrown,
              WeatherApp.updateWeatherTheme w = inl thrown
              /\ mid = [ WeatherApp.fetch url body;
                         WeatherApp.updateWeatherDisplay_
                           (WeatherApp.updateWeatherDisplay w);
                         WeatherApp.showApiError
                           (Spec.apiErrorText (JS.message thrown)) ])).
Proof.
  intros Hc. unfold WeatherApp.predictWeather. rewrite Hc. cbv zeta.
  destruct (JS.lt _ _);
    [eexists [_]; split; [reflexivity | left; eexists; reflexivity]|].
  destruct (JS.gt _ _);
    [eexists [_]; split; [reflexivity | left; eexists; reflexivity]|].
  destruct selectedDate as [t|];
    [|eexists [_]; split; [reflexivity | left; eexists; reflexivity]].
  unfold WeatherApp.fetchWeatherData. cbn [JS.toISOString WeatherApp.lift].
  destruct r as [e | [|] status [e | [[|] [d|] e]] | [|] status];
    try (eexists [_; _]; split;
         [reflexivity | right; left; eexists _, _, _; reflexivity]).
  cbn [WeatherApp.success WeatherApp.data].
  destruct (convert_outcome d) as [[x|w] E]; rewrite E.
  - eexists [_; _]. split;
      [reflexivity | right; left; eexists _, _, _; reflexivity].
  - destruct (WeatherApp.updateWeatherTheme w) as [thrown|theme] eqn:Et.
    + eexists [_; _; _]. split; [cbn; rewrite Et; reflexivity|].
      right; right; right. eexists _, _, w, thrown. split; [exact Et|].
      reflexivity.
    + eexists [_; _; _]. split; [cbn; rewrite Et; reflexivity|].
      right; right; left. eexists _, _, w, theme. split; [exact Et|].
      reflexivity.
Qed.

(** X11: whatever the state, the date, the clock and the network do, a run
    of the prediction ends in exactly one of two ways, an error shown or
    the theme set, never both and never neither; it shows at most one
    error, displays the weather at most once and sends at most one
    request; the theme is set only when the weather is displayed; when the
    weather is displayed with a condition that is a text, the theme is
    set, and when the condition shown is a member of [Object.prototype],
    the weather stays displayed and the error thrown by
    [updateWeatherTheme] is shown; and when the run touches the button it
    starts by disabling it and ends by enabling it again under its
    original label, also when the run fails. *)
Theorem predictWeather_one_outcome
  (st : WeatherApp.state) (selectedDate : JS.Date) (today : Z)
  (r : WeatherApp.response) :
  let trace := WeatherApp.predictWeather st selectedDate today r in
  let error_shown := exists m, In (WeatherApp.showApiError m) trace in
  let theme_set := exists theme, In (WeatherApp.updateWeatherTheme_ theme) trace in
  (error_shown \/ theme_set)
  /\ ~ (error_shown /\ theme_set)
  /\ (length (List.filter WeatherApp.is_showApiError trace) <= 1)%nat
  /\ (length (List.filter WeatherApp.is_display trace) <= 1)%nat
  /\ (length (List.filter WeatherApp.is_fetch trace) <= 1)%nat
  /\ (theme_set -> exists shown, In (WeatherApp.updateWeatherDisplay_ shown) trace)
  /\ (forall shown,
        In (WeatherApp.updateWeatherDisplay_ shown) trace ->
        match WeatherApp.el_currentCondition shown with
        | JS.Text _ => theme_set
        | JS.Inherited _ =>
            In (WeatherApp.showApiError
                  (Spec.apiErrorText
                     "data.conditions?.toLowerCase is not a function"))
               trace
        end)
  /\ ((exists text disabled, In (WeatherApp.predictBtn text disabled) trace) ->
      head trace = Some (WeatherApp.predictBtn "Predicting..." true)
      /\ last trace = Some (WeatherApp.predictBtn "Predict the Weather" false)).
Proof.
  cbv zeta. destruct (WeatherApp.currentCoords st) as [c|] eqn:Hc.
  - destruct (predictWeather_shape st c selectedDate today r Hc)
      as (mid & -> & [[m ->]|[(url & body & m & ->)
                     |[(url & body & w & theme & Ht & ->)
                      |(url & body & w & thrown & Ht & ->)]]]);
      cbn [app List.filter WeatherApp.is_showApiError WeatherApp.is_display
           WeatherApp.is_fetch length head].
    + split; [left; eexists; cbn; eauto|].
      split; [intros [_ [x H]]; cbn in H;
              repeat (destruct H as [H|H]; try discriminate H); contradiction|].
      split; [lia|]. split; [lia|]. split; [lia|].
      split; [intros [x H]; cbn in H;
              repeat (destruct H as [H|H]; try discriminate H); contradiction|].
      split; [intros x H; cbn in H;
              repeat (destruct H as [H|H]; try discriminate H); contradiction|].
      intros _. split; reflexivity.
    + split; [left; eexists; cbn; eauto|].
      split; [intros [_ [x H]]; cbn in H;
              repeat (destruct H as [H|H]; try discriminate H); contradiction|].
      split; [lia|]. split; [lia|]. split; [lia|].
      split; [intros [x H]; cbn in H;
              repeat (destruct H as [H|H]; try discriminate H); contradiction|].
      split; [intros x H; cbn in H;
              repeat (destruct H as [H|H]; try discriminate H); contradiction|].
      intros _. split; reflexivity.
    + split; [right; eexists; cbn; eauto 6|].
      split; [intros [[x H] _]; cbn in H;
              repeat (destruct H as [H|H]; try discriminate H); contradiction|].
      split; [lia|]. split; [lia|]. split; [lia|].
      split; [intros _; eexists; cbn; eauto 6|].
      split; [|intros _; split; reflexivity].
      intros x H. cbn in H.
      repeat (destruct H as [H|H]; try discriminate H); try contradiction.
      injection H as <-.
      pose proof (updateWeatherTheme_cases w) as Hth.
      pose proof (el_currentCondition_cases w) as Hel.
      destruct (WeatherApp.conditions w).
      * destruct Hel as [s' ->]. eexists; cbn; eauto 6.
      * rewrite Hth in Ht. discriminate Ht.
    + split; [left; eexists; cbn; eauto 6|].
      split; [intros [_ [x H]]; cbn in H;
              repeat (destruct H as [H|H]; try discriminate H); contradiction|].
      split; [lia|]. split; [lia|]. split; [lia|].
      split; [intros [x H]; cbn in H;
              repeat (destruct H as [H|H]; try discriminate H); contradiction|].
      split; [|intros _; split; reflexivity].
      intros x H. cbn in H.
      repeat (destruct H as [H|H]; try discriminate H); try contradiction.
      injection H as <-.
      pose proof (updateWeatherTheme_cases w) as Hth.
      pose proof (el_currentCondition_cases w) as Hel.
      destruct (WeatherApp.conditions w).
      * destruct Hth as [theme Hth]. rewrite Hth in Ht. discriminate Ht.
      * rewrite Hel. rewrite Hth in Ht. injection Ht as <-.
        cbn. eauto 6.
  - unfold WeatherApp.predictWeather. rewrite Hc.
    cbn [List.filter WeatherApp.is_showApiError WeatherApp.is_display
         WeatherApp.is_fetch length].
    split; [left; eexists; cbn; eauto|].
    split; [intros [_ [x H]]; cbn in H;
            repeat (destruct H as [H|H]; try discriminate H); contradiction|].
    split; [lia|]. split; [lia|]. split; [lia|].
    split; [intros [x H]; cbn in H;
            repeat (destruct H as [H|H]; try discriminate H); contradiction|].
    split; [intros x H; cbn in H;
            repeat (destruct H as [H|H]; try discriminate H); contradiction|].
    intros (text & disabled & H). cbn in H.
    destruct H as [H|H]; [discriminate H | contradiction].
Qed.

(** When the model names the condition 'constructor', the weather is
    displayed and then the error is shown; no theme is set. *)
Lemma predictWeather_one_outcome_witness :
  let trace :=
    WeatherApp.predictWeather (snd WeatherApp.constructor)
      (Some Examples.picked) Examples.now Examples.odd_day_reply in
  (exists shown,
     nth_error trace 2 = Some (WeatherApp.updateWeatherDisplay_ shown)
     /\ WeatherApp.el_currentCondition shown = JS.Inherited "constructor")
  /\ In (WeatherApp.showApiError
           (Spec.apiErrorText "data.conditions?.toLowerCase is not a function"))
        trace
  /\ ~ exists theme, In (WeatherApp.updateWeatherTheme_ theme) trace.
Proof.
  cbv zeta.
  destruct (predictWeather_one_outcome (snd WeatherApp.constructor)
              (Some Examples.picked) Examples.now Examples.odd_day_reply)
    as (_ & Hone & _ & _ & _ & _ & Hshown & _).
  cbv zeta in Hone, Hshown.
  assert (exists shown,
            nth_error
              (WeatherApp.predictWeather (snd WeatherApp.constructor)
                 (Some Examples.picked) Examples.now Examples.odd_day_reply) 2
            = Some (WeatherApp.updateWeatherDisplay_ shown)
            /\ WeatherApp.el_currentCondition shown
               = JS.Inherited "constructor") as (shown & Hnth & Hcond).
  { eexists. split; vm_compute; reflexivity. }
  pose proof (Hshown shown (nth_error_In _ _ Hnth)) as Herr.
  rewrite Hcond in Herr.
  split; [exists shown; auto|]. split; [exact Herr|].
  intros Hth. apply Hone. split; [eexists; exact Herr | exact Hth].
Defined.

(** X12: for a date in range, the error shown after a failed request tells
    where it came from: the message of the network failure; the error text
    of the reply, whenever the reply carries a non-empty one and is refused
    or lacks success or data; the status code of a refused reply without
    such a text, when its body does not parse or parses to a value other
    than [null]; a fixed text for an accepted reply without success or data
    and without an error text; the message of the parser for an accepted
    reply whose body does not parse; and, for a reply whose body is the
    JSON text [null], refused or accepted, the message of the [TypeError]
    thrown by reading a property of [null]. *)
Theorem predictWeather_error_messages
  (st : WeatherApp.state) (c : WeatherApp.coords) (t today : Z)
  (Hc : WeatherApp.currentCoords st = Some c)
  (H0 : JS.le (JS.Num 0) (WeatherApp.daysFromNow (Some t) today) = true)
  (H7 : JS.le (WeatherApp.daysFromNow (Some t) today) (JS.Num 7) = true) :
  let failed (r : WeatherApp.response) (m : string) :=
    WeatherApp.predictWeather st (Some t) today r
    = [ WeatherApp.predictBtn "Predicting..." true;
        WeatherApp.fetch "http://localhost:5000/predict"
          (WeatherApp.requestBody (JS.iso_string t) c);
        WeatherApp.showApiError (Spec.apiErrorText m);
        WeatherApp.predictBtn "Predict the Weather" false ] in
  (forall e, failed (WeatherApp.NetworkFailure e) (JS.message e))
  /\ (forall ok status a text,
        WeatherApp.error a = Some text -> text <> "" ->
        ok = false \/ WeatherApp.success a = false \/ WeatherApp.data a = None ->
        failed (WeatherApp.Reply ok status (inr a)) text)
  /\ (forall status body,
        match body with
        | inr a => JS.or_str (WeatherApp.error a) "" = ""
        | inl _ => True
        end ->
        failed (WeatherApp.Reply false status body)
          ("Model API error: " +:+ JS.decimal status))
  /\ (forall status a,
        JS.or_str (WeatherApp.error a) "" = "" ->
        WeatherApp.success a = false \/ WeatherApp.data a = None ->
        failed (WeatherApp.Reply true status (inr a))
          "No weather data available from model")
  /\ (forall status e,
        failed (WeatherApp.Reply true status (inl e)) (JS.message e))
  /\ (forall status,
        failed (WeatherApp.ReplyNull false status)
          "Cannot read properties of null (reading 'error')")
  /\ (forall status,
        failed (WeatherApp.ReplyNull true status)
          "Cannot read properties of null (reading 'success')").
Proof.
  cbv zeta.
  assert (forall r,
            WeatherApp.predictWeather st (Some t) today r
            = WeatherApp.predictBtn "Predicting..." true
              :: fst (WeatherApp.finally
                        (WeatherApp.try_catch
                           (weatherData ← WeatherApp.fetchWeatherData c (Some t) r;
                            WeatherApp.emit
                              (WeatherApp.updateWeatherDisplay_
                                 (WeatherApp.updateWeatherDisplay weatherData));;
                            theme ← WeatherApp.lift
                                      (WeatherApp.updateWeatherTheme weatherData);
                            WeatherApp.emit (WeatherApp.updateWeatherTheme_ theme))
                           (fun e =>
                              WeatherApp.emit
                                (WeatherApp.showApiError
                                   ("Failed to get weather prediction: "
                                    +:+ JS.message e
                                    +:+ ". Please check if the model server is running."))))
                        [WeatherApp.predictBtn "Predict the Weather" false]))
    as Hrun.
  { intros r. unfold WeatherApp.predictWeather. rewrite Hc. cbv zeta.
    rewrite (lt_le_exclusive _ _ H0).
    unfold JS.gt. rewrite (lt_le_exclusive _ _ H7). reflexivity. }
  assert (forall s : option string, JS.or_str s "" = "" ->
            forall b, JS.or_str s b = b) as Hor.
  { intros [[|ch s]|] H b; cbn in *; [reflexivity | discriminate | reflexivity]. }
  split; [|split; [|split; [|split; [|split; [|split]]]]].
  - intros e. rewrite Hrun. reflexivity.
  - intros ok status a text He Hne Hcase. rewrite Hrun.
    unfold WeatherApp.fetchWeatherData. cbn [JS.toISOString WeatherApp.lift].
    assert (forall b, JS.or_str (WeatherApp.error a) b = text) as Hor'.
    { intros b. rewrite He. destruct text; [contradiction | reflexivity]. }
    destruct ok.
    + destruct Hcase as [H|[H|H]]; [discriminate H| |]; rewrite H.
      * cbn. rewrite Hor'. reflexivity.
      * destruct (WeatherApp.success a); cbn; rewrite Hor'; reflexivity.
    + cbn. rewrite Hor'. reflexivity.
  - intros status body Hb. rewrite Hrun.
    unfold WeatherApp.fetchWeatherData. cbn [JS.toISOString WeatherApp.lift].
    destruct body as [e|a]; [reflexivity|].
    cbn. rewrite (Hor _ Hb). reflexivity.
  - intros status a Hb Hcase. rewrite Hrun.
    unfold WeatherApp.fetchWeatherData. cbn [JS.toISOString WeatherApp.lift].
    destruct Hcase as [H|H]; rewrite H.
    + cbn. rewrite (Hor _ Hb). reflexivity.
    + destruct (WeatherApp.success a); cbn; rewrite (Hor _ Hb); reflexivity.
  - intros status e. rewrite Hrun. reflexivity.
  - intros status. rewrite Hrun. reflexivity.
  - intros status. rewrite Hrun. reflexivity.
Qed.

(** The model server refuses with status 503 and no body that parses. *)
Lemma predictWeather_error_messages_witness :
  WeatherApp.predictWeather (snd WeatherApp.constructor)
    (Some Examples.picked) Examples.now
    (WeatherApp.Reply false 503 (inl (JS.TypeError "Unexpected token")))
  = [ WeatherApp.predictBtn "Predicting..." true;
      WeatherApp.fetch "http://localhost:5000/predict"
        (WeatherApp.requestBody (JS.iso_string Examples.picked)
           {| WeatherApp.lat := JS.Num 40.7128;
              WeatherApp.lng := JS.Num (-74.0060) |});
      WeatherApp.showApiError
        (Spec.apiErrorText ("Model API error: " +:+ JS.decimal 503));
      WeatherApp.predictBtn "Predict the Weather" false ].
Proof.
  apply (proj1 (proj2 (proj2
           (predictWeather_error_messages (snd WeatherApp.constructor)
              {| WeatherApp.lat := JS.Num 40.7128;
                 WeatherApp.lng := JS.Num (-74.0060) |}
              Examples.picked Examples.now eq_refl eq_refl eq_refl)))
           503 (inl (JS.TypeError "Unexpected token")) I).
Defined.

(** ** The map application: the horizon in calendar days *)

(** A date picked without a time of day is read as the midnight that starts
    that day in UTC: the day count is then the difference of the two day
    numbers, whatever the time of day of the clock. *)
Lemma daysFromNow_midnight (day today : Z) :
  WeatherApp.daysFromNow (Some (day * JS.msPerDay)) today
  = JS.Num (inject_Z (day - today / JS.msPerDay)).
Proof.
  rewrite daysFromNow_valid. do 2 f_equal.
  unfold Qceiling.
  assert (Qfloor (- ((inject_Z (day * JS.msPerDay) + - inject_Z today)
                      * / inject_Z 86400000))
          = (today - day * JS.msPerDay) / 86400000) as ->.
  { rewrite Zdiv_Qdiv. apply Qfloor_comp.
    unfold Zminus. rewrite !inject_Z_plus, !inject_Z_opp. unfold Qdiv. ring. }
  unfold JS.msPerDay.
  replace (today - day * 86400000) with (today + (- day) * 86400000) by lia.
  rewrite Z.div_add by lia. lia.
Qed.

Lemma lt_integer (a b : Z) :
  JS.lt (JS.Num (inject_Z a)) (JS.Num (inject_Z b)) = (a <? b).
Proof.
  cbn [JS.lt]. destruct (Qlt_le_dec (inject_Z a) (inject_Z b)) as [H|H].
  - rewrite <- Zlt_Qlt in H. symmetry. now apply Z.ltb_lt.
  - rewrite <- Zle_Qle in H. symmetry. apply Z.ltb_ge. exact H.
Qed.

(** X13: for a date picked without a time of day, the day count is the
    number of UTC calendar days from the day of the clock to the day
    picked, at any time of the day: the prediction is refused as past for
    every earlier day, refused as too far for every day more than seven
    days ahead, and requested for the day of the clock itself and the seven
    days after it. *)
Theorem predictWeather_calendar_days
  (st : WeatherApp.state) (c : WeatherApp.coords) (day today : Z)
  (r : WeatherApp.response)
  (Hc : WeatherApp.currentCoords st = Some c) :
  let selectedDate := Some (day * JS.msPerDay) in
  let ahead := day - today / JS.msPerDay in
  let trace := WeatherApp.predictWeather st selectedDate today r in
  WeatherApp.daysFromNow selectedDate today = JS.Num (inject_Z ahead)
  /\ (ahead < 0 ->
      trace = [ WeatherApp.predictBtn "Predicting..." true;
                WeatherApp.showApiError
                  (Spec.apiErrorText "Cannot predict weather for past dates");
                WeatherApp.predictBtn "Predict the Weather" false ])
  /\ (7 < ahead ->
      trace = [ WeatherApp.predictBtn "Predicting..." true;
                WeatherApp.showApiError
                  (Spec.apiErrorText
                     "Cannot predict weather more than 7 days ahead");
                WeatherApp.predictBtn "Predict the Weather" false ])
  /\ (0 <= ahead <= 7 ->
      exists rest,
        trace
        = WeatherApp.predictBtn "Predicting..." true
          :: WeatherApp.fetch "http://localhost:5000/predict"
               (WeatherApp.requestBody (JS.iso_string (day * JS.msPerDay)) c)
          :: rest).
Proof.
  cbv zeta. split; [apply daysFromNow_midnight|]. split; [|split].
  - intros H. apply (predictWeather_past st c _ _ r Hc).
    rewrite daysFromNow_midnight. change (JS.Num 0) with (JS.Num (inject_Z 0)).
    rewrite lt_integer. now apply Z.ltb_lt.
  - intros H. apply (predictWeather_far st c _ _ r Hc).
    rewrite daysFromNow_midnight. unfold JS.gt.
    change (JS.Num 7) with (JS.Num (inject_Z 7)).
    rewrite lt_integer. now apply Z.ltb_lt.
  - intros [H0 H7].
    destruct (predictWeather_in_range st c (Some (day * JS.msPerDay)) today r Hc)
      as (t & rest & Ht & Htrace & _).
    + rewrite daysFromNow_midnight. change (JS.Num 0) with (JS.Num (inject_Z 0)).
      apply le_Num. now rewrite <- Zle_Qle.
    + rewrite daysFromNow_midnight. change (JS.Num 7) with (JS.Num (inject_Z 7)).
      apply le_Num. now rewrite <- Zle_Qle.
    + injection Ht as <-. exists rest. exact Htrace.
Qed.

(** The clock reads 2023-11-14T22:13:20Z, less than two hours before the
    day picked, 2023-11-15, begins: the count is one day. *)
Lemma predictWeather_calendar_days_witness :
  WeatherApp.daysFromNow (Some (19676 * JS.msPerDay)) Examples.now
  = JS.Num (inject_Z (19676 - Examples.now / JS.msPerDay))
  /\ 19676 - Examples.now / JS.msPerDay = 1.
Proof.
  split; [|reflexivity].
  exact (proj1 (predictWeather_calendar_days (snd WeatherApp.constructor)
                  {| WeatherApp.lat := JS.Num 40.7128;
                     WeatherApp.lng := JS.Num (-74.0060) |}
                  19676 Examples.now
                  (WeatherApp.NetworkFailure (JS.TypeError "Failed to fetch"))
                  eq_refl)).
Defined.

(** ** The map application: what the condition and the theme can be *)

Lemma convert_inversion (d : WeatherApp.Model.modelData) (w : WeatherApp.weather) :
  WeatherApp.convertModelDataToWeather d = ([], inr w) ->
  exists t h wc p wi pr ci,
    d = {| WeatherApp.Model.temperature := Some t;
           WeatherApp.Model.humidity := Some h;
           WeatherApp.Model.weather_conditions := Some wc;
           WeatherApp.Model.precipitation := Some p;
           WeatherApp.Model.wind := Some wi;
           WeatherApp.Model.pressure := Some pr;
           WeatherApp.Model.comfort_index := Some ci |}
    /\ w = {| WeatherApp.temp :=
                JS.Math_round (JS.ToNumber (WeatherApp.Model.air_temperature t));
              WeatherApp.feelslike :=
                JS.Math_round (JS.ToNumber (WeatherApp.Model.feels_like t));
              WeatherApp.humidity :=
                JS.Math_round (JS.ToNumber (WeatherApp.Model.percentage h));
              WeatherApp.conditions :=
                WeatherApp.getWeatherCondition (WeatherApp.Model.primary wc);
              WeatherApp.precip := WeatherApp.Model.rain_rate p;
              WeatherApp.precipprob := WeatherApp.Model.rain_probability p;
              WeatherApp.windSpeed := WeatherApp.Model.speed wi;
              WeatherApp.windGusts :=
                JS.fmul (JS.ToNumber (WeatherApp.Model.speed wi)) (JS.fl 1.3);
              WeatherApp.pressure := WeatherApp.Model.value pr;
              WeatherApp.visibility := WeatherApp.Model.visibility wc;
              WeatherApp.stormProb := WeatherApp.Model.storm_probability wc;
              WeatherApp.snowProb := WeatherApp.Model.snow_probability p;
              WeatherApp.comfortLevel := WeatherApp.Model.comfort_level ci |}.
Proof.
  destruct d as [t h wc p wi pr ci].
  unfold WeatherApp.convertModelDataToWeather.
  cbn [WeatherApp.Model.temperature WeatherApp.Model.humidity
       WeatherApp.Model.weather_conditions WeatherApp.Model.precipitation
       WeatherApp.Model.wind WeatherApp.Model.pressure
       WeatherApp.Model.comfort_index].
  destruct t as [t|]; [|intros H; discriminate H].
  destruct h as [h|]; [|intros H; discriminate H].
  destruct wc as [wc|]; [|intros H; discriminate H].
  destruct p as [p|]; [|intros H; discriminate H].
  destruct wi as [wi|]; [|intros H; discriminate H].
  destruct pr as [pr|]; [|intros H; discriminate H].
  destruct ci as [ci|]; [|intros H; discriminate H].
  intros H. exists t, h, wc, p, wi, pr, ci. split; [reflexivity|].
  cbv [WeatherApp.read mbind mret WeatherApp.M_bind WeatherApp.M_ret] in H.
  cbn [app] in H. injection H as <-. reflexivity.
Qed.

(** Under a name that every object inherits the lookup finds the inherited
    member. *)
Lemma getWeatherCondition_inherited (k : string) :
  In k JS.Object_prototype_names ->
  WeatherApp.getWeatherCondition (Some k) = JS.Inherited k.
Proof.
  intros H. unfold WeatherApp.getWeatherCondition. cbv zeta.
  assert (existsb (String.eqb k) JS.Object_prototype_names = true) as ->;
    [|reflexivity].
  apply existsb_exists. exists k. split; [exact H | apply String.eqb_refl].
Qed.

Lemma getWeatherCondition_cases (primary : option string) :
  (forall k, primary = Some k -> ~ In k JS.Object_prototype_names) ->
  (primary = Some "Sun"
   /\ WeatherApp.getWeatherCondition primary = JS.Text "Sunny")
  \/ (primary = Some "Rain"
      /\ WeatherApp.getWeatherCondition primary = JS.Text "Rainy")
  \/ (primary = Some "Snow"
      /\ WeatherApp.getWeatherCondition primary = JS.Text "Snowy")
  \/ (primary = Some "Freezing"
      /\ WeatherApp.getWeatherCondition primary = JS.Text "Freezing")
  \/ (primary = Some "Hot"
      /\ WeatherApp.getWeatherCondition primary = JS.Text "Hot")
  \/ (primary = Some "Warm"
      /\ WeatherApp.getWeatherCondition primary = JS.Text "Warm")
  \/ (primary = Some "Cool"
      /\ WeatherApp.getWeatherCondition primary = JS.Text "Cool")
  \/ (primary <> Some "Rain" /\ primary <> Some "Snow"
      /\ WeatherApp.getWeatherCondition primary = JS.Text "Partly Cloudy").
Proof.
  intros Hown. unfold WeatherApp.getWeatherCondition. cbv zeta.
  destruct primary as [k|];
    [|repeat right; repeat split; (reflexivity || discriminate)].
  destruct (existsb (String.eqb k) JS.Object_prototype_names) eqn:E.
  { exfalso. apply (Hown k eq_refl).
    apply existsb_exists in E as (x & Hx & Heq).
    apply String.eqb_eq in Heq. congruence. }
  cbn [WeatherApp.table_lookup].
  repeat (case_bool_decide; [subst k; cbn [JS.or_str JS.truthy_str]; tauto|]).
  repeat right.
  split; [intros [= ->]; contradiction|].
  split; [intros [= ->]; contradiction|].
  case_bool_decide; reflexivity.
Qed.

(** X14: for an answer whose primary condition is not a name that every
    object inherits (the lookup in the table of conditions finds a
    function under such a name), the condition displayed is one of the
    eight texts of the table, 'Partly Cloudy' for every primary condition
    the table does not list and for a missing one, and never the fallback
    'Partly sunny' of the display; the theme is set, and it is 'rainy'
    exactly for the primary condition 'Rain', 'snowy' exactly for 'Snow'
    and 'sunny' for everything else: it is never 'storm', whatever the
    storm probability. *)
Theorem condition_and_theme_from_model
  (d : WeatherApp.Model.modelData) (w : WeatherApp.weather)
  (Hconv : WeatherApp.convertModelDataToWeather d = ([], inr w))
  (Hown : forall k,
      WeatherApp.Model.weather_conditions d ≫= WeatherApp.Model.primary = Some k ->
      ~ In k JS.Object_prototype_names) :
  let primary :=
    WeatherApp.Model.weather_conditions d ≫= WeatherApp.Model.primary in
  let condition :=
    WeatherApp.el_currentCondition (WeatherApp.updateWeatherDisplay w) in
  let theme := WeatherApp.updateWeatherTheme w in
  (exists text, condition = JS.Text text /\ In text Spec.condition_texts)
  /\ condition <> JS.Text "Partly sunny"
  /\ ((forall k, primary = Some k ->
         ~ In k ["Sun"; "Rain"; "Snow"; "Freezing"; "Hot"; "Warm"; "Cool"]) ->
      condition = JS.Text "Partly Cloudy")
  /\ (exists name, theme = inr name)
  /\ (theme = inr "rainy" <-> primary = Some "Rain")
  /\ (theme = inr "snowy" <-> primary = Some "Snow")
  /\ (primary <> Some "Rain" -> primary <> Some "Snow" -> theme = inr "sunny")
  /\ theme <> inr "storm".
Proof.
  destruct (convert_inversion d w Hconv)
    as (t & h & wc & p & wi & pr & ci & -> & ->).
  cbv zeta.
  cbn [WeatherApp.Model.weather_conditions mbind option_bind
       WeatherApp.updateWeatherDisplay WeatherApp.el_currentCondition
       WeatherApp.conditions] in *.
  unfold WeatherApp.updateWeatherTheme. cbv zeta. cbn [WeatherApp.conditions].
  destruct (getWeatherCondition_cases (WeatherApp.Model.primary wc) Hown)
    as [[E ->]|[[E ->]|[[E ->]|[[E ->]|[[E ->]|[[E ->]|[[E ->]|
        (Hr & Hs & ->)]]]]]]]; try rewrite E; clear Hown;
    (split; [eexists; split; [reflexivity | vm_compute; tauto]|]);
    (split; [discriminate|]);
    (split;
     [first [reflexivity
            | intros H; exfalso; apply (H _ eq_refl); cbn [In]; tauto]|]);
    (split; [eexists; reflexivity|]);
    (split; [split; first [reflexivity | discriminate | congruence]|]);
    (split; [split; first [reflexivity | discriminate | congruence]|]);
    (split; [first [reflexivity | congruence]|]); discriminate.
Qed.

(** The model answers 'Rain': the page reads 'Rainy' under the rainy
    theme. *)
Lemma condition_and_theme_from_model_witness :
  exists w,
    WeatherApp.convertModelDataToWeather Examples.mild_day = ([], inr w)
    /\ WeatherApp.updateWeatherTheme w = inr "rainy".
Proof.
  eexists. split; [reflexivity|].
  refine (proj2 (proj1 (proj2 (proj2 (proj2 (proj2
            (condition_and_theme_from_model Examples.mild_day _ eq_refl _))))))
            eq_refl).
  intros k [= <-]. cbn [In].
  intros H. repeat (destruct H as [H|H]; [discriminate H|]). exact H.
Defined.

(** ** The map application: numbers that are always defined *)

Lemma bounded_weaken (k k' : Z) (a : JS.number) :
  k <= k' -> JS.bounded k a -> JS.bounded k' a.
Proof.
  intros Hk (y & -> & Hy). exists y. split; [reflexivity|].
  eapply Qle_trans; [exact Hy | now apply pow2_le].
Qed.

Lemma bounded_zero (k : Z) : JS.bounded k (JS.Num 0).
Proof. exists 0%Q. split; [reflexivity|]. apply Qlt_le_weak, pow2_pos. Qed.

Lemma bounded_small (k : Z) (z : Z) :
  7 <= k -> Z.abs z <= 128 -> JS.bounded k (JS.Num (inject_Z z)).
Proof.
  intros Hk Hz. exists (inject_Z z). split; [reflexivity|].
  change (Qabs (inject_Z z)) with (inject_Z (Z.abs z)).
  apply Qle_trans with (2 ^ 7)%Q.
  - change (2 ^ 7)%Q with (inject_Z 128). now rewrite <- Zle_Qle.
  - apply pow2_le. lia.
Qed.

Lemma fl_bounded_number (k : Z) (q : Q) :
  0 <= k <= 1023 -> (Qabs q <= 2 ^ k)%Q -> JS.bounded k (JS.fl q).
Proof.
  intros Hk Hq. destruct (fl_bounded q k Hk Hq) as (y & -> & Hy & _).
  now exists y.
Qed.

Lemma pow2_double (k : Z) : (2 ^ (k + 1) == 2 ^ k + 2 ^ k)%Q.
Proof. rewrite pow2_plus. change (2 ^ 1)%Q with 2%Q. lra. Qed.

Lemma fadd_bounded (k : Z) (a b : JS.number) :
  0 <= k < 1023 -> JS.bounded k a -> JS.bounded k b ->
  JS.bounded (k + 1) (JS.fadd a b).
Proof.
  intros Hk (x & -> & Hx) (y & -> & Hy). cbn [JS.fadd].
  apply fl_bounded_number; [lia|].
  eapply Qle_trans; [apply Qabs_triangle|]. rewrite pow2_double. lra.
Qed.

Lemma neg_bounded (k : Z) (a : JS.number) :
  JS.bounded k a -> JS.bounded k (JS.neg a).
Proof.
  intros (x & -> & Hx). exists (- x)%Q. split; [reflexivity|].
  now rewrite Qabs_opp.
Qed.

Lemma fsub_bounded (k : Z) (a b : JS.number) :
  0 <= k < 1023 -> JS.bounded k a -> JS.bounded k b ->
  JS.bounded (k + 1) (JS.fsub a b).
Proof.
  intros Hk Ha Hb. unfold JS.fsub. apply fadd_bounded; [exact Hk | exact Ha|].
  now apply neg_bounded.
Qed.

Lemma fmul_gust_bounded (k : Z) (a : JS.number) :
  0 <= k < 1023 -> JS.bounded k a -> JS.bounded (k + 1) (JS.fmul a (JS.fl 1.3)).
Proof.
  intros Hk (x & -> & Hx). rewrite fl_gust_factor. cbn [JS.fmul].
  apply fl_bounded_number; [lia|].
  rewrite Qabs_Qmult, pow2_double.
  pose proof (Qabs_nonneg x) as H0.
  set (c := Qabs (5854679515581645 # 4503599627370496)).
  assert (0 <= c <= 2)%Q as Hc by (split; discriminate).
  set (a := Qabs x) in *. set (b := (2 ^ k)%Q) in *. nra.
Qed.

Lemma Math_max_zero_bounded (k : Z) (a : JS.number) :
  JS.bounded k a -> JS.bounded k (JS.Math_max (JS.Num 0) a).
Proof.
  intros (x & -> & Hx). cbn [JS.Math_max].
  destruct (Qle_bool 0 x); [now exists x | apply bounded_zero].
Qed.

Lemma Math_round_bounded (k : Z) (a : JS.number) :
  0 <= k -> JS.bounded k a ->
  exists z, JS.Math_round a = JS.Num (inject_Z z) /\ Z.abs z <= 2 ^ (k + 1).
Proof.
  intros Hk (x & -> & Hx). exists (JS.round_Q x). split; [reflexivity|].
  unfold JS.round_Q.
  pose proof (Qfloor_le (x + (1 # 2))) as Hf.
  pose proof (Qlt_floor (x + (1 # 2))) as Hc.
  rewrite inject_Z_plus in Hc. change (inject_Z 1) with 1%Q in Hc.
  set (f := Qfloor _) in *.
  apply Qabs_Qle_condition in Hx.
  assert (1 <= 2 ^ k)%Q as H1.
  { change 1%Q with (2 ^ 0)%Q. now apply pow2_le. }
  rewrite Zle_Qle, <- pow2_Z by lia. rewrite pow2_double.
  change (inject_Z (Z.abs f)) with (Qabs (inject_Z f)).
  apply Qabs_Qle_condition. lra.
Qed.

Lemma Math_round_bounded_integer (k : Z) (a : JS.number) :
  JS.bounded k a -> Spec.integer (JS.Math_round a).
Proof. intros (x & -> & Hx). now exists (JS.round_Q x). Qed.

Lemma integer_bounded (k : Z) (z : Z) :
  0 <= k -> Z.abs z <= 2 ^ k -> JS.bounded k (JS.Num (inject_Z z)).
Proof.
  intros Hk Hz. exists (inject_Z z). split; [reflexivity|].
  change (Qabs (inject_Z z)) with (inject_Z (Z.abs z)).
  rewrite pow2_Z by lia. now rewrite <- Zle_Qle.
Qed.

(** What is read from a field whose number, if any, is bounded. *)
Lemma or_field_bounded (k : Z) (f : JS.field) :
  0 <= k <= 1023 ->
  (forall q, f = JS.Number q -> (Qabs q <= 2 ^ k)%Q) ->
  JS.bounded k (JS.or_field f (JS.Num 0)).
Proof.
  intros Hk Hf. rewrite or_field_zero.
  destruct f as [| |q]; cbn [Spec.or_zero];
    try (change (JS.fl 0) with (JS.Num 0); apply bounded_zero).
  apply fl_bounded_number; [exact Hk | now apply Hf].
Qed.

(** The gusts shown, whatever the wind speed field holds. *)
Lemma gusts_shown (speed : JS.field) :
  JS.Math_round
    (JS.or_num (JS.fmul (JS.ToNumber speed) (JS.fl 1.3))
       (JS.fmul (JS.Math_round (JS.or_field speed (JS.Num 0))) (JS.fl 1.3)))
  = JS.Math_round (JS.fmul (JS.fl (Spec.or_zero speed)) (JS.fl 1.3)).
Proof.
  destruct speed as [| |q]; [vm_compute; reflexivity ..|].
  apply Math_round_gusts.
Qed.

(** The humidity shown, whatever the field holds. *)
Lemma humidity_shown (hum : JS.field) :
  JS.Math_round (JS.or_num (JS.Math_round (JS.ToNumber hum)) (JS.Num 0))
  = JS.Math_round (JS.fl (Spec.or_zero hum)).
Proof.
  destruct hum as [| |q]; [vm_compute; reflexivity ..|].
  cbn [JS.ToNumber Spec.or_zero]. apply Math_round_or_num, fl_not_NaN.
Qed.

Lemma model_numbers_bound (k : Z) (d : WeatherApp.Model.modelData) t h wc p wi pr ci :
  d = {| WeatherApp.Model.temperature := Some t;
         WeatherApp.Model.humidity := Some h;
         WeatherApp.Model.weather_conditions := Some wc;
         WeatherApp.Model.precipitation := Some p;
         WeatherApp.Model.wind := Some wi;
         WeatherApp.Model.pressure := Some pr;
         WeatherApp.Model.comfort_index := Some ci |} ->
  Forall (fun q => (Qabs q <= 2 ^ k)%Q) (Spec.model_numbers d) ->
  forall f q,
    In f [ WeatherApp.Model.air_temperature t; WeatherApp.Model.feels_like t;
           WeatherApp.Model.percentage h;
           WeatherApp.Model.storm_probability wc;
           WeatherApp.Model.rain_rate p; WeatherApp.Model.rain_probability p;
           WeatherApp.Model.snow_probability p; WeatherApp.Model.speed wi;
           WeatherApp.Model.value pr ] ->
    f = JS.Number q -> (Qabs q <= 2 ^ k)%Q.
Proof.
  intros -> H f q Hin ->. rewrite List.Forall_forall in H. apply H.
  unfold Spec.model_numbers, Spec.field_numbers. cbv zeta.
  cbn [WeatherApp.Model.temperature WeatherApp.Model.humidity
       WeatherApp.Model.weather_conditions WeatherApp.Model.precipitation
       WeatherApp.Model.wind WeatherApp.Model.pressure from_option app].
  apply list_elem_of_In, list_elem_of_omap.
  exists (JS.Number q). split; [now apply list_elem_of_In | reflexivity].
Qed.

(** X15: as long as no number of the answer exceeds 2^1000 in magnitude,
    the wind speed, the gusts, the humidity, the pressure and the four
    probabilities shown for a converted answer are always integers, never
    NaN: a number that is missing or null in the answer is displayed as 0,
    and the sunny probability as 100 when the three others are missing.
    The temperatures are not protected: the current temperature is NaN
    exactly when the air temperature is missing from the answer, and then
    tonight's low and tomorrow's high are NaN too; otherwise the three are
    integers. *)
Theorem display_numbers_defined
  (d : WeatherApp.Model.modelData) (w : WeatherApp.weather)
  (Hconv : WeatherApp.convertModelDataToWeather d = ([], inr w))
  (Hbound : Forall (fun q => (Qabs q <= 2 ^ 1000)%Q) (Spec.model_numbers d)) :
  let shown := WeatherApp.updateWeatherDisplay w in
  Forall Spec.integer
    [ WeatherApp.el_windSpeed shown; WeatherApp.el_windGusts shown;
      WeatherApp.el_humidity shown; WeatherApp.el_pressure shown;
      WeatherApp.el_probSunny shown; WeatherApp.el_probRainy shown;
      WeatherApp.el_probSnowy shown; WeatherApp.el_probStorm shown ]
  /\ (forall t, WeatherApp.Model.temperature d = Some t ->
        (WeatherApp.el_currentTemp shown = JS.NaN
         <-> WeatherApp.Model.air_temperature t = JS.Absent)
        /\ (WeatherApp.Model.air_temperature t = JS.Absent ->
            WeatherApp.el_tonightLow shown = JS.NaN
            /\ WeatherApp.el_tomorrowHigh shown = JS.NaN)
        /\ (WeatherApp.Model.air_temperature t <> JS.Absent ->
            Forall Spec.integer
              [ WeatherApp.el_currentTemp shown;
                WeatherApp.el_tonightLow shown;
                WeatherApp.el_tomorrowHigh shown ]))
  /\ (forall h, WeatherApp.Model.humidity d = Some h ->
        JS.truthy (WeatherApp.Model.percentage h) = false ->
        WeatherApp.el_humidity shown = JS.Num 0)
  /\ (forall pr, WeatherApp.Model.pressure d = Some pr ->
        JS.truthy (WeatherApp.Model.value pr) = false ->
        WeatherApp.el_pressure shown = JS.Num 0)
  /\ (forall wi, WeatherApp.Model.wind d = Some wi ->
        JS.truthy (WeatherApp.Model.speed wi) = false ->
        WeatherApp.el_windSpeed shown = JS.Num 0
        /\ WeatherApp.el_windGusts shown = JS.Num 0)
  /\ (forall p wc,
        WeatherApp.Model.precipitation d = Some p ->
        WeatherApp.Model.weather_conditions d = Some wc ->
        JS.truthy (WeatherApp.Model.rain_probability p) = false ->
        JS.truthy (WeatherApp.Model.snow_probability p) = false ->
        JS.truthy (WeatherApp.Model.storm_probability wc) = false ->
        WeatherApp.el_probSunny shown = JS.Num 100
        /\ WeatherApp.el_probRainy shown = JS.Num 0
        /\ WeatherApp.el_probSnowy shown = JS.Num 0
        /\ WeatherApp.el_probStorm shown = JS.Num 0).
Proof.
  destruct (convert_inversion d w Hconv)
    as (t & h & wc & p & wi & pr & ci & Hd & ->).
  pose proof (model_numbers_bound 1000 d t h wc p wi pr ci Hd Hbound) as Hb.
  subst d. clear Hconv Hbound. cbv zeta.
  destruct t as [air feels], h as [hum], wc as [prim vis storm],
    p as [rate rain snow], wi as [speed], pr as [pres], ci as [comfort].
  cbn [WeatherApp.Model.air_temperature WeatherApp.Model.feels_like
       WeatherApp.Model.percentage WeatherApp.Model.storm_probability
       WeatherApp.Model.rain_rate WeatherApp.Model.rain_probability
       WeatherApp.Model.snow_probability WeatherApp.Model.speed
       WeatherApp.Model.value] in Hb.
  assert (forall f, In f [air; feels; hum; storm; rate; rain; snow; speed; pres] ->
            JS.bounded 1000 (JS.fl (Spec.or_zero f))) as Hfl.
  { intros f Hin. rewrite <- or_field_zero.
    apply or_field_bounded; [lia|]. intros q. now apply Hb. }
  assert (forall f, JS.truthy f = false -> JS.fl (Spec.or_zero f) = JS.Num 0)
    as Hfalsy.
  { intros f Hf. rewrite <- or_field_zero. unfold JS.or_field.
    now rewrite Hf. }
  unfold WeatherApp.updateWeatherDisplay,
    WeatherApp.calculateWeatherProbabilitiesFromModel. cbv zeta.
  rewrite unrounded_values.
  cbn [WeatherApp.el_windSpeed WeatherApp.el_windGusts WeatherApp.el_humidity
       WeatherApp.el_pressure WeatherApp.el_probSunny WeatherApp.el_probRainy
       WeatherApp.el_probSnowy WeatherApp.el_probStorm WeatherApp.el_currentTemp
       WeatherApp.el_tonightLow WeatherApp.el_tomorrowHigh
       WeatherApp.temp WeatherApp.humidity WeatherApp.precipprob
       WeatherApp.windSpeed WeatherApp.windGusts WeatherApp.pressure
       WeatherApp.stormProb WeatherApp.snowProb
       WeatherApp.sunny WeatherApp.rainy WeatherApp.snowy WeatherApp.storm
       WeatherApp.Model.temperature WeatherApp.Model.humidity
       WeatherApp.Model.weather_conditions WeatherApp.Model.precipitation
       WeatherApp.Model.wind WeatherApp.Model.pressure
       WeatherApp.Model.air_temperature WeatherApp.Model.percentage
       WeatherApp.Model.storm_probability WeatherApp.Model.rain_probability
       WeatherApp.Model.snow_probability WeatherApp.Model.speed
       WeatherApp.Model.value].
  rewrite !Math_round_idempotent, gusts_shown, humidity_shown, !or_field_zero.
  pose proof (Hfl speed ltac:(cbn [In]; tauto)) as Bspeed.
  pose proof (Hfl hum ltac:(cbn [In]; tauto)) as Bhum.
  pose proof (Hfl pres ltac:(cbn [In]; tauto)) as Bpres.
  pose proof (Hfl rain ltac:(cbn [In]; tauto)) as Brain.
  pose proof (Hfl snow ltac:(cbn [In]; tauto)) as Bsnow.
  pose proof (Hfl storm ltac:(cbn [In]; tauto)) as Bstorm.
  pose proof (Hfl air ltac:(cbn [In]; tauto)) as Bair.
  split; [|split; [|split; [|split; [|split]]]].
  - repeat apply Forall_cons_2; try apply Forall_nil_2.
    + now apply (Math_round_bounded_integer 1000).
    + apply (Math_round_bounded_integer 1001).
      apply (fmul_gust_bounded 1000); [lia | exact Bspeed].
    + now apply (Math_round_bounded_integer 1000).
    + now apply (Math_round_bounded_integer 1000).
    + apply (Math_round_bounded_integer 1003).
      apply Math_max_zero_bounded.
      apply (fsub_bounded 1002); [lia| |].
      * change (JS.Num 100) with (JS.Num (inject_Z 100)).
        apply bounded_small; lia.
      * apply (fadd_bounded 1001); [lia| |].
        -- now apply (fadd_bounded 1000); [lia| |].
        -- now apply (bounded_weaken 1000).
    + now apply (Math_round_bounded_integer 1000).
    + now apply (Math_round_bounded_integer 1000).
    + now apply (Math_round_bounded_integer 1000).
  - intros t' [= <-]. cbn [WeatherApp.Model.air_temperature].
    split; [|split].
    + destruct air as [| |q]; cbn [JS.ToNumber JS.Math_round].
      * split; reflexivity.
      * split; discriminate.
      * split; [|discriminate]. intros H. exfalso.
        destruct (JS.fl q) eqn:E; try discriminate H.
        now apply fl_not_NaN in E.
    + intros ->. split; reflexivity.
    + intros Hne.
      assert (JS.ToNumber air = JS.fl (Spec.or_zero air)) as ->.
      { destruct air; [contradiction | reflexivity | reflexivity]. }
      destruct (Math_round_bounded 1000 _ ltac:(lia) Bair) as (z & -> & Hz).
      replace (1000 + 1) with 1001 in Hz by lia.
      pose proof (integer_bounded 1001 z ltac:(lia) Hz) as Bz.
      change (JS.Num 8) with (JS.Num (inject_Z 8)).
      change (JS.Num 5) with (JS.Num (inject_Z 5)).
      change (JS.Num 3) with (JS.Num (inject_Z 3)).
      change (JS.Num 2) with (JS.Num (inject_Z 2)).
      repeat apply Forall_cons_2; try apply Forall_nil_2.
      * now exists z.
      * apply (Math_round_bounded_integer 1002).
        apply (fsub_bounded 1001); [lia | exact Bz|].
        destruct (JS.gt _ _); apply bounded_small; lia.
      * apply (Math_round_bounded_integer 1002).
        apply (fadd_bounded 1001); [lia | exact Bz|].
        destruct (JS.gt _ _); apply bounded_small; lia.
  - intros h' [= <-]. cbn [WeatherApp.Model.percentage].
    intros Hq. now rewrite (Hfalsy _ Hq).
  - intros pr' [= <-]. cbn [WeatherApp.Model.value].
    intros Hq. now rewrite (Hfalsy _ Hq).
  - intros wi' [= <-]. cbn [WeatherApp.Model.speed].
    intros Hq. rewrite (Hfalsy _ Hq). split; [reflexivity|].
    vm_compute. reflexivity.
  - intros p' wc' [= <-] [= <-].
    cbn [WeatherApp.Model.rain_probability WeatherApp.Model.snow_probability
         WeatherApp.Model.storm_probability].
    intros Hr Hs Ht. rewrite (Hfalsy _ Hr), (Hfalsy _ Hs), (Hfalsy _ Ht).
    repeat split; vm_compute; reflexivity.
Qed.

(** An answer in which every number is given: all numbers displayed are
    integers. *)
Lemma display_numbers_defined_witness :
  exists w,
    WeatherApp.convertModelDataToWeather Examples.mild_day = ([], inr w)
    /\ Spec.integer (WeatherApp.el_humidity (WeatherApp.updateWeatherDisplay w))
    /\ WeatherApp.el_windGusts (WeatherApp.updateWeatherDisplay w) = JS.Num 5.
Proof.
  eexists. split; [reflexivity|]. split; [|vm_compute; reflexivity].
  assert (Forall (fun q => (Qabs q <= 2 ^ 1000)%Q)
            (Spec.model_numbers Examples.mild_day)) as Hb.
  { repeat constructor; vm_compute; discriminate. }
  pose proof (proj1 (display_numbers_defined Examples.mild_day _ eq_refl Hb))
    as H.
  apply Forall_cons in H as [_ H]. apply Forall_cons in H as [_ H].
  apply Forall_cons in H as [H _]. exact H.
Defined.

(** Beyond that bound the gusts need not be a number: a wind speed of
    1.5e308 is a double, but 1.3 times it is not, and the gusts shown are
    [Infinity]. *)
Lemma windGusts_overflow :
  exists w,
    WeatherApp.convertModelDataToWeather Examples.gale = ([], inr w)
    /\ Spec.integer (WeatherApp.el_windSpeed (WeatherApp.updateWeatherDisplay w))
    /\ WeatherApp.el_windGusts (WeatherApp.updateWeatherDisplay w) = JS.PInf
    /\ ~ Spec.integer (WeatherApp.el_windGusts (WeatherApp.updateWeatherDisplay w)).
Proof.
  eexists. split; [apply convert_complete|].
  match goal with
  | |- _ /\ ?g = JS.PInf /\ _ =>
      assert (g = JS.PInf) as Hg by (vm_compute; reflexivity)
  end.
  split; [eexists; vm_compute; reflexivity|]. split; [exact Hg|].
  rewrite Hg. intros [z Hz]. discriminate Hz.
Qed.

(** ** The map application: which coordinates are checked *)

Lemma isValidCoordinate_in_bounds (la ln : JS.number) :
  WeatherApp.isValidCoordinate la ln = true <-> Spec.in_bounds la ln.
Proof. apply isValidCoordinate_iff. Qed.

Lemma in_bounds_not_NaN (la ln : JS.number) :
  Spec.in_bounds la ln -> JS.isNaN la = false /\ JS.isNaN ln = false.
Proof. intros (x & y & -> & -> & _). split; reflexivity. Qed.

(** X16: coordinates typed into the two inputs or into the search box move
    the marker exactly when they are a latitude and a longitude within
    bounds.  Typed in the inputs, a pair in bounds becomes the current pair
    at the zoom the map has, and any other pair changes nothing; typed in
    the search box, a pair in bounds becomes the current pair at zoom 12
    without any geocoding request, whatever the geocoder would have
    answered; so a sequence of such entries out of a state in bounds never
    leaves the bounds. *)
Theorem typed_coordinates_in_bounds
  (parseFloat : string -> JS.number)
  (coordMatch : string -> option (string * string))
  (st : WeatherApp.state) :
  (forall latText lngText,
     let la := parseFloat latText in
     let ln := parseFloat lngText in
     (Spec.in_bounds la ln ->
      WeatherApp.updateMapFromInputs parseFloat st latText lngText
      = ([ WeatherApp.setView la ln WeatherApp.keepZoom;
           WeatherApp.addMarker la ln; WeatherApp.clearCoordinateError ],
         {| WeatherApp.currentCoords :=
              Some {| WeatherApp.lat := la; WeatherApp.lng := ln |} |}))
     /\ (~ Spec.in_bounds la ln ->
         WeatherApp.updateMapFromInputs parseFloat st latText lngText
         = ([], st)))
  /\ (forall query g g1 g2,
        query <> "" -> coordMatch query = Some (g1, g2) ->
        let la := parseFloat g1 in
        let ln := parseFloat g2 in
        Spec.in_bounds la ln ->
        WeatherApp.handleSearch parseFloat coordMatch st query g
        = ([ WeatherApp.setView la ln (WeatherApp.zoomTo 12);
             WeatherApp.addMarker la ln; WeatherApp.clearCoordinateError ],
           {| WeatherApp.currentCoords :=
                Some {| WeatherApp.lat := la; WeatherApp.lng := ln |} |}))
  /\ (forall entries : list (string * string),
        (exists c, WeatherApp.currentCoords st = Some c
                   /\ Spec.in_bounds (WeatherApp.lat c) (WeatherApp.lng c)) ->
        exists c,
          WeatherApp.currentCoords
            (fold_left (WeatherApp.step parseFloat coordMatch)
               (map (fun e => WeatherApp.CoordinateInput e.1 e.2) entries) st)
          = Some c
          /\ Spec.in_bounds (WeatherApp.lat c) (WeatherApp.lng c)).
Proof.
  assert (forall s latText lngText,
            (Spec.in_bounds (parseFloat latText) (parseFloat lngText) ->
             WeatherApp.updateMapFromInputs parseFloat s latText lngText
             = ([ WeatherApp.setView (parseFloat latText) (parseFloat lngText)
                    WeatherApp.keepZoom;
                  WeatherApp.addMarker (parseFloat latText) (parseFloat lngText);
                  WeatherApp.clearCoordinateError ],
                {| WeatherApp.currentCoords :=
                     Some {| WeatherApp.lat := parseFloat latText;
                             WeatherApp.lng := parseFloat lngText |} |}))
            /\ (~ Spec.in_bounds (parseFloat latText) (parseFloat lngText) ->
                WeatherApp.updateMapFromInputs parseFloat s latText lngText
                = ([], s))) as Hinputs.
  { intros s latText lngText. unfold WeatherApp.updateMapFromInputs. cbv zeta.
    split.
    - intros Hb. destruct (in_bounds_not_NaN _ _ Hb) as [-> ->].
      apply isValidCoordinate_in_bounds in Hb. rewrite Hb. reflexivity.
    - intros Hb.
      destruct (WeatherApp.isValidCoordinate (parseFloat latText)
                  (parseFloat lngText)) eqn:E.
      + apply isValidCoordinate_in_bounds in E. contradiction.
      + rewrite andb_false_r. reflexivity. }
  split; [|split].
  - intros latText lngText. cbv zeta. apply Hinputs.
  - intros query g g1 g2 Hq Hm. cbv zeta. intros Hb.
    unfold WeatherApp.handleSearch.
    destruct query as [|ch q]; [contradiction|].
    cbn [JS.truthy_str negb]. rewrite Hm.
    apply isValidCoordinate_in_bounds in Hb. rewrite Hb. reflexivity.
  - intros entries. revert st.
    induction entries as [|[a b] entries IH]; intros s Hs; [exact Hs|].
    cbn [map fold_left fst snd WeatherApp.step]. apply IH.
    destruct (WeatherApp.isValidCoordinate (parseFloat a) (parseFloat b)) eqn:E;
      [apply isValidCoordinate_in_bounds in E; rename E into Hb
      |assert (~ Spec.in_bounds (parseFloat a) (parseFloat b)) as Hb
         by (rewrite <- isValidCoordinate_in_bounds; congruence)].
    + rewrite (proj1 (Hinputs s a b) Hb). eexists. split; [reflexivity|].
      exact Hb.
    + rewrite (proj2 (Hinputs s a b) Hb). exact Hs.
Qed.

(** X17: a pair of numbers that comes from a click on the map, from the
    end of a drag of the marker, from the browser's position or from the
    geocoder is not checked against any bound: whatever the two numbers
    are, they become the current pair, and the next prediction for a date
    in range posts them as its latitude and longitude. *)
Theorem picked_coordinates_unchecked
  (x y : Q) (st : WeatherApp.state) (query : string)
  (t today : Z) (r : WeatherApp.response)
  (H0 : JS.le (JS.Num 0) (WeatherApp.daysFromNow (Some t) today) = true)
  (H7 : JS.le (WeatherApp.daysFromNow (Some t) today) (JS.Num 7) = true) :
  Forall
    (fun after : WeatherApp.state =>
       WeatherApp.currentCoords after
       = Some {| WeatherApp.lat := JS.Num x; WeatherApp.lng := JS.Num y |}
       /\ exists rest,
            WeatherApp.predictWeather after (Some t) today r
            = WeatherApp.predictBtn "Predicting..." true
              :: WeatherApp.fetch "http://localhost:5000/predict"
                   (JS.JObject
                      [ ("date", JS.JString (JS.str_slice0 16 (JS.iso_string t)));
                        ("latitude", JS.JNumber x);
                        ("longitude", JS.JNumber y) ])
              :: rest)
    [ snd (WeatherApp.onMapClick (JS.Num x) (JS.Num y));
      snd (WeatherApp.onMarkerDragEnd (JS.Num x) (JS.Num y));
      snd (WeatherApp.onPosition (JS.Num x) (JS.Num y));
      snd (WeatherApp.geocodeLocation st query
             (WeatherApp.GeoResult (JS.Num x) (JS.Num y))) ].
Proof.
  assert (forall after,
            WeatherApp.currentCoords after
            = Some {| WeatherApp.lat := JS.Num x; WeatherApp.lng := JS.Num y |} ->
            WeatherApp.currentCoords after
            = Some {| WeatherApp.lat := JS.Num x; WeatherApp.lng := JS.Num y |}
            /\ exists rest,
                 WeatherApp.predictWeather after (Some t) today r
                 = WeatherApp.predictBtn "Predicting..." true
                   :: WeatherApp.fetch "http://localhost:5000/predict"
                        (JS.JObject
                           [ ("date",
                               JS.JString (JS.str_slice0 16 (JS.iso_string t)));
                             ("latitude", JS.JNumber x);
                             ("longitude", JS.JNumber y) ])
                   :: rest) as Hsend.
  { intros after Hc. split; [exact Hc|].
    destruct (predictWeather_in_range after _ (Some t) today r Hc H0 H7)
      as (t' & rest & [= <-] & Htrace & _).
    exists rest. exact Htrace. }
  repeat apply Forall_cons_2; try apply Forall_nil_2; apply Hsend; reflexivity.
Qed.

(** A click on a copy of the world map east of the date line: the longitude
    540 is posted. *)
Lemma picked_coordinates_unchecked_witness :
  exists rest,
    WeatherApp.predictWeather
      (snd (WeatherApp.onMapClick (JS.Num 10) (JS.Num 540)))
      (Some Examples.picked) Examples.now Examples.mild_day_reply
    = WeatherApp.predictBtn "Predicting..." true
      :: WeatherApp.fetch "http://localhost:5000/predict"
           (JS.JObject
              [ ("date",
                  JS.JString (JS.str_slice0 16 (JS.iso_string Examples.picked)));
                ("latitude", JS.JNumber 10);
                ("longitude", JS.JNumber 540) ])
      :: rest.
Proof.
  pose proof (picked_coordinates_unchecked 10 540
                (snd WeatherApp.constructor) "" Examples.picked Examples.now
                Examples.mild_day_reply eq_refl eq_refl) as H.
  apply Forall_cons in H as [[_ H] _]. exact H.
Defined.

(** ** The dashboards: what every run leaves behind *)

Ltac trace_facts :=
  repeat match goal with
         | |- _ /\ _ => split
         | |- _ <-> _ => split
         | |- _ -> _ => intro
         | |- ~ _ => intro
         | H : _ \/ _ |- _ => destruct H
         | H : _ /\ _ |- _ => destruct H
         | H : exists _, _ |- _ => destruct H
         | H : False |- _ => destruct H
         | H : In _ _ |- _ => cbn [In app] in H
         | H : _ = _ |- _ => discriminate H
         end.

(** X18: every run of the location dashboard's prediction takes the loading
    indicator down as often as it puts it up, sends at most one request,
    and, unless it stops at once because a prediction is in flight, shows
    exactly one of the results and an error.  The results section is shown
    exactly when [displayResults] returned, and then the data kept are
    those of the answer.  The body of an accepted reply is kept before it
    is displayed: when [displayResults] throws on it, the error is shown,
    the results section stays hidden, and the data kept are that body
    ([null] for the body [null]), not the earlier data.  Every other run
    leaves the state as it was, the earlier data included.  A run that
    disabled the button ends by enabling it under its label. *)
Theorem predictEnvironment_run
  (NumberToString : Q -> string) (st : WeatherOracle.state) (date : string)
  (r : Api.response) :
  let trace := fst (WeatherOracle.predictEnvironment NumberToString st date r) in
  let after := snd (WeatherOracle.predictEnvironment NumberToString st date r) in
  length (List.filter Dom.is_showLoading trace)
  = length (List.filter Dom.is_hideLoading trace)
  /\ (length (List.filter Dom.is_fetch trace) <= 1)%nat
  /\ (WeatherOracle.isLoading st = false ->
      (length (List.filter Dom.is_showError trace)
       + length (List.filter Dom.is_displayResults trace) = 1)%nat)
  /\ (WeatherOracle.isLoading st = true -> trace = [])
  /\ (In Dom.showResults trace <-> exists res, In (Dom.displayResults res) trace)
  /\ (forall res, In (Dom.displayResults res) trace ->
      exists data,
        WeatherOracle.currentData after = Some (Api.Rendered data)
        /\ res = WeatherOracle.renderResults NumberToString data)
  /\ (In Dom.displayInterrupted trace <->
      WeatherOracle.isLoading st = false /\ JS.truthy_str date = true
      /\ is_Some (WeatherOracle.selectedLocation st)
      /\ exists status null, r = Api.StatusOther status null)
  /\ (In Dom.displayInterrupted trace ->
      In (Dom.showError
            "Failed to get predictions. Please make sure the API server is running.")
         trace
      /\ ~ In Dom.showResults trace
      /\ (forall res, ~ In (Dom.displayResults res) trace)
      /\ forall status null,
           r = Api.StatusOther status null ->
           WeatherOracle.currentData after
           = if null then None else Some Api.Unrendered)
  /\ ((forall res, ~ In (Dom.displayResults res) trace) ->
      ~ In Dom.displayInterrupted trace -> after = st)
  /\ WeatherOracle.isLoading after = WeatherOracle.isLoading st
  /\ WeatherOracle.selectedLocation after = WeatherOracle.selectedLocation st
  /\ ((exists text, In (Dom.predictBtn text true) trace) ->
      last trace = Some (Dom.predictBtn "Generate Prediction" false)).
Proof.
  cbv zeta. unfold WeatherOracle.predictEnvironment.
  destruct st as [[|] loc cur]; cbn [WeatherOracle.isLoading];
    [cbn; trace_facts; auto; lia|].
  destruct (JS.truthy_str date); cbn [negb];
    [|cbn; trace_facts; auto; lia].
  cbn [WeatherOracle.selectedLocation].
  destruct loc as [loc|];
    [|cbn; trace_facts; auto; try lia;
      try match goal with H : is_Some None |- _ => destruct H; discriminate end].
  cbv zeta.
  destruct r as [|[|] status [data|]|status null];
    cbn [fst snd app List.filter Dom.is_showLoading Dom.is_hideLoading
         Dom.is_fetch Dom.is_showError Dom.is_displayResults length
         WeatherOracle.isLoading WeatherOracle.selectedLocation
         WeatherOracle.currentData];
    trace_facts; try reflexivity; try lia; try (cbn [In]; eauto 10; fail).
  all: try (exfalso; eapply H; cbn [In]; eauto 10; fail).
  all: try match goal with
           | H : Dom.displayResults _ = Dom.displayResults _ |- _ =>
               injection H as <-; eexists; split; reflexivity
           end.
  all: try match goal with
           | H : Api.StatusOther _ _ = Api.StatusOther _ _ |- _ =>
               injection H as <- <-; reflexivity
           end.
  all: try (exfalso;
            match goal with
            | H : ~ In Dom.displayInterrupted _ |- _ =>
                apply H; cbn [In]; tauto
            end).
Qed.

(** An accepted reply whose body is an object without a summary: the error
    is shown although the reply was accepted, and the body has replaced
    the data kept before. *)
Lemma predictEnvironment_run_witness :
  let run :=
    WeatherOracle.predictEnvironment (fun _ => "") Examples.oracle_ready
      "2023-02-15" (Api.StatusOther 200 false) in
  In (Dom.showError
        "Failed to get predictions. Please make sure the API server is running.")
     (fst run)
  /\ ~ In Dom.showResults (fst run)
  /\ WeatherOracle.currentData (snd run) = Some Api.Unrendered.
Proof.
  cbv zeta.
  pose proof (predictEnvironment_run (fun _ => "") Examples.oracle_ready
                "2023-02-15" (Api.StatusOther 200 false)) as H.
  cbv zeta in H.
  destruct H as (_ & _ & _ & _ & _ & _ & _ & H & _).
  destruct H as (Herr & Hres & _ & Hdata).
  { cbn. tauto. }
  split; [exact Herr|]. split; [exact Hres|].
  exact (Hdata 200 false eq_refl).
Defined.

(** X19: the date-only dashboard keeps the same discipline without a guard
    and without the button: every run takes the loading indicator down as
    often as it puts it up, sends at most one request, shows exactly one of
    the results and an error, never touches the button, shows the results
    section exactly when [displayResults] returned and keeps then the data
    of the answer; when [displayResults] throws on the body of an accepted
    reply, the error is shown, the results section stays hidden and the
    data kept are that body ([null] for the body [null]); every other run
    leaves the state as it was. *)
Theorem predictEnvironment_date_only_run
  (NumberToString : Q -> string) (st : EnvironmentalDashboard.state)
  (date : string) (r : Api.response) :
  let trace :=
    fst (EnvironmentalDashboard.predictEnvironment NumberToString st date r) in
  let after :=
    snd (EnvironmentalDashboard.predictEnvironment NumberToString st date r) in
  length (List.filter Dom.is_showLoading trace)
  = length (List.filter Dom.is_hideLoading trace)
  /\ (length (List.filter Dom.is_fetch trace) <= 1)%nat
  /\ (length (List.filter Dom.is_showError trace)
      + length (List.filter Dom.is_displayResults trace) = 1)%nat
  /\ (forall text disabled, ~ In (Dom.predictBtn text disabled) trace)
  /\ (In Dom.showResults trace <-> exists res, In (Dom.displayResults res) trace)
  /\ (forall res, In (Dom.displayResults res) trace ->
      exists data,
        EnvironmentalDashboard.currentData after = Some (Api.Rendered data)
        /\ res = EnvironmentalDashboard.renderResults NumberToString data)
  /\ (In Dom.displayInterrupted trace <->
      JS.truthy_str date = true
      /\ exists status null, r = Api.StatusOther status null)
  /\ (In Dom.displayInterrupted trace ->
      In (Dom.showError
            "Failed to get predictions. Please make sure the API server is running.")
         trace
      /\ ~ In Dom.showResults trace
      /\ (forall res, ~ In (Dom.displayResults res) trace)
      /\ forall status null,
           r = Api.StatusOther status null ->
           EnvironmentalDashboard.currentData after
           = if null then None else Some Api.Unrendered)
  /\ ((forall res, ~ In (Dom.displayResults res) trace) ->
      ~ In Dom.displayInterrupted trace -> after = st).
Proof.
  cbv zeta. unfold EnvironmentalDashboard.predictEnvironment.
  destruct (JS.truthy_str date); cbn [negb];
    [|cbn; trace_facts; auto; lia].
  cbv zeta.
  destruct r as [|[|] status [data|]|status null];
    cbn [fst snd app List.filter Dom.is_showLoading Dom.is_hideLoading
         Dom.is_fetch Dom.is_showError Dom.is_displayResults length
         EnvironmentalDashboard.currentData];
    trace_facts; try reflexivity; try lia; try (cbn [In]; eauto 10; fail).
  all: try (exfalso; eapply H; cbn [In]; eauto 10; fail).
  all: try match goal with
           | H : Dom.displayResults _ = Dom.displayResults _ |- _ =>
               injection H as <-; eexists; split; reflexivity
           end.
  all: try match goal with
           | H : Api.StatusOther _ _ = Api.StatusOther _ _ |- _ =>
               injection H as <- <-; reflexivity
           end.
  all: try (exfalso;
            match goal with
            | H : ~ In Dom.displayInterrupted _ |- _ =>
                apply H; cbn [In]; tauto
            end).
Qed.

(** The body [null], accepted with status 200: the error is shown and the
    data kept before are gone. *)
Lemma predictEnvironment_date_only_run_witness :
  let run :=
    EnvironmentalDashboard.predictEnvironment (fun _ => "")
      {| EnvironmentalDashboard.currentData := Some Api.Unrendered |}
      "2023-02-15" (Api.StatusOther 200 true) in
  In (Dom.showError
        "Failed to get predictions. Please make sure the API server is running.")
     (fst run)
  /\ EnvironmentalDashboard.currentData (snd run) = None.
Proof.
  cbv zeta.
  pose proof (predictEnvironment_date_only_run (fun _ => "")
                {| EnvironmentalDashboard.currentData := Some Api.Unrendered |}
                "2023-02-15" (Api.StatusOther 200 true)) as H.
  cbv zeta in H.
  destruct H as (_ & _ & _ & _ & _ & _ & _ & H & _).
  destruct H as (Herr & _ & _ & Hdata).
  { cbn. tauto. }
  split; [exact Herr|]. exact (Hdata 200 true eq_refl).
Defined.

(** ** The service worker *)

Section Caches.
Import ServiceWorker.
Implicit Types (cs : list (string * gmap string response)).

Lemma caches_match_app u cs n :
  caches_match u (cs ++ [(n, ∅)]) = caches_match u cs.
Proof.
  induction cs as [|[n' c] cs IH]; cbn [app caches_match].
  - now rewrite lookup_empty.
  - destruct (c !! u); [reflexivity | exact IH].
Qed.

Lemma caches_match_open u n cs :
  caches_match u (caches_open n cs) = caches_match u cs.
Proof.
  unfold caches_open. destruct (existsb _ cs); [reflexivity|].
  apply caches_match_app.
Qed.

Lemma caches_open_exists n cs :
  existsb (fun nc => String.eqb nc.1 n) (caches_open n cs) = true.
Proof.
  unfold caches_open. destruct (existsb _ cs) eqn:E; [exact E|].
  rewrite existsb_app, E. cbn. now rewrite String.eqb_refl.
Qed.

Lemma caches_match_insert_ne u u' n r cs :
  u' <> u -> caches_match u (cache_insert n u' r cs) = caches_match u cs.
Proof.
  intros Hne. induction cs as [|[n' c] cs IH]; cbn [cache_insert caches_match];
    [reflexivity|].
  destruct (String.eqb n' n); cbn [caches_match].
  - now rewrite lookup_insert_ne.
  - now rewrite IH.
Qed.

Lemma caches_match_insert_miss u n r cs :
  caches_match u cs = None ->
  existsb (fun nc => String.eqb nc.1 n) cs = true ->
  caches_match u (cache_insert n u r cs) = Some r.
Proof.
  induction cs as [|[n' c] cs IH];
    cbn [cache_insert caches_match existsb fst]; [discriminate|].
  destruct (c !! u) eqn:Hc; [discriminate|]. intros Hm.
  destruct (String.eqb n' n); cbn [orb caches_match].
  - intros _. now rewrite lookup_insert_eq.
  - intros He. rewrite Hc. now apply IH.
Qed.

Lemma open_put_keeps u u' n r cs x :
  u' <> u -> caches_match u cs = Some x ->
  caches_match u (open_put n u' r cs) = Some x.
Proof.
  intros Hne Hm. unfold open_put.
  destruct (status r =? 206).
  - now rewrite caches_match_open.
  - now rewrite caches_match_insert_ne, caches_match_open.
Qed.

Lemma onFetch_keeps net req cs u x :
  caches_match u cs = Some x ->
  caches_match u (onFetch net req cs).2 = Some x.
Proof.
  intros Hm. unfold onFetch.
  destruct (negb (String.eqb (method req) "GET")); [exact Hm|].
  destruct (caches_match (url req) cs) as [cached|] eqn:E; [exact Hm|].
  destruct net as [res|]; [|exact Hm].
  cbn [snd]. apply open_put_keeps; [|exact Hm].
  intros Heq. rewrite Heq in E. congruence.
Qed.

End Caches.

(** X20: the worker answers from the cache first and never refreshes it:
    once a URL has a cached answer, every later GET for it is answered with
    that same answer, whatever the network would give and whatever requests
    were handled in between; requests that are not GET are left to the
    browser and change no cache. *)
Theorem onFetch_cache_is_sticky
  (cs : list (string * gmap string ServiceWorker.response))
  (u : string) (x : ServiceWorker.response)
  (Hcached : ServiceWorker.caches_match u cs = Some x)
  (events : list (option ServiceWorker.response * ServiceWorker.request)) :
  let later :=
    fold_left (fun cs e => (ServiceWorker.onFetch e.1 e.2 cs).2) events cs in
  ServiceWorker.caches_match u later = Some x
  /\ (forall net,
        ServiceWorker.onFetch net
          {| ServiceWorker.method := "GET"; ServiceWorker.url := u |} later
        = (ServiceWorker.Respond x, later))
  /\ (forall net req,
        ServiceWorker.method req <> "GET" ->
        ServiceWorker.onFetch net req later = (ServiceWorker.NotHandled, later)).
Proof.
  cbv zeta.
  set (later := fold_left _ events cs).
  assert (ServiceWorker.caches_match u later = Some x) as Hlater.
  { subst later. revert cs Hcached.
    induction events as [|[net req] events IH];
      intros cs Hcached; [exact Hcached|].
    cbn [fold_left fst snd]. apply IH. now apply onFetch_keeps. }
  clearbody later.
  split; [exact Hlater|]. split.
  - intros net. unfold ServiceWorker.onFetch.
    cbn [ServiceWorker.method ServiceWorker.url].
    change (String.eqb "GET" "GET") with true. cbn [negb].
    rewrite Hlater. reflexivity.
  - intros net req Hm. unfold ServiceWorker.onFetch.
    apply String.eqb_neq in Hm. rewrite Hm. reflexivity.
Qed.

(** A page stored with status 404 is still served after the network has
    recovered. *)
Lemma onFetch_cache_is_sticky_witness :
  ServiceWorker.onFetch
    (Some {| ServiceWorker.status := 200; ServiceWorker.body := "page" |})
    {| ServiceWorker.method := "GET"; ServiceWorker.url := "./app.js" |}
    [(ServiceWorker.CACHE,
      {[ "./app.js" :=
           {| ServiceWorker.status := 404; ServiceWorker.body := "" |} ]})]
  = (ServiceWorker.Respond
       {| ServiceWorker.status := 404; ServiceWorker.body := "" |},
     [(ServiceWorker.CACHE,
       {[ "./app.js" :=
            {| ServiceWorker.status := 404; ServiceWorker.body := "" |} ]})]).
Proof.
  assert (ServiceWorker.caches_match "./app.js"
            [(ServiceWorker.CACHE,
              {[ "./app.js" :=
                   {| ServiceWorker.status := 404;
                      ServiceWorker.body := "" |} ]})]
          = Some {| ServiceWorker.status := 404; ServiceWorker.body := "" |})
    as Hcached by (vm_compute; reflexivity).
  apply (proj1 (proj2 (onFetch_cache_is_sticky _ _ _ Hcached []))).
Defined.

(** X21: a GET for a URL that no cache holds goes to the network: when the
    network fails the request fails and nothing is stored; when it answers,
    the answer is passed on, and unless it is partial (status 206) it is
    stored under the URL, whatever its status, error statuses included, so
    that the next GET for the URL is answered with it without the network;
    a partial answer is passed on and not stored. *)
Theorem onFetch_miss
  (cs : list (string * gmap string ServiceWorker.response)) (u : string)
  (Hmiss : ServiceWorker.caches_match u cs = None) :
  let req := {| ServiceWorker.method := "GET"; ServiceWorker.url := u |} in
  ServiceWorker.onFetch None req cs = (ServiceWorker.Failed, cs)
  /\ (forall res : ServiceWorker.response,
        let after := (ServiceWorker.onFetch (Some res) req cs).2 in
        (ServiceWorker.onFetch (Some res) req cs).1 = ServiceWorker.Respond res
        /\ (ServiceWorker.status res <> 206 ->
            ServiceWorker.caches_match u after = Some res
            /\ forall net,
                 ServiceWorker.onFetch net req after
                 = (ServiceWorker.Respond res, after))
        /\ (ServiceWorker.status res = 206 ->
            ServiceWorker.caches_match u after = None)).
Proof.
  cbv zeta.
  assert (forall net,
            ServiceWorker.onFetch net
              {| ServiceWorker.method := "GET"; ServiceWorker.url := u |} cs
            = match net with
              | Some res =>
                  (ServiceWorker.Respond res,
                   ServiceWorker.open_put ServiceWorker.CACHE u res cs)
              | None => (ServiceWorker.Failed, cs)
              end) as Hf.
  { intros net. unfold ServiceWorker.onFetch.
    cbn [ServiceWorker.method ServiceWorker.url].
    change (String.eqb "GET" "GET") with true. cbn [negb].
    rewrite Hmiss. reflexivity. }
  split; [apply (Hf None)|]. intros res. rewrite (Hf (Some res)).
  cbn [fst snd]. split; [reflexivity|]. split.
  - intros Hs.
    assert (ServiceWorker.caches_match u
              (ServiceWorker.open_put ServiceWorker.CACHE u res cs)
            = Some res) as Hstored.
    { unfold ServiceWorker.open_put. apply Z.eqb_neq in Hs. rewrite Hs.
      apply caches_match_insert_miss;
        [now rewrite caches_match_open | apply caches_open_exists]. }
    split; [exact Hstored|]. intros net. unfold ServiceWorker.onFetch.
    cbn [ServiceWorker.method ServiceWorker.url].
    change (String.eqb "GET" "GET") with true. cbn [negb].
    rewrite Hstored. reflexivity.
  - intros Hs. unfold ServiceWorker.open_put.
    rewrite (proj2 (Z.eqb_eq _ _) Hs). now rewrite caches_match_open.
Qed.

(** With no cache at all, an answer with status 500 is stored. *)
Lemma onFetch_miss_witness :
  ServiceWorker.caches_match "./api"
    (ServiceWorker.onFetch
       (Some {| ServiceWorker.status := 500; ServiceWorker.body := "down" |})
       {| ServiceWorker.method := "GET"; ServiceWorker.url := "./api" |} []).2
  = Some {| ServiceWorker.status := 500; ServiceWorker.body := "down" |}.
Proof.
  apply (proj1 (proj1 (proj2 (proj2 (onFetch_miss [] "./api" eq_refl)
                                {| ServiceWorker.status := 500;
                                   ServiceWorker.body := "down" |}))
                 ltac:(discriminate))).
Defined.

Section Activation.
Import ServiceWorker.
Implicit Types (cs : list (string * gmap string response)).

Lemma filter_filter {A} (f g : A -> bool) (l : list A) :
  List.filter f (List.filter g l) = List.filter (fun x => g x && f x) l.
Proof.
  induction l as [|x l IH]; cbn [List.filter]; [reflexivity|].
  destruct (g x); cbn [List.filter andb]; [|exact IH].
  destruct (f x); now rewrite IH.
Qed.

Lemma fold_caches_delete (ks : list string) cs :
  fold_left (fun cs k => caches_delete k cs) ks cs
  = List.filter (fun nc => negb (existsb (String.eqb nc.1) ks)) cs.
Proof.
  revert cs. induction ks as [|k ks IH]; intros cs; cbn [fold_left existsb].
  - induction cs as [|nc cs IHcs]; cbn [List.filter negb]; [reflexivity|].
    f_equal. exact IHcs.
  - rewrite IH. unfold caches_delete. rewrite filter_filter.
    apply filter_ext. intros nc. now rewrite negb_orb.
Qed.

(** Activation keeps the caches named [CACHE], as they are and in their
    order, and nothing else. *)
Lemma onActivate_filter cs :
  onActivate cs = List.filter (fun nc => String.eqb nc.1 CACHE) cs.
Proof.
  unfold onActivate. cbv zeta. rewrite fold_caches_delete.
  apply filter_ext_in. intros nc Hin.
  destruct (String.eqb nc.1 CACHE) eqn:E.
  - apply String.eqb_eq in E. apply negb_true_iff.
    apply not_true_is_false. intros Hex.
    apply existsb_exists in Hex as (k & Hk & Hkeq).
    apply String.eqb_eq in Hkeq. apply filter_In in Hk as [_ Hk].
    apply negb_true_iff, String.eqb_neq in Hk. congruence.
  - apply negb_false_iff. apply existsb_exists. exists nc.1.
    split; [|apply String.eqb_refl].
    apply filter_In. split; [now apply in_map|]. now rewrite E.
Qed.

Lemma filter_cache_insert u r cs :
  List.filter (fun nc => String.eqb nc.1 CACHE) (cache_insert CACHE u r cs)
  = cache_insert CACHE u r (List.filter (fun nc => String.eqb nc.1 CACHE) cs).
Proof.
  induction cs as [|[n' c] cs IH]; cbn [cache_insert List.filter fst];
    [reflexivity|].
  destruct (String.eqb n' CACHE) eqn:Ec; cbn [List.filter fst cache_insert];
    rewrite Ec; [reflexivity | exact IH].
Qed.

(** Once the cache has been opened, the caches kept by activation start
    with it. *)
Lemma filter_caches_open cs :
  exists c rest,
    List.filter (fun nc => String.eqb nc.1 CACHE) (caches_open CACHE cs)
    = (CACHE, c) :: rest.
Proof.
  unfold caches_open.
  destruct (existsb (fun nc => String.eqb nc.1 CACHE) cs) eqn:E.
  - induction cs as [|[n c] cs IH]; [discriminate|].
    cbn [existsb fst] in E. cbn [List.filter fst].
    destruct (String.eqb n CACHE) eqn:En.
    + apply String.eqb_eq in En. subst n. eauto.
    + apply IH. exact E.
  - induction cs as [|[n c] cs IH]; cbn [app List.filter fst].
    + change (String.eqb CACHE CACHE) with true. cbn. eauto.
    + cbn [existsb fst] in E. apply orb_false_iff in E as [En E].
      rewrite En. now apply IH.
Qed.

Lemma mapM_ASSETS (net : string -> option response) :
  mapM net ASSETS
  = match net "./", net "./index.html", net "./styles.css", net "./app.js",
          net "./assets/icons/weather-sun.svg" with
    | Some r1, Some r2, Some r3, Some r4, Some r5 => Some [r1; r2; r3; r4; r5]
    | _, _, _, _, _ => None
    end.
Proof.
  unfold ASSETS. cbn.
  destruct (net "./"), (net "./index.html"), (net "./styles.css"),
    (net "./app.js"), (net "./assets/icons/weather-sun.svg"); reflexivity.
Qed.

End Activation.

(** X22: installation stores the assets all together or not at all: it
    succeeds exactly when the network answers every asset with an ok
    status other than 206, and when it fails the cache has only been
    opened.  After a successful installation and the activation, no cache
    of another name is left, and every asset is answered without the
    network with what the network gave at installation. *)
Theorem install_then_offline
  (net : string -> option ServiceWorker.response)
  (cs : list (string * gmap string ServiceWorker.response)) :
  let installed := ServiceWorker.onInstall net cs in
  (installed.1 = true <->
   Forall
     (fun u => exists r,
        net u = Some r /\ ServiceWorker.ok r = true
        /\ ServiceWorker.status r <> 206)
     ServiceWorker.ASSETS)
  /\ (installed.1 = false ->
      installed.2 = ServiceWorker.caches_open ServiceWorker.CACHE cs)
  /\ (installed.1 = true ->
      let active := ServiceWorker.onActivate installed.2 in
      Forall (fun nc => nc.1 = ServiceWorker.CACHE) active
      /\ forall u, In u ServiceWorker.ASSETS ->
           exists r,
             net u = Some r
             /\ ServiceWorker.onFetch None
                  {| ServiceWorker.method := "GET"; ServiceWorker.url := u |}
                  active
                = (ServiceWorker.Respond r, active)).
Proof.
  cbv zeta. unfold ServiceWorker.onInstall. cbv zeta.
  rewrite mapM_ASSETS.
  assert (forall r : ServiceWorker.response,
            ServiceWorker.ok r && negb (ServiceWorker.status r =? 206) = true
            <-> ServiceWorker.ok r = true /\ ServiceWorker.status r <> 206)
    as Hgood.
  { intros r. rewrite andb_true_iff, negb_true_iff, Z.eqb_neq. tauto. }
  assert (forall P : string -> Prop,
            Forall P ServiceWorker.ASSETS
            <-> P "./" /\ P "./index.html" /\ P "./styles.css" /\ P "./app.js"
                /\ P "./assets/icons/weather-sun.svg") as Hassets.
  { intros P. unfold ServiceWorker.ASSETS.
    rewrite !Forall_cons, Forall_nil. tauto. }
  assert (forall u, In u ServiceWorker.ASSETS
                    <-> u = "./" \/ u = "./index.html" \/ u = "./styles.css"
                        \/ u = "./app.js"
                        \/ u = "./assets/icons/weather-sun.svg") as Hin.
  { intros u. unfold ServiceWorker.ASSETS. cbn [In].
    split; intros H; repeat (destruct H as [H|H]; [auto 6|]);
      try contradiction; auto 6. }
  rewrite Hassets.
  destruct (net "./") as [r1|] eqn:N1;
    [|split; [split; [discriminate | intros ((r & H & _) & _); discriminate]|];
      split; [reflexivity | discriminate]].
  destruct (net "./index.html") as [r2|] eqn:N2;
    [|split; [split; [discriminate | intros (_ & (r & H & _) & _); discriminate]|];
      split; [reflexivity | discriminate]].
  destruct (net "./styles.css") as [r3|] eqn:N3;
    [|split;
      [split; [discriminate | intros (_ & _ & (r & H & _) & _); discriminate]|];
      split; [reflexivity | discriminate]].
  destruct (net "./app.js") as [r4|] eqn:N4;
    [|split;
      [split;
       [discriminate | intros (_ & _ & _ & (r & H & _) & _); discriminate]|];
      split; [reflexivity | discriminate]].
  destruct (net "./assets/icons/weather-sun.svg") as [r5|] eqn:N5;
    [|split;
      [split;
       [discriminate | intros (_ & _ & _ & _ & (r & H & _)); discriminate]|];
      split; [reflexivity | discriminate]].
  unfold ServiceWorker.ASSETS at 1 2.
  cbn [forallb zip zip_with fold_left fst snd].
  destruct (ServiceWorker.ok r1 && negb (ServiceWorker.status r1 =? 206)
            && (ServiceWorker.ok r2 && negb (ServiceWorker.status r2 =? 206)
                && (ServiceWorker.ok r3 && negb (ServiceWorker.status r3 =? 206)
                    && (ServiceWorker.ok r4
                        && negb (ServiceWorker.status r4 =? 206)
                        && (ServiceWorker.ok r5
                            && negb (ServiceWorker.status r5 =? 206)
                            && true))))) eqn:Hall; cbn [fst snd].
  - rewrite !andb_true_iff, !negb_true_iff, !Z.eqb_neq in Hall.
    destruct Hall as (G1 & G2 & G3 & G4 & G5 & _).
    split; [split; [intros _; repeat split; eexists; (split; [reflexivity|]);
                    assumption
                   | reflexivity]|].
    split; [discriminate|]. intros _.
    change (zip ServiceWorker.ASSETS [r1; r2; r3; r4; r5])
      with [ ("./", r1); ("./index.html", r2); ("./styles.css", r3);
             ("./app.js", r4); ("./assets/icons/weather-sun.svg", r5) ].
    cbn [fold_left fst snd].
    rewrite onActivate_filter, !filter_cache_insert.
    assert (Forall (fun nc : string * gmap string ServiceWorker.response =>
                      nc.1 = ServiceWorker.CACHE)
              (List.filter (fun nc => String.eqb nc.1 ServiceWorker.CACHE)
                 (ServiceWorker.caches_open ServiceWorker.CACHE cs)))
      as Hnames.
    { apply List.Forall_forall. intros nc Hnc.
      apply filter_In in Hnc as [_ Hnc]. now apply String.eqb_eq. }
    destruct (filter_caches_open cs) as (c & rest & Heq).
    rewrite Heq in Hnames |- *.
    do 5 (cbn [ServiceWorker.cache_insert];
          change (String.eqb ServiceWorker.CACHE ServiceWorker.CACHE) with true;
          cbn iota).
    split.
    + apply Forall_cons in Hnames as [_ Hnames].
      apply Forall_cons. split; [reflexivity | exact Hnames].
    + intros u Hu. apply Hin in Hu.
      unfold ServiceWorker.onFetch.
      cbn [ServiceWorker.method ServiceWorker.url].
      change (String.eqb "GET" "GET") with true. cbn [negb].
      cbn [ServiceWorker.caches_match]. rewrite !lookup_insert.
      destruct Hu as [-> | [-> | [-> | [-> | ->]]]];
        repeat (case_decide; try discriminate; try congruence);
        (eexists; split; [eassumption | reflexivity]).
  - split; [|split; [reflexivity | discriminate]].
    split; [discriminate|]. intros (P1 & P2 & P3 & P4 & P5).
    destruct P1 as (x1 & [= <-] & Q1), P2 as (x2 & [= <-] & Q2),
      P3 as (x3 & [= <-] & Q3), P4 as (x4 & [= <-] & Q4),
      P5 as (x5 & [= <-] & Q5).
    apply Hgood in Q1, Q2, Q3, Q4, Q5.
    rewrite Q1, Q2, Q3, Q4, Q5 in Hall. discriminate Hall.
Qed.

(** ** The weather icons *)

Lemma lower_ascii_idem (c : ascii) :
  JS.lower_ascii (JS.lower_ascii c) = JS.lower_ascii c.
Proof. destruct c as [[|] [|] [|] [|] [|] [|] [|] [|]]; reflexivity. Qed.

Lemma toLowerCase_idem (s : string) :
  JS.toLowerCase (JS.toLowerCase s) = JS.toLowerCase s.
Proof.
  induction s as [|c s IH]; cbn [JS.toLowerCase]; [reflexivity|].
  now rewrite lower_ascii_idem, IH.
Qed.

(** X24: the icon of a condition does not depend on the case of its
    letters: two conditions with the same lower-case form have the same
    icon.  For a condition whose lower-case form is not a name that every
    object inherits, the result is one of the six icons and never empty:
    the icon listed for 'sunny', 'cloudy', 'rainy', 'snowy' or 'stormy',
    and the sun behind a cloud for everything else, the empty condition
    included. *)
Theorem getWeatherIcon_cases (condition : string) :
  (forall other,
     JS.toLowerCase other = JS.toLowerCase condition ->
     Utilities.getWeatherIcon other = Utilities.getWeatherIcon condition)
  /\ Utilities.getWeatherIcon (JS.toLowerCase condition)
     = Utilities.getWeatherIcon condition
  /\ (~ In (JS.toLowerCase condition) JS.Object_prototype_names ->
      exists icon,
        Utilities.getWeatherIcon condition = Some icon
        /\ icon <> ""
        /\ In icon ("🌤️" :: map snd Utilities.icons)
        /\ (forall listed,
              In (JS.toLowerCase condition, listed) Utilities.icons ->
              icon = listed)
        /\ (~ In (JS.toLowerCase condition) (map fst Utilities.icons) ->
            icon = "🌤️")).
Proof.
  split; [|split].
  - intros other H. unfold Utilities.getWeatherIcon. cbv zeta. now rewrite H.
  - unfold Utilities.getWeatherIcon. cbv zeta. now rewrite toLowerCase_idem.
  - intros Hown. unfold Utilities.getWeatherIcon. cbv zeta.
    destruct (existsb (String.eqb (JS.toLowerCase condition))
                JS.Object_prototype_names) eqn:E.
    { exfalso. apply Hown. apply existsb_exists in E as (x & Hx & Heq).
      apply String.eqb_eq in Heq. congruence. }
    eexists. split; [reflexivity|].
    generalize (JS.toLowerCase condition). intros key.
    unfold Utilities.icons. cbn [WeatherApp.table_lookup map snd fst In].
    repeat (case_bool_decide;
            [subst key; cbn [JS.or_str JS.truthy_str];
             split; [discriminate|]; split; [auto 10|];
             split; [|intros Hn; exfalso; apply Hn; auto 10];
             intros listed Hl;
             repeat (destruct Hl as [Hl|Hl]; [congruence|]); contradiction|]).
    cbn [JS.or_str].
    split; [discriminate|]. split; [auto 10|]. split; [|reflexivity].
    intros listed Hl.
    repeat (destruct Hl as [Hl|Hl]; [congruence|]). contradiction.
Qed.

(** In capitals, 'RAINY' has the icon of 'rainy'. *)
Lemma getWeatherIcon_cases_witness :
  Utilities.getWeatherIcon "RAINY" = Utilities.getWeatherIcon "rainy".
Proof. exact (proj1 (getWeatherIcon_cases "rainy") "RAINY" eq_refl). Defined.
